(** * Expense analyzer (python-service/app.py): model and verification

    A shallow embedding of [convert_numpy_types], of [ExpenseAnalyzer] and
    of the two routes [/analyze] and [/insights].

    Conventions of the model.
    - Amounts are exact rationals ([Qc]): the arithmetic of the source is
      binary64, whose rounding, overflow and NaN are outside this model.
      The only non-finite values kept are those of a division by zero of a
      pandas Series ([fnum]), which the source can produce from finite data.
    - A column of JSON integers is int64 in the source: its sums wrap
      around modulo 2^64 and [float] rounds the total.  These sums are
      modelled apart, in [Int64]; they agree with the exact ones on
      integer amounts whose absolute values sum to less than 2^53, where
      no sum wraps or is rounded, in int64 as in binary64.  The
      statements that equate sums are made on that domain.
    - A timestamp is a naive [datetime64[ns]]: an integer number of
      nanoseconds since 1970-01-01T00:00:00.
    - A Python exception is [Raise msg], with [msg] the text of [str(e)].
    - [datetime.now()] is the explicit argument [now].
    - [pd.to_datetime] and [pd.to_numeric] are library code: they are
      parameters of the model, applied to a whole column as in the source.
    - [request.get_json()] is library code: its outcome, an exception or
      the parsed body ([null] or an object), is the argument of the
      routes. *)

From Stdlib Require Import ZArith QArith Qcanon Qround List String Ascii Bool.
From Stdlib Require Import Reals Qreals Psatz.
From Stdlib Require Import Permutation Sorted DecimalString OrderedTypeEx.
Import ListNotations.

Local Open Scope string_scope.
Local Open Scope Z_scope.

(* ================================================================== *)
(** * Exceptions *)

Inductive Result (A : Type) : Type :=
| Ok (a : A)
| Raise (msg : string).
Arguments Ok {A} a.
Arguments Raise {A} msg.

Definition bind {A B} (c : Result A) (k : A -> Result B) : Result B :=
  match c with
  | Ok a => k a
  | Raise msg => Raise msg
  end.

Notation "x <- c ;; k" := (bind c (fun x => k))
  (at level 61, c at next level, right associativity).

(* ================================================================== *)
(** * Numbers *)

Definition qz (z : Z) : Qc := Q2Qc (inject_Z z).

Definition Qcltb (x y : Qc) : bool :=
  match (x ?= y)%Qc with Lt => true | _ => false end.
Definition Qcleb (x y : Qc) : bool :=
  match (x ?= y)%Qc with Gt => false | _ => true end.
Definition Qceqb (x y : Qc) : bool :=
  match (x ?= y)%Qc with Eq => true | _ => false end.

Notation "x <? y" := (Qcltb x y) : Qc_scope.
Notation "x <=? y" := (Qcleb x y) : Qc_scope.

(** [abs(x)] *)
Definition Qcabs (x : Qc) : Qc := if (x <? qz 0)%Qc then (- x)%Qc else x.

(** The result of a float division inside a pandas Series, where a zero
    divisor raises nothing: x/0 is inf, -inf or nan. *)
Inductive fnum : Type :=
| Finite (q : Qc)
| PosInf
| NegInf
| NaN.

Definition fdiv (x y : Qc) : fnum :=
  if Qceqb y (qz 0) then
    if (qz 0 <? x)%Qc then PosInf
    else if (x <? qz 0)%Qc then NegInf
    else NaN
  else Finite (x / y)%Qc.

Definition fmul (p : fnum) (c : Qc) : fnum :=
  match p with
  | Finite q => Finite (q * c)%Qc
  | PosInf => if (qz 0 <? c)%Qc then PosInf
              else if (c <? qz 0)%Qc then NegInf else NaN
  | NegInf => if (qz 0 <? c)%Qc then NegInf
              else if (c <? qz 0)%Qc then PosInf else NaN
  | NaN => NaN
  end.

(** [p > c]; every comparison with nan is false. *)
Definition fgtb (p : fnum) (c : Qc) : bool :=
  match p with
  | Finite q => (c <? q)%Qc
  | PosInf => true
  | NegInf => false
  | NaN => false
  end.

(** [sqrt v > b] and [sqrt v < b] over the reals, for [0 <= v]: the two
    comparisons the source makes with a standard deviation. *)
Definition sqrt_gtb (v b : Qc) : bool :=
  (b <? qz 0)%Qc || (b * b <? v)%Qc.
Definition sqrt_ltb (v b : Qc) : bool :=
  (qz 0 <? b)%Qc && (v <? b * b)%Qc.

(* ================================================================== *)
(** * Number formatting: the format specs [,.2f] and [.1f] *)

Definition quote : string := String (ascii_of_nat 39) EmptyString.
Definition dquote : string := String (ascii_of_nat 34) EmptyString.

Definition string_of_N (n : N) : string :=
  NilZero.string_of_uint (N.to_uint n).

Fixpoint zeros (n : nat) : string :=
  match n with
  | O => EmptyString
  | S n' => String "0" (zeros n')
  end.

Definition pad_zeros (width : nat) (s : string) : string :=
  zeros (width - String.length s) ++ s.

(** Thousands separators, on the digits from the least significant one:
    [k] digits were emitted since the last separator. *)
Fixpoint group3_rev (k : nat) (rev_digits : list ascii) : list ascii :=
  match rev_digits with
  | [] => []
  | d :: rest =>
      match k with
      | 3%nat => ","%char :: d :: group3_rev 1 rest
      | _ => d :: group3_rev (S k) rest
      end
  end.

Definition group3 (s : string) : string :=
  string_of_list_ascii (rev (group3_rev 0 (rev (list_ascii_of_string s)))).

(** Rounding to the nearest integer, ties to even (what [format] does on
    the exact value of its argument), for [0 <= q]. *)
Definition round_half_even (q : Q) : Z :=
  let n := Qnum q in
  let d := Zpos (Qden q) in
  let f := n / d in
  let r := n mod d in
  match (2 * r ?= d) with
  | Lt => f
  | Gt => f + 1
  | Eq => if Z.even f then f else f + 1
  end.

(** [format(x, '.<digits>f')], with [,] when [comma]. *)
Definition format_f (comma : bool) (digits : nat) (x : Qc) : string :=
  let scale := 10 ^ Z.of_nat digits in
  let n := round_half_even (this (Qcabs x) * inject_Z scale)%Q in
  let ip := string_of_N (Z.to_N (n / scale)) in
  let fp := pad_zeros digits (string_of_N (Z.to_N (n mod scale))) in
  (if (x <? qz 0)%Qc then "-" else "")
  ++ (if comma then group3 ip else ip)
  ++ (match digits with O => "" | _ => "." ++ fp end).

Definition format_fnum_1f (p : fnum) : string :=
  match p with
  | Finite q => format_f false 1 q
  | PosInf => "inf"
  | NegInf => "-inf"
  | NaN => "nan"
  end.

(* ================================================================== *)
(** * Data model *)

Definition Timestamp := Z.

Definition ns_per_day : Z := 86400 * 1000000000.

(** [timedelta(days=n)] *)
Definition timedelta_days (n : Z) : Z := n * ns_per_day.

(** [ts.date()]: the calendar day, as a day number since 1970-01-01. *)
Definition dt_date (t : Timestamp) : Z := t / ns_per_day.

(** [ts.weekday()]: Monday is 0 and Sunday is 6; 1970-01-01 was a
    Thursday. *)
Definition dt_weekday (t : Timestamp) : Z := (dt_date t + 3) mod 7.

(** The [amount] of a record as the request carries it: a JSON number or
    a JSON string. *)
Inductive RawAmount : Type :=
| AmtNum (q : Qc)
| AmtStr (s : string).

(** An expense record of the request body.  The schema is the one of
    section 6 of the specification: the four fields are present, and the
    two labels are strings. *)
Record RawExpense : Type := mkRawExpense {
  raw_date : string;
  raw_amount : RawAmount;
  raw_category : string;
  raw_paymentMethod : string
}.

(** A row of the DataFrame after the conversion of its [date] and
    [amount] columns. *)
Record Expense : Type := mkExpense {
  date : Timestamp;
  amount : Qc;
  category : string;
  paymentMethod : string
}.

Definition DataFrame := list Expense.

Inductive SuggestionType := info | warning | advice | tip | positive.
Inductive Priority := low | medium | high.

Record Suggestion : Type := mkSuggestion {
  type : SuggestionType;
  message : string;
  priority : Priority
}.

(** The [analysis] dict.  The keys that the empty-batch result does not
    have are options. *)
Record Analysis : Type := mkAnalysis {
  totalSpending : Qc;
  averageDailySpending : Qc;
  topCategory : string;
  topCategoryAmount : option Qc;
  categoryBreakdown : option (list (string * Qc));
  paymentMethodBreakdown : option (list (string * Qc));
  efficiencyScore : option Z;
  patterns : option (list string);
  analysis_message : string
}.

Record AnalyzeResult : Type := mkAnalyzeResult {
  suggestions : list Suggestion;
  analysis : Analysis
}.

Record Thresholds : Type := mkThresholds {
  th_low : Qc;
  th_medium : Qc;
  th_high : Qc
}.

(** [self.spending_thresholds] *)
Definition spending_thresholds : Thresholds :=
  {| th_low := qz 1000; th_medium := qz 5000; th_high := qz 10000 |}.

(* ================================================================== *)
(** * The pandas operations the analyzer uses *)

(** [series.sum()] *)
Definition series_sum (xs : list Qc) : Qc :=
  fold_left Qcplus xs (qz 0).

(** [series.mean()] *)
Definition series_mean (xs : list Qc) : Qc :=
  (series_sum xs / qz (Z.of_nat (List.length xs)))%Qc.

(** The square of [series.std()]: the sample variance (ddof = 1). *)
Definition series_var (xs : list Qc) : Qc :=
  let m := series_mean xs in
  (series_sum (map (fun x => (x - m) * (x - m)) xs)
   / qz (Z.of_nat (List.length xs) - 1))%Qc.

(** [float(s.std()) > bound] and [float(s.std()) < bound] *)
Definition std_gt (xs : list Qc) (bound : Qc) : bool :=
  sqrt_gtb (series_var xs) bound.
Definition std_lt (xs : list Qc) (bound : Qc) : bool :=
  sqrt_ltb (series_var xs) bound.

Section GroupBy.
Context {K : Type} (cmp : K -> K -> comparison).

(** One row enters the aggregation: its amount is added to the group of
    its key, and the groups are kept in increasing key order
    ([groupby] sorts its keys). *)
Fixpoint add_group (k : K) (v : Qc) (acc : list (K * Qc)) : list (K * Qc) :=
  match acc with
  | [] => [(k, v)]
  | (k', s) :: rest =>
      match cmp k k' with
      | Lt => (k, v) :: acc
      | Eq => (k', (s + v)%Qc) :: rest
      | Gt => (k', s) :: add_group k v rest
      end
  end.

(** [df.groupby(key)['amount'].sum()] *)
Definition groupby_sum (key : Expense -> K) (df : DataFrame) : list (K * Qc) :=
  fold_left (fun acc r => add_group (key r) (amount r) acc) df [].

(** The running maximum of [idxmax] and [max]: a later entry wins only
    when it is strictly larger, so the first maximum is kept. *)
Fixpoint first_max (best : K * Qc) (l : list (K * Qc)) : K * Qc :=
  match l with
  | [] => best
  | e :: rest =>
      if (snd best <? snd e)%Qc then first_max e rest
      else first_max best rest
  end.
End GroupBy.

(** [series.idxmax()] and [series.max()] of a series that is not empty;
    [d] stands for the [ValueError] of an empty one, which no caller
    reaches. *)
Definition idxmax {K} (d : K) (s : list (K * Qc)) : K :=
  match s with
  | [] => d
  | e :: rest => fst (first_max e rest)
  end.

Definition series_max {K} (s : list (K * Qc)) : Qc :=
  match s with
  | [] => qz 0
  | e :: rest => snd (first_max e rest)
  end.

(** One value enters the tally of [value_counts]. *)
Fixpoint count_add (k : string) (acc : list (string * nat)) : list (string * nat) :=
  match acc with
  | [] => [(k, 1%nat)]
  | (k', c) :: rest =>
      if String.eqb k k' then (k', S c) :: rest
      else (k', c) :: count_add k rest
  end.

(** Stable insertion by decreasing count. *)
Fixpoint insert_desc (e : string * nat) (l : list (string * nat)) : list (string * nat) :=
  match l with
  | [] => [e]
  | e' :: rest =>
      if (snd e' <? snd e)%nat then e :: l
      else e' :: insert_desc e rest
  end.

(** [series.value_counts()]: the distinct values with their counts, the
    most frequent first. *)
Definition value_counts (xs : list string) : list (string * nat) :=
  fold_right insert_desc []
    (fold_left (fun acc k => count_add k acc) xs []).

(** [int(counts.max())] *)
Definition counts_max (c : list (string * nat)) : nat :=
  fold_right (fun e m => Nat.max (snd e) m) 0%nat c.

(** Insertion into an increasing list. *)
Fixpoint insert_sorted (x : Qc) (l : list Qc) : list Qc :=
  match l with
  | [] => [x]
  | y :: rest =>
      if (x <=? y)%Qc then x :: l
      else y :: insert_sorted x rest
  end.

Definition sort_values (xs : list Qc) : list Qc :=
  fold_right insert_sorted [] xs.

(** [series.quantile(q)] with the default linear interpolation: on the
    sorted values, at the position [(n - 1) * q], between the two
    neighbouring ranks. *)
Definition quantile (q : Qc) (xs : list Qc) : Qc :=
  let sorted := sort_values xs in
  let n := List.length xs in
  let pos := (qz (Z.of_nat n - 1) * q)%Qc in
  let lo := Qfloor (this pos) in
  let g := (pos - qz lo)%Qc in
  let a := nth (Z.to_nat lo) sorted (qz 0) in
  let b := nth (Nat.min (Z.to_nat lo + 1) (n - 1)) sorted (qz 0) in
  (a + (b - a) * g)%Qc.

(* ================================================================== *)
(** * The DataFrame of a request (lines 57-59 and 281-283) *)

(** [df[name]] on the frame [pd.DataFrame(rows)]: a frame built from an
    empty list has no column, and the lookup raises [KeyError(name)]. *)
Definition getitem {A} (name : string) (proj : RawExpense -> A)
    (rows : list RawExpense) : Result (list A) :=
  match rows with
  | [] => Raise (quote ++ name ++ quote)
  | _ => Ok (map proj rows)
  end.

(** [df[name] = col]: a column of another length than the frame raises
    [ValueError]. *)
Definition setitem {A B} (rows : list A) (col : list B) : Result (list (A * B)) :=
  if Nat.eqb (List.length col) (List.length rows) then Ok (combine rows col)
  else Raise ("Length of values ("
              ++ string_of_N (N.of_nat (List.length col))
              ++ ") does not match length of index ("
              ++ string_of_N (N.of_nat (List.length rows)) ++ ")").

Section Conversion.
(** [pd.to_datetime] and [pd.to_numeric], on a column. *)
Variable to_datetime : list string -> Result (list Timestamp).
Variable to_numeric : list RawAmount -> Result (list Qc).

Definition to_frame (expenses : list RawExpense) : Result DataFrame :=
  dates <- getitem "date" raw_date expenses ;;
  dates <- to_datetime dates ;;
  df <- setitem expenses dates ;;
  amounts <- getitem "amount" raw_amount expenses ;;
  amounts <- to_numeric amounts ;;
  df <- setitem df amounts ;;
  Ok (map (fun row =>
             {| date := snd (fst row);
                amount := snd row;
                category := raw_category (fst (fst row));
                paymentMethod := raw_paymentMethod (fst (fst row)) |}) df).
End Conversion.

(** [l.append(x)] *)
Definition list_append {A} (l : list A) (x : A) : list A := (l ++ [x])%list.

(* ================================================================== *)
(** * class ExpenseAnalyzer *)

Module ExpenseAnalyzer.

(** The per-day totals, [df.groupby(df['date'].dt.date)['amount'].sum()]. *)
Definition daily_totals (df : DataFrame) : list Qc :=
  map snd (groupby_sum Z.compare (fun r => dt_date (date r)) df).

Definition _generate_suggestions (now : Timestamp) (df : DataFrame)
    (total_spending average_daily : Qc) (top_category : string)
    : list Suggestion :=
  let suggestions : list Suggestion := [] in
  (* Spending level analysis *)
  let suggestions :=
    if (th_high spending_thresholds <? total_spending)%Qc then
      list_append suggestions
        {| type := warning;
           message := "Your total spending of ₹"
                      ++ format_f true 2 total_spending
                      ++ " in the last 30 days is quite high. Consider reviewing your expenses and identifying areas to cut back.";
           priority := high |}
    else if (th_medium spending_thresholds <? total_spending)%Qc then
      list_append suggestions
        {| type := advice;
           message := "Your spending of ₹"
                      ++ format_f true 2 total_spending
                      ++ " is moderate. Look for opportunities to optimize your budget.";
           priority := medium |}
    else suggestions in
  (* Category analysis *)
  let category_totals := groupby_sum String.compare category df in
  let category_percentages :=
    map (fun e => (fst e, fmul (fdiv (snd e) total_spending) (qz 100)))
        category_totals in
  let suggestions :=
    fold_left
      (fun suggestions e =>
         if fgtb (snd e) (qz 40) then
           list_append suggestions
        {| type := advice;
                message := fst e ++ " accounts for "
                           ++ format_fnum_1f (snd e)
                           ++ "% of your spending. Consider setting a specific budget for this category.";
                priority := medium |}
         else suggestions)
      category_percentages suggestions in
  (* Daily spending pattern analysis *)
  let daily_spending := daily_totals df in
  let suggestions :=
    if (1 <? List.length daily_spending)%nat
       && std_gt daily_spending (series_mean daily_spending * Q2Qc 0.5)%Qc
    then
      list_append suggestions
        {| type := tip;
           message := "Your daily spending varies significantly. Try to maintain more consistent spending patterns.";
           priority := low |}
    else suggestions in
  (* Payment method analysis *)
  let payment_methods := value_counts (map paymentMethod df) in
  let suggestions :=
    if (List.length payment_methods =? 1)%nat then
      list_append suggestions
        {| type := tip;
           message := "You only use "
                      ++ nth 0 (map fst payment_methods) ""
                      ++ " for payments. Consider diversifying your payment methods for better tracking.";
           priority := low |}
    else suggestions in
  (* Recent spending trend *)
  let recent_expenses :=
    filter (fun r => now - timedelta_days 7 <=? date r) df in
  let suggestions :=
    if (0 <? List.length recent_expenses)%nat then
      let recent_total := series_sum (map amount recent_expenses) in
      let previous_week_total := (total_spending - recent_total)%Qc in
      if (qz 0 <? previous_week_total)%Qc then
        let change_percentage :=
          ((recent_total - previous_week_total) / previous_week_total
           * qz 100)%Qc in
        if (qz 20 <? change_percentage)%Qc then
          list_append suggestions
        {| type := warning;
               message := "Your spending increased by "
                          ++ format_f false 1 change_percentage
                          ++ "% this week compared to the previous week.";
               priority := medium |}
        else if (change_percentage <? qz (-20))%Qc then
          list_append suggestions
        {| type := positive;
               message := "Great job! Your spending decreased by "
                          ++ format_f false 1 (Qcabs change_percentage)
                          ++ "% this week.";
               priority := low |}
        else suggestions
      else suggestions
    else suggestions in
  (* Add general tips *)
  let suggestions :=
    if (List.length suggestions <? 3)%nat then
      list_append suggestions
        {| type := tip;
           message := "Track your expenses regularly to better understand your spending patterns and identify opportunities to save.";
           priority := low |}
    else suggestions in
  firstn 5 suggestions.

Definition _calculate_efficiency_score (df : DataFrame) (total_spending : Qc) : Z :=
  let score := 100 in
  (* Deduct points for high variance in daily spending *)
  let daily_spending := daily_totals df in
  let score :=
    if (1 <? List.length daily_spending)%nat
       && std_gt daily_spending (series_mean daily_spending * Q2Qc 0.5)%Qc
    then score - 20 else score in
  (* Deduct points for too many small transactions *)
  let small_transactions :=
    List.length (filter (fun r => (amount r <? qz 100)%Qc) df) in
  let score :=
    if (qz (Z.of_nat (List.length df)) * Q2Qc 0.3
        <? qz (Z.of_nat small_transactions))%Qc
    then score - 15 else score in
  (* Add points for consistent spending *)
  let score :=
    if (1 <? List.length daily_spending)%nat
       && std_lt daily_spending (series_mean daily_spending * Q2Qc 0.2)%Qc
    then score + 10 else score in
  Z.max 0 (Z.min 100 score).

Definition _identify_patterns (df : DataFrame) : list string :=
  let patterns : list string := [] in
  (* Check for weekend spending *)
  let weekend_spending :=
    series_sum (map amount (filter (fun r => 5 <=? dt_weekday (date r)) df)) in
  let weekday_spending :=
    series_sum (map amount (filter (fun r => dt_weekday (date r) <? 5) df)) in
  let patterns :=
    if (qz 0 <? weekday_spending)%Qc
       && (weekday_spending * Q2Qc 1.5 <? weekend_spending)%Qc
    then list_append patterns "Higher spending on weekends" else patterns in
  (* Check for recurring expenses *)
  let category_counts := value_counts (map category df) in
  let patterns :=
    if (0 <? List.length category_counts)%nat
       && (5 <? counts_max category_counts)%nat
    then list_append patterns "Frequent expenses in certain categories"
    else patterns in
  (* Check for large transactions *)
  let patterns :=
    if (0 <? List.length df)%nat then
      let q90 := quantile (Q2Qc 0.9) (map amount df) in
      let large_transactions := filter (fun r => (q90 <? amount r)%Qc) df in
      if (0 <? List.length large_transactions)%nat
      then list_append patterns "Occasional large transactions" else patterns
    else patterns in
  patterns.

Definition _detailed_analysis (df : DataFrame)
    (total_spending average_daily : Qc) (top_category : string)
    (top_category_amount : Qc) : Analysis :=
  let category_breakdown := groupby_sum String.compare category df in
  let payment_method_breakdown := groupby_sum String.compare paymentMethod df in
  (* Calculate spending efficiency score *)
  let efficiency_score := _calculate_efficiency_score df total_spending in
  (* Identify spending patterns *)
  let patterns := _identify_patterns df in
  {| totalSpending := total_spending;
     averageDailySpending := average_daily;
     topCategory := top_category;
     topCategoryAmount := Some top_category_amount;
     categoryBreakdown := Some category_breakdown;
     paymentMethodBreakdown := Some payment_method_breakdown;
     efficiencyScore := Some efficiency_score;
     patterns := Some patterns;
     analysis_message := "Analysis complete for ₹"
                         ++ format_f true 2 total_spending
                         ++ " in spending over 30 days." |}.

Section Analyze.
Variable to_datetime : list string -> Result (list Timestamp).
Variable to_numeric : list RawAmount -> Result (list Qc).

Definition analyze_expenses (now : Timestamp)
    (expenses_data : list RawExpense) (user_id user_name : string)
    : Result AnalyzeResult :=
  match expenses_data with
  | [] =>
      Ok {| suggestions :=
              [ {| type := info;
                   message := "No expense data available for analysis.";
                   priority := low |} ];
            analysis :=
              {| totalSpending := qz 0;
                 averageDailySpending := qz 0;
                 topCategory := "None";
                 topCategoryAmount := None;
                 categoryBreakdown := None;
                 paymentMethodBreakdown := None;
                 efficiencyScore := None;
                 patterns := None;
                 analysis_message := "Start tracking your expenses to get personalized insights!" |} |}
  | _ =>
      (* Convert to DataFrame *)
      df <- to_frame to_datetime to_numeric expenses_data ;;
      (* Basic analysis *)
      let total_spending := series_sum (map amount df) in
      let average_daily := (total_spending / qz 30)%Qc in
      let top_category :=
        idxmax "" (groupby_sum String.compare category df) in
      let top_category_amount :=
        series_max (groupby_sum String.compare category df) in
      (* Generate suggestions *)
      let suggestions :=
        _generate_suggestions now df total_spending average_daily top_category in
      (* Detailed analysis *)
      let analysis :=
        _detailed_analysis df total_spending average_daily top_category
                           top_category_amount in
      Ok {| suggestions := suggestions; analysis := analysis |}
  end.
End Analyze.

End ExpenseAnalyzer.

(* ================================================================== *)
(** * The routes *)

(** What a route returns: the JSON body with status 200, 400 or 500. *)
Inductive Response (A : Type) : Type :=
| Resp200 (body : A)
| Resp400 (error : string)
| Resp500 (error : string) (msg : string).
Arguments Resp200 {A} body.
Arguments Resp400 {A} error.
Arguments Resp500 {A} error msg.

(** The JSON object of a request to [/analyze]; a key that is absent is
    [None]. *)
Record AnalyzeBody : Type := mkAnalyzeBody {
  body_expenses : option (list RawExpense);
  body_userId : option string;
  body_userName : option string
}.

(** The JSON object of a request to [/insights]. *)
Record InsightsBody : Type := mkInsightsBody {
  ins_expenses : option (list RawExpense);
  ins_days : option Z
}.

Record Insights : Type := mkInsights {
  ins_totalSpending : Qc;
  ins_averageDailySpending : Qc;
  ins_topCategory : string;
  ins_topPaymentMethod : string;
  ins_categoryBreakdown : list (string * Qc);
  ins_paymentMethodBreakdown : list (string * Qc);
  ins_transactionCount : Z;
  ins_daysAnalyzed : Z
}.

(** [d.get(key, default)] *)
Definition dict_get {A} (v : option A) (default : A) : A :=
  match v with
  | Some a => a
  | None => default
  end.

(** [x / days] on Python numbers: a zero divisor raises
    [ZeroDivisionError]. *)
Definition py_div (x : Qc) (days : Z) : Result Qc :=
  if days =? 0 then Raise "float division by zero"
  else Ok (x / qz days)%Qc.

(** [totals.idxmax() if len(totals) > 0 else 'None'] *)
Definition top_label (totals : list (string * Qc)) : string :=
  if (0 <? List.length totals)%nat then idxmax "" totals else "None".

Section Routes.
Variable to_datetime : list string -> Result (list Timestamp).
Variable to_numeric : list RawAmount -> Result (list Qc).

(** [POST /analyze] from the value [data] that [request.get_json()]
    returned ([None] for the JSON [null]): lines 243-264.  The call of
    [request.get_json()] itself, which is inside the [try], is in
    [analyze_expenses_request]. *)
Definition analyze_expenses (now : Timestamp) (data : option AnalyzeBody)
    : Response AnalyzeResult :=
  match data with
  | None => Resp400 "Missing expenses data"
  | Some data =>
      match body_expenses data with
      | None => Resp400 "Missing expenses data"
      | Some expenses =>
          let user_id := dict_get (body_userId data) "unknown" in
          let user_name := dict_get (body_userName data) "User" in
          (* Analyze expenses *)
          match ExpenseAnalyzer.analyze_expenses to_datetime to_numeric
                  now expenses user_id user_name with
          | Ok result => Resp200 result
          | Raise msg => Resp500 "Analysis failed" msg
          end
      end
  end.

(** [POST /insights] from the value [data] that [request.get_json()]
    returned: lines 272-314.  The call itself is in
    [get_insights_request]. *)
Definition get_insights (data : option InsightsBody) : Response Insights :=
  match data with
  | None => Resp400 "Missing expenses data"
  | Some data =>
      match ins_expenses data with
      | None => Resp400 "Missing expenses data"
      | Some expenses =>
          let days := dict_get (ins_days data) 30 in
          match
            (* Convert to DataFrame *)
            df <- to_frame to_datetime to_numeric expenses ;;
            (* Calculate insights *)
            let total_spending := series_sum (map amount df) in
            average_daily <- py_div total_spending days ;;
            (* Category insights *)
            let category_totals := groupby_sum String.compare category df in
            let top_category := top_label category_totals in
            (* Payment method insights *)
            let payment_totals := groupby_sum String.compare paymentMethod df in
            let top_payment := top_label payment_totals in
            Ok {| ins_totalSpending := total_spending;
                  ins_averageDailySpending := average_daily;
                  ins_topCategory := top_category;
                  ins_topPaymentMethod := top_payment;
                  ins_categoryBreakdown := category_totals;
                  ins_paymentMethodBreakdown := payment_totals;
                  ins_transactionCount := Z.of_nat (List.length df);
                  ins_daysAnalyzed := days |}
          with
          | Ok insights => Resp200 insights
          | Raise msg => Resp500 "Insights generation failed" msg
          end
      end
  end.

(** The whole [try] block of each route (lines 240-264 and 269-314).
    [request.get_json()] is evaluated inside the [try]: when it raises
    (a request without a JSON body, or a body that does not parse) the
    [except] branch answers 500 with its message.  [get_json] is the
    outcome of that call: an exception, or the parsed body, which is the
    JSON [null] or an object. *)
Definition analyze_expenses_request (now : Timestamp)
    (get_json : Result (option AnalyzeBody)) : Response AnalyzeResult :=
  match get_json with
  | Raise msg => Resp500 "Analysis failed" msg
  | Ok data => analyze_expenses now data
  end.

End Routes.

(* ================================================================== *)
(** * Concrete parsers for the examples

    Instances of the two library parsers on the inputs the examples use:
    ISO dates [YYYY-MM-DD] (midnight of that day), JSON numbers, and
    strings of decimal digits. *)

Module Sample.

Definition digit (c : ascii) : option Z :=
  let n := Z.of_nat (nat_of_ascii c) in
  if (48 <=? n) && (n <=? 57) then Some (n - 48) else None.

Fixpoint digits (acc : Z) (s : string) : option Z :=
  match s with
  | EmptyString => Some acc
  | String c rest =>
      match digit c with
      | Some d => digits (10 * acc + d) rest
      | None => None
      end
  end.

Definition number (s : string) : option Z :=
  match s with
  | EmptyString => None
  | _ => digits 0 s
  end.

(** The day number of a date of the proleptic Gregorian calendar. *)
Definition days_from_civil (y m d : Z) : Z :=
  let y := if m <=? 2 then y - 1 else y in
  let era := y / 400 in
  let yoe := y - era * 400 in
  let mp := if 2 <? m then m - 3 else m + 9 in
  let doy := (153 * mp + 2) / 5 + d - 1 in
  let doe := yoe * 365 + yoe / 4 - yoe / 100 + doy in
  era * 146097 + doe - 719468.

Definition date_error (position : nat) (s : string) : string :=
  "Unknown datetime string format, unable to parse: " ++ s
  ++ ", at position " ++ string_of_N (N.of_nat position).

Definition parse_date (position : nat) (s : string) : Result Timestamp :=
  match number (substring 0 4 s), substring 4 1 s,
        number (substring 5 2 s), substring 7 1 s,
        number (substring 8 2 s), String.length s with
  | Some y, "-", Some m, "-", Some d, 10%nat =>
      if (1 <=? m) && (m <=? 12) && (1 <=? d) && (d <=? 31)
      then Ok (days_from_civil y m d * ns_per_day)
      else Raise (date_error position s)
  | _, _, _, _, _, _ => Raise (date_error position s)
  end.

Definition amount_error (position : nat) (s : string) : string :=
  "Unable to parse string " ++ dquote ++ s ++ dquote
  ++ " at position " ++ string_of_N (N.of_nat position).

Definition parse_amount (position : nat) (a : RawAmount) : Result Qc :=
  match a with
  | AmtNum q => Ok q
  | AmtStr s =>
      match number s with
      | Some n => Ok (qz n)
      | None => Raise (amount_error position s)
      end
  end.

(** The conversion of a column, value by value; the first failure is
    raised, with its position. *)
Fixpoint each_from {A B} (f : nat -> A -> Result B) (position : nat)
    (l : list A) : Result (list B) :=
  match l with
  | [] => Ok []
  | a :: rest =>
      b <- f position a ;;
      bs <- each_from f (S position) rest ;;
      Ok (b :: bs)
  end.

Definition to_datetime : list string -> Result (list Timestamp) :=
  each_from parse_date 0.
Definition to_numeric : list RawAmount -> Result (list Qc) :=
  each_from parse_amount 0.

(** [datetime(y, m, d)] *)
Definition at_midnight (y m d : Z) : Timestamp :=
  days_from_civil y m d * ns_per_day.

End Sample.


(* ================================================================== *)
(** * convert_numpy_types (lines 15-27) *)

Local Unset Elimination Schemes.

(** The contents of a numeric [np.ndarray]: a scalar (a 0-d array) or a
    sequence of sub-arrays. *)
Inductive NdArray : Type :=
| NdInt (z : Z)
| NdFloat (x : fnum)
| NdDim (items : list NdArray).

(** The Python values the conversion tells apart.  The keys of a dict are
    strings, as in the JSON bodies of the service.  [NpBool], [NpStr] and
    [NpGeneric] are the numpy scalars that are neither [np.integer] nor
    [np.floating]: [np.bool_], [np.str_], and any other one
    ([np.complex128], [np.datetime64], [np.bytes_], ...), given by its
    [repr]. *)
Inductive PyVal : Type :=
| NpInteger (z : Z)
| NpFloating (x : fnum)
| NpArray (a : NdArray)
| NpBool (b : bool)
| NpStr (s : string)
| NpGeneric (repr : string)
| PyInt (z : Z)
| PyFloat (x : fnum)
| PyStr (s : string)
| PyBool (b : bool)
| PyNone
| PyDict (items : list (string * PyVal))
| PyList (items : list PyVal)
| PyTuple (items : list PyVal).

(** The shape of a value: its dict keys and list lengths, with every
    scalar erased. *)
Inductive Shape : Type :=
| ShScalar
| ShDict (items : list (string * Shape))
| ShList (items : list Shape).

Local Set Elimination Schemes.

(** Induction on arrays and on values, through their items. *)
Section Induction.
Variable P : NdArray -> Prop.
Hypothesis P_int : forall z, P (NdInt z).
Hypothesis P_float : forall x, P (NdFloat x).
Hypothesis P_dim : forall items, Forall P items -> P (NdDim items).

Fixpoint NdArray_ind (a : NdArray) : P a :=
  match a with
  | NdInt z => P_int z
  | NdFloat x => P_float x
  | NdDim items =>
      P_dim items
        ((fix all (l : list NdArray) : Forall P l :=
            match l with
            | [] => Forall_nil P
            | x :: rest => Forall_cons x (NdArray_ind x) (all rest)
            end) items)
  end.

Variable Q : PyVal -> Prop.
Hypothesis Q_integer : forall z, Q (NpInteger z).
Hypothesis Q_floating : forall x, Q (NpFloating x).
Hypothesis Q_array : forall a, Q (NpArray a).
Hypothesis Q_npbool : forall b, Q (NpBool b).
Hypothesis Q_npstr : forall s, Q (NpStr s).
Hypothesis Q_generic : forall repr, Q (NpGeneric repr).
Hypothesis Q_int : forall z, Q (PyInt z).
Hypothesis Q_float : forall x, Q (PyFloat x).
Hypothesis Q_str : forall s, Q (PyStr s).
Hypothesis Q_bool : forall b, Q (PyBool b).
Hypothesis Q_none : Q PyNone.
Hypothesis Q_dict :
  forall items, Forall (fun kv => Q (snd kv)) items -> Q (PyDict items).
Hypothesis Q_list : forall items, Forall Q items -> Q (PyList items).
Hypothesis Q_tuple : forall items, Forall Q items -> Q (PyTuple items).

Fixpoint PyVal_ind (v : PyVal) : Q v :=
  let all :=
    fix all (l : list PyVal) : Forall Q l :=
      match l with
      | [] => Forall_nil Q
      | x :: rest => Forall_cons x (PyVal_ind x) (all rest)
      end in
  match v with
  | PyDict items =>
      Q_dict items
        ((fix all_values (l : list (string * PyVal))
            : Forall (fun kv => Q (snd kv)) l :=
            match l with
            | [] => Forall_nil _
            | kv :: rest => Forall_cons kv (PyVal_ind (snd kv)) (all_values rest)
            end) items)
  | PyList items => Q_list items (all items)
  | PyTuple items => Q_tuple items (all items)
  | NpInteger z => Q_integer z
  | NpFloating x => Q_floating x
  | NpArray a => Q_array a
  | NpBool b => Q_npbool b
  | NpStr s => Q_npstr s
  | NpGeneric repr => Q_generic repr
  | PyInt z => Q_int z
  | PyFloat x => Q_float x
  | PyStr s => Q_str s
  | PyBool b => Q_bool b
  | PyNone => Q_none
  end.
End Induction.

(** [a.tolist()]: nested lists of Python scalars. *)
Fixpoint tolist (a : NdArray) : PyVal :=
  match a with
  | NdInt z => PyInt z
  | NdFloat x => PyFloat x
  | NdDim items => PyList (map tolist items)
  end.

Fixpoint convert_numpy_types (obj : PyVal) : PyVal :=
  match obj with
  | NpInteger z => PyInt z
  | NpFloating x => PyFloat x
  | NpArray a => tolist a
  | PyDict items =>
      PyDict (map (fun kv => (fst kv, convert_numpy_types (snd kv))) items)
  | PyList items => PyList (map convert_numpy_types items)
  | _ => obj
  end.

(** No numpy value anywhere in [v], tuples included. *)
Fixpoint native (v : PyVal) : bool :=
  match v with
  | NpInteger _ | NpFloating _ | NpArray _
  | NpBool _ | NpStr _ | NpGeneric _ => false
  | PyDict items => forallb (fun kv => native (snd kv)) items
  | PyList items => forallb native items
  | PyTuple items => forallb native items
  | _ => true
  end.

(** What the conversion can clear of numpy values: [v] holds no numpy
    scalar other than integers and floats, and every tuple inside [v] is
    free of numpy values (the conversion does not look into tuples). *)
Fixpoint convertible (v : PyVal) : bool :=
  match v with
  | NpBool _ | NpStr _ | NpGeneric _ => false
  | PyDict items => forallb (fun kv => convertible (snd kv)) items
  | PyList items => forallb convertible items
  | PyTuple items => forallb native items
  | _ => true
  end.

Fixpoint array_shape (a : NdArray) : Shape :=
  match a with
  | NdInt _ | NdFloat _ => ShScalar
  | NdDim items => ShList (map array_shape items)
  end.

Fixpoint shape (v : PyVal) : Shape :=
  match v with
  | NpArray a => array_shape a
  | PyDict items => ShDict (map (fun kv => (fst kv, shape (snd kv))) items)
  | PyList items => ShList (map shape items)
  | PyTuple items => ShList (map shape items)
  | _ => ShScalar
  end.

(* ================================================================== *)
(** * Integer columns

    When every amount of a batch is a JSON integer the [amount] column is
    an int64 column: [sum()] and [groupby(...).sum()] add in int64, which
    wraps around silently, [convert_numpy_types] turns a group total into
    a Python [int], and [float(...)] rounds the total to the nearest
    binary64.  The sums of the analyzer on such a column: *)
Module Int64.

(** The int64 with the residue of [z] modulo 2^64. *)
Definition wrap (z : Z) : Z := (z + 2 ^ 63) mod 2 ^ 64 - 2 ^ 63.

Definition add (x y : Z) : Z := wrap (x + y).

(** [series.sum()] of an int64 column. *)
Definition series_sum (xs : list Z) : Z := fold_left add xs 0.

(** One row enters the aggregation, as in [add_group]. *)
Fixpoint add_group (k : string) (v : Z) (acc : list (string * Z))
    : list (string * Z) :=
  match acc with
  | [] => [(k, v)]
  | (k', s) :: rest =>
      match String.compare k k' with
      | Lt => (k, v) :: acc
      | Eq => (k', add s v) :: rest
      | Gt => (k', s) :: add_group k v rest
      end
  end.

(** [df.groupby(label)['amount'].sum()] on the rows (label, amount) of an
    int64 column. *)
Definition groupby_sum (rows : list (string * Z)) : list (string * Z) :=
  fold_left (fun acc r => add_group (fst r) (snd r) acc) rows [].

(** [float(z)] of an int64: the nearest binary64, ties to even.  The
    result is an integer; below 2^1024 there is no overflow. *)
Definition to_float (z : Z) : Z :=
  let a := Z.abs z in
  let e := Z.log2 a - 52 in
  if e <=? 0 then z
  else
    let q := a / 2 ^ e in
    let r := a mod 2 ^ e in
    let half := 2 ^ (e - 1) in
    let q' := if r <? half then q
              else if half <? r then q + 1
              else if Z.even q then q else q + 1 in
    Z.sgn z * (q' * 2 ^ e).

End Int64.
(* ================================================================== *)
(** * Vocabulary of the statements *)

(** The sum of the values of a breakdown mapping. *)
Definition sum_values {K} (m : list (K * Qc)) : Qc :=
  series_sum (map snd m).

(** Equality of keys, decided by the comparison of the grouping. *)
Definition keq {K} (cmp : K -> K -> comparison) (a b : K) : bool :=
  match cmp a b with Eq => true | _ => false end.

(** The value a mapping gives to a key. *)
Fixpoint lookup {K} (cmp : K -> K -> comparison) (k : K) (m : list (K * Qc))
    : option Qc :=
  match m with
  | [] => None
  | (k', s) :: rest => if keq cmp k k' then Some s else lookup cmp k rest
  end.

(** The sum of the amounts of the rows whose key is [k]. *)
Definition group_total {K} (cmp : K -> K -> comparison) (key : Expense -> K)
    (k : K) (df : DataFrame) : Qc :=
  series_sum (map amount (filter (fun r => keq cmp (key r) k) df)).

(** The groups are in strictly increasing key order. *)
Definition key_lt {K} (cmp : K -> K -> comparison) (a b : K * Qc) : Prop :=
  cmp (fst a) (fst b) = Lt.

(** The three conditions of the efficiency score, and the score before
    it is clamped. *)
Definition high_daily_variance (df : DataFrame) : bool :=
  let daily := ExpenseAnalyzer.daily_totals df in
  (1 <? List.length daily)%nat
  && std_gt daily (series_mean daily * Q2Qc 0.5)%Qc.

Definition low_daily_variance (df : DataFrame) : bool :=
  let daily := ExpenseAnalyzer.daily_totals df in
  (1 <? List.length daily)%nat
  && std_lt daily (series_mean daily * Q2Qc 0.2)%Qc.

Definition small_transaction_share (df : DataFrame) : bool :=
  (qz (Z.of_nat (List.length df)) * Q2Qc 0.3
   <? qz (Z.of_nat (List.length (filter (fun r => (amount r <? qz 100)%Qc) df))))%Qc.

Definition adjusted_score (df : DataFrame) : Z :=
  100 - (if high_daily_variance df then 20 else 0)
      - (if small_transaction_share df then 15 else 0)
      + (if low_daily_variance df then 10 else 0).

(** The result of [analyze_expenses] on an empty batch. *)
Definition empty_batch_result : AnalyzeResult :=
  {| suggestions :=
       [ {| type := info;
            message := "No expense data available for analysis.";
            priority := low |} ];
     analysis :=
       {| totalSpending := qz 0;
          averageDailySpending := qz 0;
          topCategory := "None";
          topCategoryAmount := None;
          categoryBreakdown := None;
          paymentMethodBreakdown := None;
          efficiencyScore := None;
          patterns := None;
          analysis_message := "Start tracking your expenses to get personalized insights!" |} |}.

(** The result of [analyze_expenses] on the frame of a batch that is not
    empty (lines 61-76). *)
Definition frame_result (now : Timestamp) (df : DataFrame) : AnalyzeResult :=
  let total := series_sum (map amount df) in
  let top := idxmax "" (groupby_sum String.compare category df) in
  {| suggestions :=
       ExpenseAnalyzer._generate_suggestions now df total (total / qz 30)%Qc top;
     analysis :=
       ExpenseAnalyzer._detailed_analysis df total (total / qz 30)%Qc top
         (series_max (groupby_sum String.compare category df)) |}.

(** Batches of the examples. *)
Module Examples.

(** The scenario of the specification on three different days. *)
Definition three_days : list RawExpense :=
  [ mkRawExpense "2024-03-10" (AmtNum (qz 12000)) "Food" "Cash";
    mkRawExpense "2024-03-01" (AmtNum (qz 100)) "Food" "Cash";
    mkRawExpense "2024-02-25" (AmtNum (qz 50)) "Food" "Cash" ].

(** The same scenario on one day. *)
Definition one_day : list RawExpense :=
  [ mkRawExpense "2024-03-10" (AmtNum (qz 12000)) "Food" "Cash";
    mkRawExpense "2024-03-10" (AmtNum (qz 100)) "Food" "Cash";
    mkRawExpense "2024-03-10" (AmtNum (qz 50)) "Food" "Cash" ].

(** A record whose date is no date. *)
Definition bad_date : list RawExpense :=
  [ mkRawExpense "2024-03-10" (AmtNum (qz 120)) "Food" "Cash";
    mkRawExpense "yesterday" (AmtNum (qz 80)) "Rent" "Card" ].

(** A record whose amount is no number. *)
Definition bad_amount : list RawExpense :=
  [ mkRawExpense "2024-03-10" (AmtStr "120") "Food" "Cash";
    mkRawExpense "2024-03-11" (AmtStr "a lot") "Rent" "Card" ].

Definition two_categories : list RawExpense :=
  [ mkRawExpense "2024-03-10" (AmtNum (qz 120)) "Food" "Cash";
    mkRawExpense "2024-03-11" (AmtStr "80") "Rent" "Card";
    mkRawExpense "2024-03-11" (AmtNum (Q2Qc 45.5)) "Food" "Card" ].

Definition single_record : list RawExpense :=
  [ mkRawExpense "2024-03-12" (AmtNum (qz 50)) "Misc" "Card" ].

End Examples.

(** The frame of the scenario of three records: 12000, 100 and 50, all
    [Food], all [Cash]. *)
Definition scenario_frame (t1 t2 t3 : Timestamp) : DataFrame :=
  [ mkExpense t1 (qz 12000) "Food" "Cash";
    mkExpense t2 (qz 100) "Food" "Cash";
    mkExpense t3 (qz 50) "Food" "Cash" ].

(** The types of the suggestions of a result. *)
Definition suggestion_types (r : Result AnalyzeResult) : list SuggestionType :=
  match r with
  | Ok res => map type (suggestions res)
  | Raise _ => []
  end.

(** The six suggestion rules of section 4.1 of the specification, each
    as the list of what it appends. *)
Module Rules.

Definition high_spending_warning (total : Qc) : Suggestion :=
  {| type := warning;
     message := "Your total spending of ₹" ++ format_f true 2 total
                ++ " in the last 30 days is quite high. Consider reviewing your expenses and identifying areas to cut back.";
     priority := high |}.

Definition moderate_spending_advice (total : Qc) : Suggestion :=
  {| type := advice;
     message := "Your spending of ₹" ++ format_f true 2 total
                ++ " is moderate. Look for opportunities to optimize your budget.";
     priority := medium |}.

Definition category_advice (label : string) (percentage : fnum) : Suggestion :=
  {| type := advice;
     message := label ++ " accounts for " ++ format_fnum_1f percentage
                ++ "% of your spending. Consider setting a specific budget for this category.";
     priority := medium |}.

Definition daily_variance_tip : Suggestion :=
  {| type := tip;
     message := "Your daily spending varies significantly. Try to maintain more consistent spending patterns.";
     priority := low |}.

Definition payment_method_tip (method : string) : Suggestion :=
  {| type := tip;
     message := "You only use " ++ method
                ++ " for payments. Consider diversifying your payment methods for better tracking.";
     priority := low |}.

Definition increase_warning (change : Qc) : Suggestion :=
  {| type := warning;
     message := "Your spending increased by " ++ format_f false 1 change
                ++ "% this week compared to the previous week.";
     priority := medium |}.

Definition decrease_praise (change : Qc) : Suggestion :=
  {| type := positive;
     message := "Great job! Your spending decreased by "
                ++ format_f false 1 (Qcabs change) ++ "% this week.";
     priority := low |}.

Definition general_tip : Suggestion :=
  {| type := tip;
     message := "Track your expenses regularly to better understand your spending patterns and identify opportunities to save.";
     priority := low |}.

(** 1. Spending level. *)
Definition rule_1 (total : Qc) : list Suggestion :=
  if (qz 10000 <? total)%Qc then [high_spending_warning total]
  else if (qz 5000 <? total)%Qc then [moderate_spending_advice total]
  else [].

Definition category_percentages (df : DataFrame) (total : Qc)
    : list (string * fnum) :=
  map (fun e => (fst e, fmul (fdiv (snd e) total) (qz 100)))
      (groupby_sum String.compare category df).

(** 2. Category concentration: every category above 40%, in grouping
    order. *)
Definition rule_2 (df : DataFrame) (total : Qc) : list Suggestion :=
  map (fun e => category_advice (fst e) (snd e))
      (filter (fun e => fgtb (snd e) (qz 40)) (category_percentages df total)).

(** 3. Daily variance. *)
Definition rule_3 (df : DataFrame) : list Suggestion :=
  if high_daily_variance df then [daily_variance_tip] else [].

(** 4. Payment diversity: exactly one distinct payment method. *)
Definition rule_4 (df : DataFrame) : list Suggestion :=
  match value_counts (map paymentMethod df) with
  | [(method, _)] => [payment_method_tip method]
  | _ => []
  end.

(** The records of the last 7 days relative to [now]. *)
Definition recent (now : Timestamp) (df : DataFrame) : DataFrame :=
  filter (fun r => now - timedelta_days 7 <=? date r) df.

(** 5. Recent trend. *)
Definition rule_5 (now : Timestamp) (df : DataFrame) (total : Qc)
    : list Suggestion :=
  let recent_total := series_sum (map amount (recent now df)) in
  let previous := (total - recent_total)%Qc in
  let change := ((recent_total - previous) / previous * qz 100)%Qc in
  match recent now df with
  | [] => []
  | _ :: _ =>
      if (qz 0 <? previous)%Qc then
        if (qz 20 <? change)%Qc then [increase_warning change]
        else if (change <? qz (-20))%Qc then [decrease_praise change]
        else []
      else []
  end.

(** 6. Fallback, on what rules 1-5 generated. *)
Definition rule_6 (so_far : list Suggestion) : list Suggestion :=
  if (List.length so_far <? 3)%nat then [general_tip] else [].

(** Everything the rules generate, in rule order. *)
Definition generated (now : Timestamp) (df : DataFrame) (total : Qc)
    : list Suggestion :=
  let so_far := (rule_1 total ++ rule_2 df total ++ rule_3 df
                 ++ rule_4 df ++ rule_5 now df total)%list in
  (so_far ++ rule_6 so_far)%list.

End Rules.

(** The three pattern conditions of section 4.3 of the specification. *)
Module Patterns.

Definition weekend_heavy (df : DataFrame) : bool :=
  let weekend :=
    series_sum (map amount (filter (fun r => 5 <=? dt_weekday (date r)) df)) in
  let weekday :=
    series_sum (map amount (filter (fun r => dt_weekday (date r) <? 5) df)) in
  (qz 0 <? weekday)%Qc && (weekday * Q2Qc 1.5 <? weekend)%Qc.

Definition frequent_category (df : DataFrame) : bool :=
  existsb (fun e => (5 <? snd e)%nat) (value_counts (map category df)).

Definition large_transaction (df : DataFrame) : bool :=
  existsb (fun r => (quantile (Q2Qc 0.9) (map amount df) <? amount r)%Qc) df.

Definition detected (df : DataFrame) : list string :=
  ((if weekend_heavy df then ["Higher spending on weekends"] else [])
   ++ (if frequent_category df
       then ["Frequent expenses in certain categories"] else [])
   ++ (if large_transaction df then ["Occasional large transactions"] else []))%list.

End Patterns.


(** The count a tally gives to a value. *)
Fixpoint count_of (k : string) (acc : list (string * nat)) : nat :=
  match acc with
  | [] => 0%nat
  | (k', c) :: rest => if String.eqb k k' then c else count_of k rest
  end.

(** The tally of [value_counts] before it is ordered. *)
Definition tally (xs : list string) : list (string * nat) :=
  fold_left (fun acc k => count_add k acc) xs [].

(** The number of occurrences of a label in a column. *)
Definition occurrences (xs : list string) (k : string) : nat :=
  count_occ string_dec xs k.

(** Values and frames of the examples. *)
Module MoreExamples.

Definition numpy_body : PyVal :=
  PyDict [ ("totalSpending", NpFloating (Finite (qz 200)));
           ("transactionCount", NpInteger 2);
           ("categoryBreakdown",
            PyDict [ ("Food", NpFloating (Finite (qz 120)));
                     ("Rent", NpFloating (Finite (qz 80))) ]);
           ("amounts", NpArray (NdDim [NdFloat (Finite (qz 120)); NdInt 80]));
           ("patterns", PyList [PyStr "Occasional large transactions"]) ].

Definition native_body : PyVal :=
  PyDict [ ("totalSpending", PyFloat (Finite (qz 200)));
           ("labels", PyTuple [PyStr "Food"; PyStr "Rent"]);
           ("patterns", PyList [PyStr "Occasional large transactions"; PyNone]) ].

Definition two_categories_frame : DataFrame :=
  [ mkExpense (Sample.at_midnight 2024 3 10) (qz 120) "Food" "Cash";
    mkExpense (Sample.at_midnight 2024 3 11) (qz 80) "Rent" "Card";
    mkExpense (Sample.at_midnight 2024 3 11) (Q2Qc 45.5) "Food" "Card" ].

(** [Examples.two_categories] in another order. *)
Definition two_categories_reordered : list RawExpense :=
  [ mkRawExpense "2024-03-11" (AmtNum (Q2Qc 45.5)) "Food" "Card";
    mkRawExpense "2024-03-10" (AmtNum (qz 120)) "Food" "Cash";
    mkRawExpense "2024-03-11" (AmtStr "80") "Rent" "Card" ].

Definition two_categories_reordered_frame : DataFrame :=
  [ mkExpense (Sample.at_midnight 2024 3 11) (Q2Qc 45.5) "Food" "Card";
    mkExpense (Sample.at_midnight 2024 3 10) (qz 120) "Food" "Cash";
    mkExpense (Sample.at_midnight 2024 3 11) (qz 80) "Rent" "Card" ].

Definition three_days_frame : DataFrame :=
  [ mkExpense (Sample.at_midnight 2024 3 10) (qz 12000) "Food" "Cash";
    mkExpense (Sample.at_midnight 2024 3 1) (qz 100) "Food" "Cash";
    mkExpense (Sample.at_midnight 2024 2 25) (qz 50) "Food" "Cash" ].

End MoreExamples.

(** The body of the 200 answer of [get_insights] on the frame of a
    batch (lines 285-306). *)
Definition insights_of (days : Z) (df : DataFrame) : Insights :=
  {| ins_totalSpending := series_sum (map amount df);
     ins_averageDailySpending := (series_sum (map amount df) / qz days)%Qc;
     ins_topCategory := top_label (groupby_sum String.compare category df);
     ins_topPaymentMethod :=
       top_label (groupby_sum String.compare paymentMethod df);
     ins_categoryBreakdown := groupby_sum String.compare category df;
     ins_paymentMethodBreakdown := groupby_sum String.compare paymentMethod df;
     ins_transactionCount := Z.of_nat (List.length df);
     ins_daysAnalyzed := days |}.

Module MoreExamples2.

(** Six records in one category and one in another. *)
Definition frequent_frame : DataFrame :=
  [ mkExpense (Sample.at_midnight 2024 3 4) (qz 10) "Coffee" "Cash";
    mkExpense (Sample.at_midnight 2024 3 5) (qz 10) "Coffee" "Cash";
    mkExpense (Sample.at_midnight 2024 3 6) (qz 10) "Coffee" "Card";
    mkExpense (Sample.at_midnight 2024 3 7) (qz 300) "Rent" "Card";
    mkExpense (Sample.at_midnight 2024 3 7) (qz 10) "Coffee" "Cash";
    mkExpense (Sample.at_midnight 2024 3 8) (qz 10) "Coffee" "Cash";
    mkExpense (Sample.at_midnight 2024 3 11) (qz 10) "Coffee" "Cash" ].

(** A Saturday purchase beside a smaller Monday one. *)
Definition weekend_frame : DataFrame :=
  [ mkExpense (Sample.at_midnight 2024 3 9) (qz 400) "Leisure" "Card";
    mkExpense (Sample.at_midnight 2024 3 11) (qz 100) "Food" "Cash" ].

End MoreExamples2.

Module MoreExamples3.

(** Two categories at 45% each. *)
Definition two_shares_frame : DataFrame :=
  [ mkExpense (Sample.at_midnight 2024 3 4) (qz 45) "Food" "Cash";
    mkExpense (Sample.at_midnight 2024 3 5) (qz 45) "Rent" "Card";
    mkExpense (Sample.at_midnight 2024 3 6) (qz 10) "Misc" "Cash" ].

(** A refund that leaves a total of 1. *)
Definition refund_frame : DataFrame :=
  [ mkExpense (Sample.at_midnight 2024 3 4) (qz 10) "Food" "Cash";
    mkExpense (Sample.at_midnight 2024 3 5) (qz 10) "Rent" "Card";
    mkExpense (Sample.at_midnight 2024 3 6) (qz 10) "Misc" "Cash";
    mkExpense (Sample.at_midnight 2024 3 6) (qz (-29)) "Refund" "Cash" ].

End MoreExamples3.


(** Python's [sum] of a list of ints: without bound. *)
Definition zsum (xs : list Z) : Z := fold_right Z.add 0 xs.

(** The sum of the absolute values of a column. *)
Definition abs_sum (xs : list Z) : Z := fold_right (fun x s => Z.abs x + s) 0 xs.

(** A mapping of integers as a mapping of amounts. *)
Definition as_amounts (m : list (string * Z)) : list (string * Qc) :=
  map (fun e => (fst e, qz (snd e))) m.


Module IntExamples.

(** A batch of integer amounts in two categories. *)
Definition two_categories : list RawExpense :=
  [ mkRawExpense "2024-03-10" (AmtNum (qz 120)) "Food" "Cash";
    mkRawExpense "2024-03-11" (AmtStr "80") "Rent" "Card";
    mkRawExpense "2024-03-11" (AmtNum (qz 45)) "Food" "Card" ].

Definition two_categories_frame : DataFrame :=
  [ mkExpense (Sample.at_midnight 2024 3 10) (qz 120) "Food" "Cash";
    mkExpense (Sample.at_midnight 2024 3 11) (qz 80) "Rent" "Card";
    mkExpense (Sample.at_midnight 2024 3 11) (qz 45) "Food" "Card" ].

(** The same batch in another order. *)
Definition two_categories_reordered : list RawExpense :=
  [ mkRawExpense "2024-03-11" (AmtNum (qz 45)) "Food" "Card";
    mkRawExpense "2024-03-10" (AmtNum (qz 120)) "Food" "Cash";
    mkRawExpense "2024-03-11" (AmtStr "80") "Rent" "Card" ].

Definition two_categories_reordered_frame : DataFrame :=
  [ mkExpense (Sample.at_midnight 2024 3 11) (qz 45) "Food" "Card";
    mkExpense (Sample.at_midnight 2024 3 10) (qz 120) "Food" "Cash";
    mkExpense (Sample.at_midnight 2024 3 11) (qz 80) "Rent" "Card" ].

End IntExamples.
(* ================================================================== *)
(** * Comparisons on [Qc] *)

Lemma Qcltb_lt (x y : Qc) : (x <? y)%Qc = true <-> (x < y)%Qc.
Proof.
  unfold Qcltb. rewrite Qclt_alt.
  destruct (x ?= y)%Qc; split; congruence.
Qed.

Lemma Qcltb_irrefl (x : Qc) : (x <? x)%Qc = false.
Proof.
  destruct (x <? x)%Qc eqn:E; [|reflexivity].
  apply Qcltb_lt in E. exfalso. exact (Qlt_irrefl _ E).
Qed.

Lemma Qcleb_refl (x : Qc) : (x <=? x)%Qc = true.
Proof.
  unfold Qcleb. replace (x ?= x)%Qc with Eq; [reflexivity|].
  symmetry. apply Qceq_alt. reflexivity.
Qed.

Lemma this_qz (z : Z) : (this (qz z) == inject_Z z)%Q.
Proof. exact (Qred_correct (inject_Z z)). Qed.

Lemma qz_lt (a b : Z) : a < b -> (qz a < qz b)%Qc.
Proof.
  intro H. unfold Qclt. rewrite !this_qz. rewrite <- Zlt_Qlt. exact H.
Qed.

(* ================================================================== *)
(** * Sums *)

Lemma qz_0 : qz 0 = 0%Qc.
Proof. reflexivity. Qed.

Ltac qring := rewrite ?qz_0; ring.

Lemma fold_plus_acc (xs : list Qc) (a : Qc) :
  fold_left Qcplus xs a = (a + fold_left Qcplus xs (qz 0))%Qc.
Proof.
  revert a. induction xs as [|x xs IH]; intro a; simpl.
  - qring.
  - rewrite IH. rewrite (IH (qz 0 + x)%Qc). qring.
Qed.

Lemma series_sum_nil : series_sum [] = qz 0.
Proof. reflexivity. Qed.

Lemma series_sum_cons (x : Qc) (xs : list Qc) :
  series_sum (x :: xs) = (x + series_sum xs)%Qc.
Proof.
  unfold series_sum. simpl. rewrite fold_plus_acc. qring.
Qed.

Lemma series_sum_app (xs ys : list Qc) :
  series_sum (xs ++ ys) = (series_sum xs + series_sum ys)%Qc.
Proof.
  induction xs as [|x xs IH]; simpl.
  - rewrite series_sum_nil. qring.
  - rewrite !series_sum_cons, IH. qring.
Qed.

Lemma series_sum_perm (xs ys : list Qc) :
  Permutation xs ys -> series_sum xs = series_sum ys.
Proof.
  induction 1; rewrite ?series_sum_cons; try congruence.
  qring.
Qed.

(* ================================================================== *)
(** * The standard deviation

    The model compares a standard deviation with a bound through the
    variance.  Over the reals the two comparisons are those of the square
    root of the variance. *)

Lemma Q2R_qc_mult (x y : Qc) : Q2R (x * y)%Qc = (Q2R x * Q2R y)%R.
Proof.
  rewrite <- Q2R_mult. apply Qeq_eqR.
  change (this (x * y)%Qc) with (Qred (this x * this y)).
  apply Qred_correct.
Qed.

Lemma Q2R_qz_0 : Q2R (qz 0) = 0%R.
Proof. rewrite qz_0. change (this 0%Qc) with 0%Q. apply RMicromega.Q2R_0. Qed.

Lemma Qcltb_Rlt (x y : Qc) : (x <? y)%Qc = true <-> (Q2R x < Q2R y)%R.
Proof.
  rewrite Qcltb_lt. unfold Qclt. split; [apply Qlt_Rlt|apply Rlt_Qlt].
Qed.

Lemma Qcle_Rle (x y : Qc) : (x <= y)%Qc <-> (Q2R x <= Q2R y)%R.
Proof.
  unfold Qcle. split; [apply Qle_Rle|apply Rle_Qle].
Qed.

Lemma sqrt_gt_iff (v b : R) :
  (0 <= v)%R -> ((b < sqrt v)%R <-> (b < 0)%R \/ (b * b < v)%R).
Proof.
  intro Hv. split.
  - intro H. destruct (Rlt_le_dec b 0) as [Hb|Hb]; [left; exact Hb|].
    right. rewrite <- (sqrt_sqrt v Hv) at 1.
    pose proof (sqrt_pos v). nra.
  - intros [Hb|Hb].
    + pose proof (sqrt_pos v). lra.
    + destruct (Rlt_le_dec b 0) as [Hn|Hn].
      * pose proof (sqrt_pos v). lra.
      * rewrite <- (sqrt_square b Hn). apply sqrt_lt_1; nra.
Qed.

Lemma sqrt_lt_iff (v b : R) :
  (0 <= v)%R -> ((sqrt v < b)%R <-> (0 < b)%R /\ (v < b * b)%R).
Proof.
  intro Hv. split.
  - intro H. pose proof (sqrt_pos v) as Hp.
    split; [lra|]. rewrite <- (sqrt_sqrt v Hv) at 1. nra.
  - intros [Hb Hlt].
    rewrite <- (sqrt_square b) by lra. apply sqrt_lt_1; nra.
Qed.

Lemma sqrt_gtb_spec (v b : Qc) :
  (qz 0 <= v)%Qc ->
  (sqrt_gtb v b = true <-> (Q2R b < sqrt (Q2R v))%R).
Proof.
  intro Hv. apply Qcle_Rle in Hv. rewrite Q2R_qz_0 in Hv.
  rewrite (sqrt_gt_iff _ _ Hv).
  unfold sqrt_gtb. rewrite orb_true_iff, !Qcltb_Rlt.
  rewrite Q2R_qz_0, Q2R_qc_mult. reflexivity.
Qed.

Lemma sqrt_ltb_spec (v b : Qc) :
  (qz 0 <= v)%Qc ->
  (sqrt_ltb v b = true <-> (sqrt (Q2R v) < Q2R b)%R).
Proof.
  intro Hv. apply Qcle_Rle in Hv. rewrite Q2R_qz_0 in Hv.
  rewrite (sqrt_lt_iff _ _ Hv).
  unfold sqrt_ltb. rewrite andb_true_iff, !Qcltb_Rlt.
  rewrite Q2R_qz_0, Q2R_qc_mult. reflexivity.
Qed.

Lemma Qc_square_nonneg (x : Qc) : (qz 0 <= x * x)%Qc.
Proof.
  rewrite qz_0. unfold Qcle.
  change (this (x * x)%Qc) with (Qred (this x * this x)).
  rewrite Qred_correct. change (this 0%Qc) with 0%Q.
  nra.
Qed.

Lemma series_sum_nonneg (xs : list Qc) :
  Forall (fun x => (qz 0 <= x)%Qc) xs -> (qz 0 <= series_sum xs)%Qc.
Proof.
  induction 1 as [|x xs Hx Hxs IH].
  - rewrite series_sum_nil. apply Qcle_refl.
  - rewrite series_sum_cons. rewrite qz_0 in *.
    replace 0%Qc with (0 + 0)%Qc by ring.
    apply Qcplus_le_compat; assumption.
Qed.

Lemma Qc_div_nonneg (x y : Qc) :
  (qz 0 <= x)%Qc -> (qz 0 < y)%Qc -> (qz 0 <= x / y)%Qc.
Proof.
  rewrite qz_0. intros Hx Hy. unfold Qcdiv.
  replace 0%Qc with (0 * / y)%Qc by ring.
  apply Qcmult_le_compat_r; [exact Hx|].
  unfold Qcle, Qclt in *.
  change (this (/ y)%Qc) with (Qred (/ this y)).
  rewrite Qred_correct. change (this 0%Qc) with 0%Q in *.
  apply Qlt_le_weak, Qinv_lt_0_compat, Hy.
Qed.

Lemma series_var_nonneg (xs : list Qc) :
  (1 < List.length xs)%nat -> (qz 0 <= series_var xs)%Qc.
Proof.
  intro Hn. unfold series_var. cbv zeta.
  apply Qc_div_nonneg.
  - apply series_sum_nonneg, Forall_forall.
    intros y Hy. apply in_map_iff in Hy. destruct Hy as [x [<- _]].
    apply Qc_square_nonneg.
  - apply qz_lt. lia.
Qed.

(** [float(s.std()) > bound] and [float(s.std()) < bound], for a series
    of more than one value, are the comparisons of the square root of
    its sample variance over the reals. *)
Lemma std_gt_spec (xs : list Qc) (bound : Qc) :
  (1 < List.length xs)%nat ->
  (std_gt xs bound = true <-> (Q2R bound < sqrt (Q2R (series_var xs)))%R).
Proof.
  intro Hn. apply sqrt_gtb_spec, series_var_nonneg, Hn.
Qed.

Lemma std_lt_spec (xs : list Qc) (bound : Qc) :
  (1 < List.length xs)%nat ->
  (std_lt xs bound = true <-> (sqrt (Q2R (series_var xs)) < Q2R bound)%R).
Proof.
  intro Hn. apply sqrt_ltb_spec, series_var_nonneg, Hn.
Qed.

(* ================================================================== *)
(** * Grouped sums *)

Section GroupByFacts.
Context {K : Type} (cmp : K -> K -> comparison).
Hypothesis cmp_eq : forall a b, cmp a b = Eq <-> a = b.
Hypothesis cmp_antisym : forall a b, cmp a b = CompOpp (cmp b a).
Hypothesis cmp_trans :
  forall a b c, cmp a b = Lt -> cmp b c = Lt -> cmp a c = Lt.

Lemma keq_true (a b : K) : keq cmp a b = true <-> a = b.
Proof.
  unfold keq. rewrite <- cmp_eq.
  destruct (cmp a b); split; congruence.
Qed.

Lemma keq_refl (a : K) : keq cmp a a = true.
Proof. apply keq_true. reflexivity. Qed.

Lemma keq_lt (a b : K) : cmp a b = Lt -> keq cmp a b = false.
Proof. unfold keq. intros ->. reflexivity. Qed.

Lemma keq_gt (a b : K) : cmp a b = Lt -> keq cmp b a = false.
Proof.
  unfold keq. intro H. rewrite cmp_antisym, H. reflexivity.
Qed.

Lemma sum_values_add_group (k : K) (v : Qc) (acc : list (K * Qc)) :
  sum_values (add_group cmp k v acc) = (sum_values acc + v)%Qc.
Proof.
  unfold sum_values.
  induction acc as [|[k' s] rest IH]; simpl.
  - rewrite !series_sum_cons, series_sum_nil. qring.
  - destruct (cmp k k'); simpl; rewrite ?series_sum_cons.
    + qring.
    + qring.
    + rewrite IH. qring.
Qed.

Lemma add_group_not_nil (k : K) (v : Qc) (acc : list (K * Qc)) :
  add_group cmp k v acc <> [].
Proof.
  destruct acc as [|[k' s] rest]; simpl; [discriminate|].
  destruct (cmp k k'); discriminate.
Qed.

(** A frame with a row has a group: [idxmax] and [max] are applied to
    series that are not empty. *)
Lemma groupby_not_nil (key : Expense -> K) (df : DataFrame) :
  df <> [] -> groupby_sum cmp key df <> [].
Proof.
  unfold groupby_sum.
  induction df as [|r df IH] using rev_ind; [contradiction|].
  intros _. rewrite fold_left_app. simpl. apply add_group_not_nil.
Qed.

Lemma sum_values_groupby (key : Expense -> K) (df : DataFrame) :
  sum_values (groupby_sum cmp key df) = series_sum (map amount df).
Proof.
  unfold groupby_sum.
  induction df as [|r df IH] using rev_ind; [reflexivity|].
  rewrite fold_left_app, map_app, series_sum_app. simpl.
  rewrite sum_values_add_group, IH, series_sum_cons, series_sum_nil.
  qring.
Qed.

Lemma add_group_keys (P : K -> Prop) (k : K) (v : Qc) (acc : list (K * Qc)) :
  P k -> Forall (fun e => P (fst e)) acc ->
  Forall (fun e => P (fst e)) (add_group cmp k v acc).
Proof.
  intros Hk. induction 1 as [|[k' s] rest Hh Ht IH]; simpl.
  - constructor; [exact Hk|constructor].
  - destruct (cmp k k'); repeat constructor; auto.
Qed.

Lemma add_group_sorted (k : K) (v : Qc) (acc : list (K * Qc)) :
  StronglySorted (key_lt cmp) acc ->
  StronglySorted (key_lt cmp) (add_group cmp k v acc).
Proof.
  induction 1 as [|[k' s] rest Hs IH Hall]; simpl.
  - repeat constructor.
  - destruct (cmp k k') eqn:E.
    + constructor; [exact Hs|exact Hall].
    + constructor; [constructor; assumption|].
      constructor; [exact E|].
      eapply Forall_impl; [|exact Hall].
      intros e He. unfold key_lt in *. simpl in *.
      eapply cmp_trans; eassumption.
    + constructor; [exact IH|].
      apply (add_group_keys (fun x => cmp k' x = Lt)).
      * rewrite cmp_antisym, E. reflexivity.
      * exact Hall.
Qed.

Lemma groupby_sorted (key : Expense -> K) (df : DataFrame) :
  StronglySorted (key_lt cmp) (groupby_sum cmp key df).
Proof.
  unfold groupby_sum.
  induction df as [|r df IH] using rev_ind; [constructor|].
  rewrite fold_left_app. simpl. apply add_group_sorted, IH.
Qed.

Lemma lookup_below (k : K) (m : list (K * Qc)) :
  Forall (fun e => cmp k (fst e) = Lt) m -> lookup cmp k m = None.
Proof.
  induction 1 as [|[k' s] rest Hh Ht IH]; simpl; [reflexivity|].
  simpl in Hh. rewrite (keq_lt _ _ Hh). exact IH.
Qed.

Lemma lookup_add_group (k k' : K) (v : Qc) (acc : list (K * Qc)) :
  StronglySorted (key_lt cmp) acc ->
  lookup cmp k (add_group cmp k' v acc) =
  if keq cmp k k' then
    Some (match lookup cmp k' acc with
          | Some s => (s + v)%Qc
          | None => v
          end)
  else lookup cmp k acc.
Proof.
  induction 1 as [|[k0 s] rest Hs IH Hall]; simpl.
  - destruct (keq cmp k k'); reflexivity.
  - destruct (cmp k' k0) eqn:E; simpl.
    + apply cmp_eq in E. subst k0. rewrite keq_refl.
      destruct (keq cmp k k'); reflexivity.
    + rewrite (keq_lt _ _ E).
      rewrite (lookup_below k' rest).
      * destruct (keq cmp k k'); reflexivity.
      * eapply Forall_impl; [|exact Hall].
        intros e He. unfold key_lt in He. simpl in He.
        eapply cmp_trans; eassumption.
    + assert (E' : cmp k0 k' = Lt) by (rewrite cmp_antisym, E; reflexivity).
      rewrite (keq_gt _ _ E').
      destruct (keq cmp k k0) eqn:E0.
      * apply keq_true in E0. subst k0.
        rewrite (keq_lt _ _ E'). reflexivity.
      * exact IH.
Qed.

Lemma lookup_groupby (key : Expense -> K) (k : K) (df : DataFrame) :
  lookup cmp k (groupby_sum cmp key df) =
  if existsb (fun r => keq cmp (key r) k) df
  then Some (group_total cmp key k df) else None.
Proof.
  induction df as [|r df IH] using rev_ind; [reflexivity|].
  unfold groupby_sum. rewrite fold_left_app. simpl.
  fold (groupby_sum cmp key df).
  rewrite lookup_add_group by apply groupby_sorted.
  rewrite existsb_app. simpl. rewrite orb_false_r.
  unfold group_total. rewrite filter_app, map_app, series_sum_app. simpl.
  destruct (keq cmp k (key r)) eqn:E.
  - apply keq_true in E. subst k. rewrite keq_refl, orb_true_r.
    rewrite IH. unfold group_total.
    destruct (existsb _ df) eqn:Ex.
    + simpl. rewrite series_sum_cons, series_sum_nil. f_equal. qring.
    + simpl. rewrite series_sum_cons, series_sum_nil. f_equal.
      replace (filter (fun r0 => keq cmp (key r0) (key r)) df) with (@nil Expense).
      * simpl. rewrite series_sum_nil. qring.
      * symmetry. clear IH.
        induction df as [|a df IHd]; [reflexivity|].
        simpl in Ex. apply orb_false_iff in Ex. destruct Ex as [Ea Ed].
        simpl. rewrite Ea. apply IHd, Ed.
  - assert (E' : keq cmp (key r) k = false).
    { destruct (keq cmp (key r) k) eqn:E1; [|reflexivity].
      apply keq_true in E1. subst k. rewrite keq_refl in E. discriminate. }
    rewrite E', orb_false_r. simpl.
    rewrite IH. unfold group_total.
    destruct (existsb _ df); [|reflexivity].
    f_equal. rewrite series_sum_nil. qring.
Qed.

Lemma lookup_in (k : K) (s : Qc) (m : list (K * Qc)) :
  StronglySorted (key_lt cmp) m ->
  (In (k, s) m <-> lookup cmp k m = Some s).
Proof.
  induction 1 as [|[k0 s0] rest Hs IH Hall]; simpl.
  - split; [contradiction|discriminate].
  - destruct (keq cmp k k0) eqn:E.
    + apply keq_true in E. subst k0. split.
      * intros [H|H]; [congruence|].
        rewrite Forall_forall in Hall. apply Hall in H.
        unfold key_lt in H. simpl in H.
        pose proof (keq_lt _ _ H) as H'. rewrite keq_refl in H'.
        discriminate.
      * intros [= ->]. left. reflexivity.
    + rewrite <- IH. split.
      * intros [H|H]; [|exact H]. injection H as -> ->.
        rewrite keq_refl in E. discriminate.
      * intro H. right. exact H.
Qed.

(** Two mappings in key order that give every key the same value are
    the same list. *)
Lemma sorted_lookup_ext (m1 m2 : list (K * Qc)) :
  StronglySorted (key_lt cmp) m1 ->
  StronglySorted (key_lt cmp) m2 ->
  (forall k, lookup cmp k m1 = lookup cmp k m2) ->
  m1 = m2.
Proof.
  intros S1. revert m2.
  induction S1 as [|[k1 s1] r1 Hs1 IH Hall1]; intros m2 S2 Hext.
  - destruct m2 as [|[k2 s2] r2]; [reflexivity|].
    specialize (Hext k2). simpl in Hext. rewrite keq_refl in Hext.
    discriminate.
  - destruct S2 as [|[k2 s2] r2 Hs2 Hall2].
    + specialize (Hext k1). simpl in Hext. rewrite keq_refl in Hext.
      discriminate.
    + assert (B1 : lookup cmp k1 r1 = None).
      { apply lookup_below. exact Hall1. }
      assert (B2 : lookup cmp k2 r2 = None).
      { apply lookup_below. exact Hall2. }
      destruct (cmp k1 k2) eqn:E.
      * apply cmp_eq in E. subst k2.
        pose proof (Hext k1) as H1. simpl in H1. rewrite keq_refl in H1.
        injection H1 as ->. f_equal.
        apply IH; [exact Hs2|].
        intro k. specialize (Hext k). simpl in Hext.
        destruct (keq cmp k k1) eqn:Ek; [|exact Hext].
        apply keq_true in Ek. subst k. congruence.
      * exfalso. pose proof (Hext k1) as H1. simpl in H1.
        rewrite keq_refl, (keq_lt _ _ E) in H1.
        rewrite lookup_below in H1; [discriminate|].
        eapply Forall_impl; [|exact Hall2].
        intros e He. unfold key_lt in He. simpl in He.
        eapply cmp_trans; eassumption.
      * exfalso.
        assert (E' : cmp k2 k1 = Lt) by (rewrite cmp_antisym, E; reflexivity).
        pose proof (Hext k2) as H2. simpl in H2.
        rewrite keq_refl, (keq_lt _ _ E') in H2.
        rewrite lookup_below in H2; [discriminate|].
        eapply Forall_impl; [|exact Hall1].
        intros e He. unfold key_lt in He. simpl in He.
        eapply cmp_trans; eassumption.
Qed.

Lemma existsb_perm {A} (f : A -> bool) (l l' : list A) :
  Permutation l l' -> existsb f l = existsb f l'.
Proof.
  induction 1; simpl; try congruence.
  destruct (f x), (f y); reflexivity.
Qed.

Lemma filter_perm {A} (f : A -> bool) (l l' : list A) :
  Permutation l l' -> Permutation (filter f l) (filter f l').
Proof.
  induction 1; simpl.
  - constructor.
  - destruct (f x); [constructor|]; assumption.
  - destruct (f x), (f y); try reflexivity. constructor.
  - etransitivity; eassumption.
Qed.

Lemma group_total_perm (key : Expense -> K) (k : K) (df df' : DataFrame) :
  Permutation df df' -> group_total cmp key k df = group_total cmp key k df'.
Proof.
  intro H. unfold group_total.
  apply series_sum_perm, Permutation_map, filter_perm, H.
Qed.

Lemma groupby_perm (key : Expense -> K) (df df' : DataFrame) :
  Permutation df df' -> groupby_sum cmp key df = groupby_sum cmp key df'.
Proof.
  intro H. apply sorted_lookup_ext; try apply groupby_sorted.
  intro k. rewrite !lookup_groupby.
  rewrite (existsb_perm _ _ _ H), (group_total_perm key k _ _ H).
  reflexivity.
Qed.

Lemma groupby_in (key : Expense -> K) (df : DataFrame) (k : K) (s : Qc) :
  In (k, s) (groupby_sum cmp key df) <->
  In k (map key df) /\ s = group_total cmp key k df.
Proof.
  rewrite lookup_in by apply groupby_sorted.
  rewrite lookup_groupby.
  destruct (existsb _ df) eqn:E.
  - apply existsb_exists in E. destruct E as [r [Hr Hk]].
    apply keq_true in Hk. split.
    + intros [= <-]. split; [|reflexivity].
      subst k. apply in_map, Hr.
    + intros [_ ->]. reflexivity.
  - split; [discriminate|]. intros [Hin _]. exfalso.
    apply in_map_iff in Hin. destruct Hin as [r [Hk Hr]].
    assert (existsb (fun r => keq cmp (key r) k) df = true); [|congruence].
    apply existsb_exists. exists r. split; [exact Hr|].
    apply keq_true. exact Hk.
Qed.
End GroupByFacts.

Lemma string_cmp_eq (a b : string) : String.compare a b = Eq <-> a = b.
Proof. exact (String_as_OT.cmp_eq a b). Qed.

Lemma string_cmp_antisym (a b : string) :
  String.compare a b = CompOpp (String.compare b a).
Proof. apply String.compare_antisym. Qed.

Lemma string_cmp_trans (a b c : string) :
  String.compare a b = Lt -> String.compare b c = Lt -> String.compare a c = Lt.
Proof.
  intros H1 H2.
  apply String_as_OT.cmp_lt in H1. apply String_as_OT.cmp_lt in H2.
  apply String_as_OT.cmp_lt. eapply String_as_OT.lt_trans; eassumption.
Qed.

Lemma keq_string (a b : string) : keq String.compare a b = String.eqb a b.
Proof.
  destruct (String.eqb a b) eqn:E.
  - apply String.eqb_eq in E. apply keq_true; [exact string_cmp_eq|exact E].
  - destruct (keq String.compare a b) eqn:E'; [|reflexivity].
    apply (keq_true _ string_cmp_eq) in E'.
    apply String.eqb_neq in E. contradiction.
Qed.

(* ================================================================== *)
(** * The analyzer on a batch *)

Lemma bind_ok {A B} (a : A) (k : A -> Result B) : bind (Ok a) k = k a.
Proof. reflexivity. Qed.

Lemma bind_raise {A B} (msg : string) (k : A -> Result B) :
  bind (Raise msg) k = Raise msg.
Proof. reflexivity. Qed.

Section AnalyzeFacts.
Variable to_datetime : list string -> Result (list Timestamp).
Variable to_numeric : list RawAmount -> Result (list Qc).

Let analyze := ExpenseAnalyzer.analyze_expenses to_datetime to_numeric.
Let frame := to_frame to_datetime to_numeric.

Lemma analyze_ok now data u n df :
  data <> [] -> frame data = Ok df ->
  analyze now data u n = Ok (frame_result now df).
Proof.
  intros Hne Hdf. subst analyze frame.
  unfold ExpenseAnalyzer.analyze_expenses.
  destruct data as [|r data]; [contradiction|].
  rewrite Hdf. reflexivity.
Qed.

Lemma analyze_raise now data u n msg :
  data <> [] -> frame data = Raise msg ->
  analyze now data u n = Raise msg.
Proof.
  intros Hne Hdf. subst analyze frame.
  unfold ExpenseAnalyzer.analyze_expenses.
  destruct data as [|r data]; [contradiction|].
  rewrite Hdf. reflexivity.
Qed.

Lemma to_frame_dates_raise data msg :
  data <> [] -> to_datetime (map raw_date data) = Raise msg ->
  frame data = Raise msg.
Proof.
  intros Hne H. subst frame. unfold to_frame, getitem.
  destruct data as [|r data]; [contradiction|].
  cbv beta iota. rewrite bind_ok, H. reflexivity.
Qed.

Lemma to_frame_amounts_raise data ts msg :
  data <> [] ->
  to_datetime (map raw_date data) = Ok ts ->
  List.length ts = List.length data ->
  to_numeric (map raw_amount data) = Raise msg ->
  frame data = Raise msg.
Proof.
  intros Hne Hd Hlen Ha. subst frame. unfold to_frame, getitem, setitem.
  destruct data as [|r data]; [contradiction|].
  cbv beta iota. rewrite bind_ok, Hd, bind_ok.
  rewrite Hlen, Nat.eqb_refl, !bind_ok, Ha. reflexivity.
Qed.
End AnalyzeFacts.

(* ================================================================== *)
(** * The frame of a batch *)

Lemma to_frame_length to_datetime to_numeric expenses df :
  to_frame to_datetime to_numeric expenses = Ok df ->
  List.length df = List.length expenses.
Proof.
  unfold to_frame, getitem, setitem.
  destruct expenses as [|r rest]; [discriminate|].
  cbv beta iota. rewrite bind_ok.
  generalize (r :: rest). clear r rest. intro es.
  destruct (to_datetime _) as [ts|]; [rewrite bind_ok|discriminate].
  destruct (Nat.eqb (List.length ts) _) eqn:E1; [rewrite !bind_ok|discriminate].
  destruct (to_numeric _) as [qs|]; [rewrite bind_ok|discriminate].
  destruct (Nat.eqb (List.length qs) _) eqn:E2; [rewrite bind_ok|discriminate].
  intros [= <-].
  apply Nat.eqb_eq in E1, E2.
  rewrite length_map, !length_combine. rewrite length_combine in E2.
  lia.
Qed.

(* ================================================================== *)
(** * The quantile of equal values *)

Lemma insert_sorted_repeat (c : Qc) (n : nat) :
  insert_sorted c (repeat c n) = c :: repeat c n.
Proof.
  destruct n as [|n]; simpl; [reflexivity|].
  rewrite Qcleb_refl. reflexivity.
Qed.

Lemma sort_values_repeat (c : Qc) (n : nat) :
  sort_values (repeat c n) = repeat c n.
Proof.
  unfold sort_values. induction n as [|n IH]; simpl; [reflexivity|].
  rewrite IH. apply insert_sorted_repeat.
Qed.

Lemma nth_repeat_below (c d : Qc) (i n : nat) :
  (i < n)%nat -> nth i (repeat c n) d = c.
Proof.
  revert i. induction n as [|n IH]; intros i Hi; [lia|].
  destruct i as [|i]; simpl; [reflexivity|]. apply IH. lia.
Qed.

Lemma map_amount_repeat (df : DataFrame) (c : Qc) :
  (forall r, In r df -> amount r = c) ->
  map amount df = repeat c (List.length df).
Proof.
  induction df as [|r df IH]; intro H; simpl; [reflexivity|].
  rewrite (H r) by (left; reflexivity).
  rewrite IH by (intros; apply H; right; assumption).
  reflexivity.
Qed.

(** The lower rank of the position [(n - 1) * 0.9] is a rank of the
    series. *)
Lemma quantile_rank_bounds (n : nat) :
  (0 < n)%nat ->
  0 <= Qfloor (this (qz (Z.of_nat n - 1) * Q2Qc 0.9)%Qc) <= Z.of_nat n - 1.
Proof.
  intro Hn.
  set (m := Z.of_nat n - 1).
  assert (Hm : 0 <= m) by (unfold m; lia).
  assert (E : (this (qz m * Q2Qc 0.9)%Qc == inject_Z m * 0.9)%Q).
  { change (this (qz m * Q2Qc 0.9)%Qc)
      with (Qred (this (qz m) * Qred 0.9)).
    rewrite Qred_correct, this_qz, Qred_correct. reflexivity. }
  rewrite (Qfloor_comp _ _ E).
  assert (H0 : (0 <= inject_Z m)%Q).
  { change 0%Q with (inject_Z 0). rewrite <- Zle_Qle. exact Hm. }
  split.
  - rewrite <- (Qfloor_Z 0). apply Qfloor_resp_le.
    change (inject_Z 0) with 0%Q. lra.
  - rewrite <- (Qfloor_Z m) at 2. apply Qfloor_resp_le.
    lra.
Qed.

Lemma quantile_repeat (c : Qc) (n : nat) :
  (0 < n)%nat -> quantile (Q2Qc 0.9) (repeat c n) = c.
Proof.
  intro Hn. unfold quantile. cbv zeta.
  rewrite sort_values_repeat, repeat_length.
  pose proof (quantile_rank_bounds n Hn) as [Hlo Hhi].
  rewrite !nth_repeat_below by lia.
  qring.
Qed.

Lemma no_amount_above (df : DataFrame) (c : Qc) :
  (forall r, In r df -> amount r = c) ->
  filter (fun r => (c <? amount r)%Qc) df = [].
Proof.
  induction df as [|r df IH]; intro H; simpl; [reflexivity|].
  rewrite (H r) by (left; reflexivity).
  rewrite Qcltb_irrefl. apply IH. intros; apply H; right; assumption.
Qed.

(* ================================================================== *)
(** * The suggestion rules and the patterns *)

Lemma append_if {A} (c : bool) (l : list A) (x : A) :
  (if c then list_append l x else l) = (l ++ if c then [x] else [])%list.
Proof.
  destruct c; [reflexivity|]. rewrite app_nil_r. reflexivity.
Qed.

Lemma fold_append_if {A B} (p : A -> bool) (f : A -> B) (l : list A) (init : list B) :
  fold_left (fun acc e => if p e then list_append acc (f e) else acc) l init
  = (init ++ map f (filter p l))%list.
Proof.
  revert init. induction l as [|a l IH]; intro init; simpl.
  - rewrite app_nil_r. reflexivity.
  - rewrite IH. destruct (p a); [|reflexivity].
    unfold list_append. rewrite <- app_assoc. reflexivity.
Qed.

Lemma positive_length_existsb {A} (f : A -> bool) (l : list A) :
  (0 <? List.length (filter f l))%nat = existsb f l.
Proof.
  induction l as [|a l IH]; simpl; [reflexivity|].
  destruct (f a); [reflexivity|exact IH].
Qed.

Lemma counts_max_above (n : nat) (c : list (string * nat)) :
  (n <? counts_max c)%nat = existsb (fun e => (n <? snd e)%nat) c.
Proof.
  induction c as [|e c IH]; simpl.
  - apply Nat.ltb_ge. lia.
  - rewrite <- IH.
    destruct (n <? snd e)%nat eqn:E1; destruct (n <? counts_max c)%nat eqn:E2;
      simpl; rewrite ?Nat.ltb_lt, ?Nat.ltb_ge in *; lia.
Qed.

Lemma generate_suggestions_rules now df total average top :
  ExpenseAnalyzer._generate_suggestions now df total average top
  = firstn 5 (Rules.generated now df total).
Proof.
  unfold ExpenseAnalyzer._generate_suggestions, Rules.generated.
  unfold Rules.rule_1, Rules.rule_3, Rules.rule_4, Rules.rule_5, Rules.rule_6.
  unfold Rules.recent, high_daily_variance.
  cbv zeta. f_equal.
  rewrite (fold_append_if
             (fun e : string * fnum => fgtb (snd e) (qz 40))
             (fun e => Rules.category_advice (fst e) (snd e))).
  fold (Rules.category_percentages df total).
  fold (Rules.rule_2 df total).
  generalize (Rules.rule_2 df total). intro r2.
  change (th_high spending_thresholds) with (qz 10000).
  change (th_medium spending_thresholds) with (qz 5000).
  generalize (filter (fun r => now - timedelta_days 7 <=? date r) df).
  intro recent.
  rewrite (append_if (_ <? 3)%nat).
  match goal with
  | |- (?s ++ _ = ?g ++ _)%list =>
      assert (E : s = g); [|rewrite E; reflexivity]
  end.
  destruct (qz 10000 <? total)%Qc; [|destruct (qz 5000 <? total)%Qc];
    (destruct (_ && std_gt _ _)%bool;
     destruct (value_counts (map paymentMethod df)) as [|[m c] [|e l]];
     (destruct recent as [|r0 rs];
      [|cbn [List.length Nat.ltb Nat.leb];
        destruct (qz 0 <? _)%Qc;
        [destruct (qz 20 <? _)%Qc; [|destruct (_ <? qz (-20))%Qc]|]]);
     unfold list_append;
     cbn [List.length Nat.ltb Nat.leb Nat.eqb nth map fst app];
     rewrite <- ?app_assoc;
     cbn [List.length Nat.ltb Nat.leb Nat.eqb nth map fst app];
     rewrite ?app_nil_r;
     reflexivity).
Qed.

Lemma identify_patterns_detected (df : DataFrame) :
  ExpenseAnalyzer._identify_patterns df = Patterns.detected df.
Proof.
  unfold ExpenseAnalyzer._identify_patterns, Patterns.detected.
  unfold Patterns.weekend_heavy, Patterns.frequent_category,
    Patterns.large_transaction.
  cbv zeta.
  rewrite positive_length_existsb, counts_max_above.
  assert (E : forall l : list (string * nat),
             (0 <? List.length l)%nat && existsb (fun e => (5 <? snd e)%nat) l
             = existsb (fun e => (5 <? snd e)%nat) l).
  { intros [|e l]; reflexivity. }
  rewrite E. clear E.
  destruct df as [|r df].
  - cbn [List.length Nat.ltb Nat.leb existsb].
    rewrite !append_if, app_nil_r. reflexivity.
  - cbn [List.length Nat.ltb Nat.leb].
    rewrite !append_if, <- app_assoc. reflexivity.
Qed.

Lemma detected_length (df : DataFrame) :
  (List.length (Patterns.detected df) <= 3)%nat.
Proof.
  unfold Patterns.detected.
  destruct (Patterns.weekend_heavy df), (Patterns.frequent_category df),
    (Patterns.large_transaction df); simpl; lia.
Qed.

(* ================================================================== *)
(** * convert_numpy_types *)

Lemma forallb_map' {A B} (f : A -> B) (p : B -> bool) (l : list A) :
  forallb p (map f l) = forallb (fun x => p (f x)) l.
Proof.
  induction l as [|a l IH]; simpl; [reflexivity|]. rewrite IH. reflexivity.
Qed.

Lemma tolist_native (a : NdArray) : native (tolist a) = true.
Proof.
  induction a as [z|x|items IH] using NdArray_ind; try reflexivity.
  simpl. rewrite forallb_map'. apply forallb_forall.
  rewrite Forall_forall in IH. exact IH.
Qed.

Lemma tolist_shape (a : NdArray) : shape (tolist a) = array_shape a.
Proof.
  induction a as [z|x|items IH] using NdArray_ind; try reflexivity.
  simpl. f_equal. rewrite map_map. apply map_ext_in.
  rewrite Forall_forall in IH. exact IH.
Qed.

Lemma forallb_ext_in {A} (p q : A -> bool) (l : list A) :
  (forall x, In x l -> p x = q x) -> forallb p l = forallb q l.
Proof.
  induction l as [|a l IH]; intro H; simpl; [reflexivity|].
  rewrite (H a) by (left; reflexivity).
  rewrite IH by (intros x Hx; apply H; right; exact Hx).
  reflexivity.
Qed.

Lemma convert_native (v : PyVal) :
  native (convert_numpy_types v) = convertible v.
Proof.
  induction v as [z|x|a|b|s|g|z|x|s|b| |items IH|items IH|items IH] using PyVal_ind.
  1-11: try reflexivity; apply tolist_native.
  - simpl. rewrite forallb_map'. simpl.
    apply forallb_ext_in. rewrite Forall_forall in IH. exact IH.
  - simpl. rewrite forallb_map'.
    apply forallb_ext_in. rewrite Forall_forall in IH. exact IH.
  - reflexivity.
Qed.

Lemma convert_native_id (v : PyVal) :
  native v = true -> convert_numpy_types v = v.
Proof.
  induction v as [z|x|a|b|s|g|z|x|s|b| |items IH|items IH|items IH] using PyVal_ind.
  1-11: try reflexivity; discriminate.
  - simpl. intro H. f_equal.
    rewrite <- (map_id items) at 2. apply map_ext_in.
    intros [k x] Hin. simpl. f_equal.
    rewrite Forall_forall in IH. rewrite forallb_forall in H.
    apply (IH _ Hin). apply (H _ Hin).
  - simpl. intro H. f_equal.
    rewrite <- (map_id items) at 2. apply map_ext_in.
    intros x Hin.
    rewrite Forall_forall in IH. rewrite forallb_forall in H.
    apply (IH _ Hin). apply (H _ Hin).
  - reflexivity.
Qed.

Lemma convert_shape (v : PyVal) : shape (convert_numpy_types v) = shape v.
Proof.
  induction v as [z|x|a|b|s|g|z|x|s|b| |items IH|items IH|items IH] using PyVal_ind.
  1-11: try reflexivity; apply tolist_shape.
  - simpl. f_equal. rewrite map_map. apply map_ext_in.
    intros [k x] Hin. simpl. f_equal.
    rewrite Forall_forall in IH. apply (IH _ Hin).
  - simpl. f_equal. rewrite map_map. apply map_ext_in.
    rewrite Forall_forall in IH. exact IH.
  - reflexivity.
Qed.

(* ================================================================== *)
(** * The columns of a frame *)

Lemma combine_fst {A B} (l : list A) (l' : list B) :
  List.length l' = List.length l -> map fst (combine l l') = l.
Proof.
  revert l'. induction l as [|a l IH]; intros [|b l'] H; simpl in *;
    try discriminate; [reflexivity|].
  f_equal. apply IH. lia.
Qed.

Lemma combine_snd {A B} (l : list A) (l' : list B) :
  List.length l' = List.length l -> map snd (combine l l') = l'.
Proof.
  revert l'. induction l as [|a l IH]; intros [|b l'] H; simpl in *;
    try discriminate; [reflexivity|].
  f_equal. apply IH. lia.
Qed.

Lemma to_frame_columns to_datetime to_numeric expenses df :
  to_frame to_datetime to_numeric expenses = Ok df ->
  to_datetime (map raw_date expenses) = Ok (map date df)
  /\ to_numeric (map raw_amount expenses) = Ok (map amount df)
  /\ map category df = map raw_category expenses
  /\ map paymentMethod df = map raw_paymentMethod expenses.
Proof.
  unfold to_frame, getitem, setitem.
  destruct expenses as [|r rest]; [discriminate|].
  cbv beta iota. rewrite bind_ok.
  generalize (r :: rest). clear r rest. intro es.
  destruct (to_datetime _) as [ts|]; [rewrite bind_ok|discriminate].
  destruct (Nat.eqb (List.length ts) _) eqn:E1; [rewrite !bind_ok|discriminate].
  destruct (to_numeric _) as [qs|]; [rewrite bind_ok|discriminate].
  destruct (Nat.eqb (List.length qs) _) eqn:E2; [rewrite bind_ok|discriminate].
  intros [= <-].
  apply Nat.eqb_eq in E1, E2.
  rewrite !map_map. cbn [date amount category paymentMethod].
  assert (F : map fst (combine (combine es ts) qs) = combine es ts)
    by (apply combine_fst; exact E2).
  assert (S : map snd (combine (combine es ts) qs) = qs)
    by (apply combine_snd; exact E2).
  repeat split.
  - f_equal. rewrite <- (combine_snd es ts E1) at 1. rewrite <- F at 1.
    rewrite map_map. reflexivity.
  - f_equal. symmetry. exact S.
  - rewrite <- (combine_fst es ts E1) at 2. rewrite <- F at 2.
    rewrite !map_map. reflexivity.
  - rewrite <- (combine_fst es ts E1) at 2. rewrite <- F at 2.
    rewrite !map_map. reflexivity.
Qed.

Lemma to_frame_not_nil to_datetime to_numeric expenses df :
  to_frame to_datetime to_numeric expenses = Ok df -> df <> [].
Proof.
  intros H E. destruct expenses as [|r rest]; [discriminate H|].
  apply to_frame_length in H. subst df. discriminate H.
Qed.

(* ================================================================== *)
(** * The first maximum of a series *)

Lemma Qcltb_ge (x y : Qc) : (x <? y)%Qc = false <-> (y <= x)%Qc.
Proof.
  destruct (x <? y)%Qc eqn:E.
  - apply Qcltb_lt in E. split; [discriminate|].
    intro H. exfalso. exact (Qcle_not_lt _ _ H E).
  - split; [|reflexivity]. intros _. apply Qcnot_lt_le.
    intro H. apply Qcltb_lt in H. congruence.
Qed.

Lemma sorted_app_after {A} (R : A -> A -> Prop) (pre post : list A) (m : A) :
  StronglySorted R (pre ++ m :: post) -> Forall (R m) post.
Proof.
  induction pre as [|a pre IH]; simpl; intro H.
  - apply StronglySorted_inv in H. apply H.
  - apply StronglySorted_inv in H. apply IH, H.
Qed.

Section FirstMax.
Context {K : Type}.

(** [first_max] splits the series at its result: everything before is
    strictly smaller, nothing after is larger. *)
Lemma first_max_split (best : K * Qc) (l : list (K * Qc)) :
  exists pre post,
    best :: l = (pre ++ first_max best l :: post)%list
    /\ (forall e, In e pre -> (snd e < snd (first_max best l))%Qc)
    /\ (forall e, In e post -> (snd e <= snd (first_max best l))%Qc).
Proof.
  revert best. induction l as [|e rest IH]; intro best; simpl.
  - exists [], []. repeat split; simpl; intros; contradiction.
  - destruct (snd best <? snd e)%Qc eqn:E.
    + apply Qcltb_lt in E.
      destruct (IH e) as (pre & post & Hsplit & Hpre & Hpost).
      exists (best :: pre), post. split; [simpl; f_equal; exact Hsplit|].
      split; [|exact Hpost].
      intros x [<-|Hx]; [|apply Hpre, Hx].
      eapply Qclt_le_trans; [exact E|].
      assert (Hin : In e (pre ++ first_max e rest :: post))
        by (rewrite <- Hsplit; left; reflexivity).
      apply in_app_or in Hin. destruct Hin as [Hin|[Hin|Hin]].
      * apply Qclt_le_weak, Hpre, Hin.
      * rewrite Hin. apply Qcle_refl.
      * apply Hpost, Hin.
    + apply Qcltb_ge in E.
      destruct (IH best) as (pre & post & Hsplit & Hpre & Hpost).
      destruct pre as [|b pre].
      * simpl in Hsplit. injection Hsplit as Hm Hrest.
        exists [], (e :: post). split; [simpl; congruence|].
        split; [intros x []|].
        intros x [<-|Hx]; [rewrite <- Hm; exact E|apply Hpost, Hx].
      * simpl in Hsplit. injection Hsplit as Hb Hrest. subst b.
        exists (best :: e :: pre), post.
        split; [simpl; do 2 f_equal; exact Hrest|].
        split; [|exact Hpost].
        assert (Hbest : (snd best < snd (first_max best rest))%Qc)
          by (apply Hpre; left; reflexivity).
        intros x [<-|[<-|Hx]].
        -- exact Hbest.
        -- eapply Qcle_lt_trans; [exact E|exact Hbest].
        -- apply Hpre. right. exact Hx.
Qed.

Lemma idxmax_max_in (d : K) (s : list (K * Qc)) :
  s <> [] -> In (idxmax d s, series_max s) s.
Proof.
  destruct s as [|e rest]; [contradiction|]. intros _.
  unfold idxmax, series_max.
  destruct (first_max_split e rest) as (pre & post & Hsplit & _).
  rewrite <- surjective_pairing. rewrite Hsplit.
  apply in_or_app. right. left. reflexivity.
Qed.

Lemma series_max_upper (s : list (K * Qc)) (e : K * Qc) :
  In e s -> (snd e <= series_max s)%Qc.
Proof.
  destruct s as [|e0 rest]; [contradiction|]. intro Hin.
  unfold series_max.
  destruct (first_max_split e0 rest) as (pre & post & Hsplit & Hpre & Hpost).
  rewrite Hsplit in Hin. apply in_app_or in Hin.
  destruct Hin as [Hin|[<-|Hin]].
  - apply Qclt_le_weak, Hpre, Hin.
  - apply Qcle_refl.
  - apply Hpost, Hin.
Qed.

(** Among the entries that reach the maximum, [idxmax] names the first:
    in a series in key order, the one of least key. *)
Lemma idxmax_least_key (cmp : K -> K -> comparison) (d : K)
    (s : list (K * Qc)) (k : K) :
  (forall a, cmp a a = Eq) ->
  StronglySorted (key_lt cmp) s ->
  In (k, series_max s) s ->
  cmp (idxmax d s) k <> Gt.
Proof.
  intros Hrefl Hs Hin.
  destruct s as [|e0 rest]; [contradiction|].
  unfold idxmax, series_max in *.
  destruct (first_max_split e0 rest) as (pre & post & Hsplit & Hpre & Hpost).
  rewrite Hsplit in Hin, Hs. apply in_app_or in Hin.
  destruct Hin as [Hin|[Hin|Hin]].
  - apply Hpre in Hin. simpl in Hin. exfalso. exact (Qlt_irrefl _ Hin).
  - rewrite Hin. simpl. rewrite Hrefl. discriminate.
  - apply sorted_app_after in Hs. rewrite Forall_forall in Hs.
    apply Hs in Hin. unfold key_lt in Hin. simpl in Hin.
    rewrite Hin. discriminate.
Qed.
End FirstMax.

(* ================================================================== *)
(** * value_counts *)

Lemma count_of_count_add (k k' : string) (acc : list (string * nat)) :
  count_of k' (count_add k acc)
  = (count_of k' acc + if String.eqb k' k then 1 else 0)%nat.
Proof.
  induction acc as [|[k0 c] rest IH]; simpl.
  - destruct (String.eqb k' k); reflexivity.
  - destruct (String.eqb k k0) eqn:E; simpl.
    + apply String.eqb_eq in E. subst k0.
      destruct (String.eqb k' k); lia.
    + destruct (String.eqb k' k0) eqn:E0; [|exact IH].
      apply String.eqb_eq in E0. subst k0.
      rewrite String.eqb_sym, E. lia.
Qed.

Lemma count_add_keys (k k' : string) (acc : list (string * nat)) :
  In k' (map fst (count_add k acc)) <-> k' = k \/ In k' (map fst acc).
Proof.
  induction acc as [|[k0 c] rest IH]; simpl.
  - intuition.
  - destruct (String.eqb k k0) eqn:E; simpl.
    + apply String.eqb_eq in E. subst k0. intuition.
    + rewrite IH. intuition.
Qed.

Lemma count_add_nodup (k : string) (acc : list (string * nat)) :
  NoDup (map fst acc) -> NoDup (map fst (count_add k acc)).
Proof.
  induction acc as [|[k0 c] rest IH]; simpl; intro H.
  - repeat constructor. intros [].
  - destruct (String.eqb k k0) eqn:E; simpl; [exact H|].
    inversion H as [|? ? Hnot Hrest]; subst.
    constructor; [|apply IH, Hrest].
    rewrite count_add_keys. intros [->|Hin]; [|contradiction].
    rewrite String.eqb_refl in E. discriminate.
Qed.

Lemma tally_snoc (xs : list string) (k : string) :
  tally (xs ++ [k]) = count_add k (tally xs).
Proof. unfold tally. rewrite fold_left_app. reflexivity. Qed.

Lemma tally_count (xs : list string) (k : string) :
  count_of k (tally xs) = occurrences xs k.
Proof.
  unfold occurrences.
  induction xs as [|x xs IH] using rev_ind; [reflexivity|].
  rewrite tally_snoc, count_of_count_add, IH, count_occ_app. simpl.
  destruct (string_dec x k) as [->|Hne].
  - rewrite String.eqb_refl. reflexivity.
  - destruct (String.eqb k x) eqn:E; [|reflexivity].
    apply String.eqb_eq in E. congruence.
Qed.

Lemma tally_keys (xs : list string) (k : string) :
  In k (map fst (tally xs)) <-> In k xs.
Proof.
  induction xs as [|x xs IH] using rev_ind; [reflexivity|].
  rewrite tally_snoc, count_add_keys, IH, in_app_iff. simpl. intuition.
Qed.

Lemma tally_nodup (xs : list string) : NoDup (map fst (tally xs)).
Proof.
  induction xs as [|x xs IH] using rev_ind; [constructor|].
  rewrite tally_snoc. apply count_add_nodup, IH.
Qed.

Lemma count_of_in (k : string) (c : nat) (acc : list (string * nat)) :
  NoDup (map fst acc) ->
  (In (k, c) acc <-> In k (map fst acc) /\ count_of k acc = c).
Proof.
  induction acc as [|[k0 c0] rest IH]; simpl; intro H.
  - intuition.
  - inversion H as [|? ? Hnot Hrest]; subst.
    destruct (String.eqb k k0) eqn:E.
    + apply String.eqb_eq in E. subst k0. split.
      * intros [[= ->]|Hin]; [auto|].
        exfalso. apply Hnot. apply (in_map fst) in Hin. exact Hin.
      * intros [_ ->]. left. reflexivity.
    + assert (k0 <> k)
        by (intros ->; rewrite String.eqb_refl in E; discriminate).
      rewrite (IH Hrest). split.
      * intros [[= -> ->]|[Hin Hc]]; [congruence|auto].
      * intros [[Heq|Hin] Hc]; [congruence|auto].
Qed.

Lemma tally_in (xs : list string) (k : string) (c : nat) :
  In (k, c) (tally xs) <-> In k xs /\ c = occurrences xs k.
Proof.
  rewrite (count_of_in k c _ (tally_nodup xs)), tally_keys, tally_count.
  intuition.
Qed.

Lemma insert_desc_perm (e : string * nat) (l : list (string * nat)) :
  Permutation (insert_desc e l) (e :: l).
Proof.
  induction l as [|e' rest IH]; simpl; [reflexivity|].
  destruct (snd e' <? snd e)%nat; [reflexivity|].
  rewrite IH. apply perm_swap.
Qed.

Lemma value_counts_perm (xs : list string) :
  Permutation (value_counts xs) (tally xs).
Proof.
  unfold value_counts. fold (tally xs).
  induction (tally xs) as [|e l IH]; simpl; [reflexivity|].
  rewrite insert_desc_perm, IH. reflexivity.
Qed.

(** [value_counts] gives a count to the values that occur, and the count
    is the number of occurrences. *)
Lemma value_counts_in (xs : list string) (k : string) (c : nat) :
  In (k, c) (value_counts xs) <-> In k xs /\ c = occurrences xs k.
Proof.
  rewrite <- tally_in. split; apply Permutation_in.
  - apply value_counts_perm.
  - symmetry. apply value_counts_perm.
Qed.

Lemma value_counts_nodup (xs : list string) :
  NoDup (map fst (value_counts xs)).
Proof.
  eapply Permutation_NoDup; [|apply tally_nodup].
  symmetry. apply Permutation_map, value_counts_perm.
Qed.

Lemma insert_desc_sorted (e : string * nat) (l : list (string * nat)) :
  StronglySorted (fun a b => (snd b <= snd a)%nat) l ->
  StronglySorted (fun a b => (snd b <= snd a)%nat) (insert_desc e l).
Proof.
  induction 1 as [|e' rest Hs IH Hall]; simpl.
  - repeat constructor.
  - destruct (snd e' <? snd e)%nat eqn:E.
    + apply Nat.ltb_lt in E. constructor; [constructor; assumption|].
      constructor; [lia|].
      eapply Forall_impl; [|exact Hall]. simpl. intros; lia.
    + apply Nat.ltb_ge in E. constructor; [exact IH|].
      eapply Permutation_Forall; [symmetry; apply insert_desc_perm|].
      constructor; assumption.
Qed.

Lemma value_counts_sorted (xs : list string) :
  StronglySorted (fun a b => (snd b <= snd a)%nat) (value_counts xs).
Proof.
  unfold value_counts. fold (tally xs).
  induction (tally xs) as [|e l IH]; simpl; [constructor|].
  apply insert_desc_sorted, IH.
Qed.

Lemma occurrences_all_equal (xs : list string) (m : string) :
  (forall x, In x xs -> x = m) -> occurrences xs m = List.length xs.
Proof.
  unfold occurrences. induction xs as [|x xs IH]; intro H; [reflexivity|].
  simpl. rewrite (H x) by (left; reflexivity).
  destruct (string_dec m m); [|congruence].
  f_equal. apply IH. intros; apply H; right; assumption.
Qed.

Lemma occurrences_positive (xs : list string) (k : string) :
  In k xs <-> (0 < occurrences xs k)%nat.
Proof. apply count_occ_In. Qed.

(** The counts have one entry exactly when the column is not empty and
    all its values are equal. *)
Lemma value_counts_single (xs : list string) (m : string) (c : nat) :
  value_counts xs = [(m, c)] <->
  xs <> [] /\ (forall x, In x xs -> x = m) /\ c = List.length xs.
Proof.
  split.
  - intro H.
    assert (Hall : forall x, In x xs -> x = m).
    { intros x Hx.
      assert (Hin : In (x, occurrences xs x) (value_counts xs))
        by (apply value_counts_in; auto).
      rewrite H in Hin. destruct Hin as [[= <- _]|[]]. reflexivity. }
    assert (Hm : In (m, c) (value_counts xs)) by (rewrite H; left; reflexivity).
    apply value_counts_in in Hm. destruct Hm as [Hm ->].
    split; [intros ->; contradiction|].
    split; [exact Hall|]. apply occurrences_all_equal, Hall.
  - intros (Hne & Hall & ->).
    pose proof (value_counts_nodup xs) as Hnd.
    assert (Hel : forall e, In e (value_counts xs) -> e = (m, List.length xs)).
    { intros [k c] Hin. apply value_counts_in in Hin.
      destruct Hin as [Hk ->]. rewrite (Hall k Hk).
      f_equal. apply occurrences_all_equal, Hall. }
    assert (Hin : In (m, List.length xs) (value_counts xs)).
    { apply value_counts_in. split.
      - destruct xs as [|x xs]; [contradiction|].
        left. apply Hall. left. reflexivity.
      - symmetry. apply occurrences_all_equal, Hall. }
    destruct (value_counts xs) as [|e1 [|e2 rest]].
    + contradiction.
    + rewrite (Hel e1) by (left; reflexivity). reflexivity.
    + exfalso.
      rewrite (Hel e1) in Hnd by (left; reflexivity).
      rewrite (Hel e2) in Hnd by (right; left; reflexivity).
      simpl in Hnd. inversion Hnd as [|? ? Hnot _]. apply Hnot. left. reflexivity.
Qed.

(* ================================================================== *)
(** * sort_values and quantile *)

Lemma Qcleb_le (x y : Qc) : (x <=? y)%Qc = true <-> (x <= y)%Qc.
Proof.
  unfold Qcleb. rewrite Qcle_alt.
  destruct (x ?= y)%Qc; split; congruence.
Qed.

Lemma insert_sorted_perm (x : Qc) (l : list Qc) :
  Permutation (insert_sorted x l) (x :: l).
Proof.
  induction l as [|y rest IH]; simpl; [reflexivity|].
  destruct (x <=? y)%Qc; [reflexivity|].
  rewrite IH. apply perm_swap.
Qed.

Lemma sort_values_perm (xs : list Qc) : Permutation (sort_values xs) xs.
Proof.
  unfold sort_values. induction xs as [|x xs IH]; simpl; [reflexivity|].
  rewrite insert_sorted_perm, IH. reflexivity.
Qed.

Lemma insert_sorted_sorted (x : Qc) (l : list Qc) :
  StronglySorted Qcle l -> StronglySorted Qcle (insert_sorted x l).
Proof.
  induction 1 as [|y rest Hs IH Hall]; simpl.
  - repeat constructor.
  - destruct (x <=? y)%Qc eqn:E.
    + apply Qcleb_le in E. constructor; [constructor; assumption|].
      constructor; [exact E|].
      eapply Forall_impl; [|exact Hall].
      intros z Hz. eapply Qcle_trans; eassumption.
    + assert (Hyx : (y <= x)%Qc).
      { apply Qcnot_lt_le. intro H. apply Qclt_le_weak, Qcleb_le in H.
        congruence. }
      constructor; [exact IH|].
      eapply Permutation_Forall; [symmetry; apply insert_sorted_perm|].
      constructor; assumption.
Qed.

Lemma sort_values_sorted (xs : list Qc) : StronglySorted Qcle (sort_values xs).
Proof.
  unfold sort_values. induction xs as [|x xs IH]; simpl; [constructor|].
  apply insert_sorted_sorted, IH.
Qed.

Lemma sorted_perm_eq (l1 l2 : list Qc) :
  StronglySorted Qcle l1 -> StronglySorted Qcle l2 ->
  Permutation l1 l2 -> l1 = l2.
Proof.
  intro S1. revert l2.
  induction S1 as [|a r1 Hs1 IH Hall1]; intros l2 S2 Hp.
  - apply Permutation_nil in Hp. symmetry. exact Hp.
  - destruct S2 as [|b r2 Hs2 Hall2].
    + symmetry in Hp. apply Permutation_nil in Hp. discriminate.
    + assert (Hab : a = b).
      { rewrite Forall_forall in Hall1, Hall2.
        assert (Hb : In b (a :: r1))
          by (eapply Permutation_in; [symmetry; exact Hp|left; reflexivity]).
        assert (Ha : In a (b :: r2))
          by (eapply Permutation_in; [exact Hp|left; reflexivity]).
        destruct Hb as [Hb|Hb]; [exact Hb|].
        destruct Ha as [Ha|Ha]; [symmetry; exact Ha|].
        apply Qcle_antisym; [apply Hall1, Hb|apply Hall2, Ha]. }
      subst b. f_equal. apply IH; [exact Hs2|].
      eapply Permutation_cons_inv, Hp.
Qed.

Lemma sort_values_perm_eq (xs ys : list Qc) :
  Permutation xs ys -> sort_values xs = sort_values ys.
Proof.
  intro H. apply sorted_perm_eq; try apply sort_values_sorted.
  rewrite !sort_values_perm. exact H.
Qed.

Lemma quantile_perm (q : Qc) (xs ys : list Qc) :
  Permutation xs ys -> quantile q xs = quantile q ys.
Proof.
  intro H. unfold quantile.
  rewrite (sort_values_perm_eq xs ys H), (Permutation_length H).
  reflexivity.
Qed.

(* ================================================================== *)
(** * The values of the efficiency score *)

Lemma Q2R_Q2Qc (q : Q) : Q2R (Q2Qc q) = Q2R q.
Proof. apply Qeq_eqR. exact (Qred_correct q). Qed.

(** A deviation above half the mean is not below a fifth of it. *)
Lemma variance_tests_exclusive (v m : Qc) :
  sqrt_gtb v (m * Q2Qc 0.5) && sqrt_ltb v (m * Q2Qc 0.2) = false.
Proof.
  destruct (sqrt_gtb v (m * Q2Qc 0.5)) eqn:Hg; [|reflexivity].
  destruct (sqrt_ltb v (m * Q2Qc 0.2)) eqn:Hl; [|reflexivity].
  exfalso.
  unfold sqrt_gtb in Hg. unfold sqrt_ltb in Hl.
  apply orb_true_iff in Hg. apply andb_true_iff in Hl.
  rewrite !Qcltb_Rlt in Hg, Hl.
  rewrite !Q2R_qc_mult, !Q2R_Q2Qc, ?Q2R_qz_0 in Hg, Hl.
  replace (Q2R 0.5) with (/ 2)%R in Hg by (unfold Q2R; simpl; lra).
  replace (Q2R 0.2) with (/ 5)%R in Hl by (unfold Q2R; simpl; lra).
  destruct Hl as [Hpos Hlt].
  destruct Hg as [Hneg|Hgt]; nra.
Qed.

Lemma high_low_exclusive (df : DataFrame) :
  high_daily_variance df && low_daily_variance df = false.
Proof.
  unfold high_daily_variance, low_daily_variance, std_gt, std_lt. cbv zeta.
  destruct (1 <? _)%nat; [|reflexivity].
  simpl. apply variance_tests_exclusive.
Qed.

Lemma adjusted_score_values (df : DataFrame) :
  let s := Z.max 0 (Z.min 100 (adjusted_score df)) in
  s = 100 \/ s = 95 \/ s = 85 \/ s = 80 \/ s = 65.
Proof.
  pose proof (high_low_exclusive df) as Hx.
  unfold adjusted_score.
  destruct (high_daily_variance df), (low_daily_variance df),
    (small_transaction_share df); try discriminate Hx; cbv; auto 6.
Qed.

Lemma groups_of_one_key {K} (cmp : K -> K -> comparison) (k : K)
    (m : list (K * Qc)) :
  (forall a, cmp a a = Eq) ->
  StronglySorted (key_lt cmp) m ->
  (forall e, In e m -> fst e = k) ->
  (List.length m <= 1)%nat.
Proof.
  intros Hrefl Hs Hk.
  destruct m as [|e1 [|e2 rest]]; simpl; try lia.
  exfalso. apply StronglySorted_inv in Hs. destruct Hs as [_ Hall].
  apply Forall_inv in Hall. unfold key_lt in Hall.
  rewrite (Hk e1), (Hk e2) in Hall by (simpl; auto).
  rewrite Hrefl in Hall. discriminate.
Qed.

Lemma z_cmp_eq (a b : Z) : (a ?= b) = Eq <-> a = b.
Proof. apply Z.compare_eq_iff. Qed.

Lemma z_cmp_antisym (a b : Z) : (a ?= b) = CompOpp (b ?= a).
Proof. apply Z.compare_antisym. Qed.

Lemma z_cmp_trans (a b c : Z) :
  (a ?= b) = Lt -> (b ?= c) = Lt -> (a ?= c) = Lt.
Proof. rewrite !Z.compare_lt_iff. lia. Qed.

(** The records of one calendar day make one daily total. *)
Lemma one_day_one_total (df : DataFrame) (day : Z) :
  (forall r, In r df -> dt_date (date r) = day) ->
  (List.length (ExpenseAnalyzer.daily_totals df) <= 1)%nat.
Proof.
  intro H. unfold ExpenseAnalyzer.daily_totals. rewrite length_map.
  apply (groups_of_one_key Z.compare day).
  - apply Z.compare_refl.
  - apply (groupby_sorted _ z_cmp_antisym z_cmp_trans).
  - intros [k v] Hin.
    apply (groupby_in _ z_cmp_eq z_cmp_antisym z_cmp_trans) in Hin.
    destruct Hin as [Hin _]. apply in_map_iff in Hin.
    destruct Hin as [r [<- Hr]]. simpl. apply H, Hr.
Qed.

(* ================================================================== *)
(** * What each rule appends *)

Lemma firstn_incl {A} (n : nat) (l : list A) (x : A) :
  In x (firstn n l) -> In x l.
Proof.
  revert l. induction n as [|n IH]; intros [|a l]; simpl; try contradiction.
  intros [->|H]; [left; reflexivity|right; apply IH, H].
Qed.

Lemma rule_1_members (total : Qc) (s : Suggestion) :
  In s (Rules.rule_1 total) ->
  (s = Rules.high_spending_warning total /\ (qz 10000 < total)%Qc)
  \/ (s = Rules.moderate_spending_advice total /\ ~ (qz 10000 < total)%Qc).
Proof.
  unfold Rules.rule_1.
  destruct (qz 10000 <? total)%Qc eqn:E.
  - intros [<-|[]]. left. split; [reflexivity|apply Qcltb_lt, E].
  - assert (H : ~ (qz 10000 < total)%Qc)
      by (intro H; apply Qcltb_lt in H; congruence).
    destruct (qz 5000 <? total)%Qc; [|contradiction].
    intros [<-|[]]. right. split; [reflexivity|exact H].
Qed.

Lemma rule_2_members (df : DataFrame) (total : Qc) (s : Suggestion) :
  In s (Rules.rule_2 df total) ->
  exists label percentage, s = Rules.category_advice label percentage.
Proof.
  unfold Rules.rule_2. intro H. apply in_map_iff in H.
  destruct H as [e [<- _]]. eauto.
Qed.

Lemma rule_3_members (df : DataFrame) (s : Suggestion) :
  In s (Rules.rule_3 df) -> s = Rules.daily_variance_tip.
Proof.
  unfold Rules.rule_3. destruct (high_daily_variance df); [|contradiction].
  intros [<-|[]]. reflexivity.
Qed.

Lemma rule_4_members (df : DataFrame) (s : Suggestion) :
  In s (Rules.rule_4 df) ->
  exists method count,
    s = Rules.payment_method_tip method
    /\ value_counts (map paymentMethod df) = [(method, count)].
Proof.
  unfold Rules.rule_4.
  destruct (value_counts (map paymentMethod df)) as [|[m c] [|e l]];
    try contradiction.
  intros [<-|[]]. eauto.
Qed.

Lemma rule_5_members (now : Timestamp) (df : DataFrame) (total : Qc)
    (s : Suggestion) :
  In s (Rules.rule_5 now df total) ->
  exists change,
    s = Rules.increase_warning change \/ s = Rules.decrease_praise change.
Proof.
  unfold Rules.rule_5. cbv zeta.
  destruct (Rules.recent now df); [contradiction|].
  destruct (qz 0 <? _)%Qc; [|contradiction].
  destruct (qz 20 <? _)%Qc; [intros [<-|[]]; eauto|].
  destruct (_ <? qz (-20))%Qc; [intros [<-|[]]; eauto|contradiction].
Qed.

Lemma rule_6_members (so_far : list Suggestion) (s : Suggestion) :
  In s (Rules.rule_6 so_far) ->
  s = Rules.general_tip /\ (List.length so_far < 3)%nat.
Proof.
  unfold Rules.rule_6. destruct (_ <? 3)%nat eqn:E; [|contradiction].
  intros [<-|[]]. split; [reflexivity|apply Nat.ltb_lt, E].
Qed.

(** Where a generated suggestion comes from. *)
Lemma generated_members (now : Timestamp) (df : DataFrame) (total : Qc)
    (s : Suggestion) :
  In s (Rules.generated now df total) ->
  In s (Rules.rule_1 total)
  \/ In s (Rules.rule_2 df total)
  \/ In s (Rules.rule_3 df)
  \/ In s (Rules.rule_4 df)
  \/ In s (Rules.rule_5 now df total)
  \/ (s = Rules.general_tip
      /\ (List.length (Rules.generated now df total) <= 3)%nat).
Proof.
  unfold Rules.generated. cbv zeta. intro H.
  apply in_app_or in H. destruct H as [H|H].
  - repeat (apply in_app_or in H; destruct H as [H|H]; auto 6).
  - apply rule_6_members in H. destruct H as [-> Hlen].
    do 5 right. split; [reflexivity|].
    rewrite length_app. unfold Rules.rule_6.
    destruct (_ <? 3)%nat; simpl; lia.
Qed.

Lemma filter_all {A} (f : A -> bool) (l : list A) :
  forallb f l = true -> filter f l = l.
Proof.
  induction l as [|a l IH]; simpl; [reflexivity|].
  intro H. apply andb_true_iff in H. destruct H as [Ha Hl].
  rewrite Ha, (IH Hl). reflexivity.
Qed.

Lemma forallb_false_exists {A} (f : A -> bool) (l : list A) :
  forallb f l = false -> exists a, In a l /\ f a = false.
Proof.
  induction l as [|a l IH]; simpl; [discriminate|].
  destruct (f a) eqn:E.
  - simpl. intro H. destruct (IH H) as [x [Hx Hf]]. eauto.
  - intros _. eauto.
Qed.

(** The trend rule is silent unless the frame has a record in the window
    of 7 days and a record outside it. *)
Lemma rule_5_needs_both (now : Timestamp) (df : DataFrame) :
  Rules.rule_5 now df (series_sum (map amount df)) <> [] ->
  (exists r, In r df /\ now - timedelta_days 7 <= date r)
  /\ (exists r, In r df /\ date r < now - timedelta_days 7).
Proof.
  unfold Rules.rule_5, Rules.recent. cbv zeta. intro H.
  split.
  - destruct (filter _ df) as [|r0 rest] eqn:E; [contradiction|].
    assert (Hin : In r0 (filter (fun r => now - timedelta_days 7 <=? date r) df))
      by (rewrite E; left; reflexivity).
    apply filter_In in Hin. destruct Hin as [Hin Hf].
    exists r0. split; [exact Hin|apply Z.leb_le, Hf].
  - destruct (forallb (fun r => now - timedelta_days 7 <=? date r) df) eqn:F.
    + exfalso. apply H. rewrite (filter_all _ _ F).
      destruct df; [reflexivity|].
      replace (series_sum (map amount (e :: df)) - series_sum (map amount (e :: df)))%Qc
        with (qz 0) by qring.
      rewrite Qcltb_irrefl. reflexivity.
    + apply forallb_false_exists in F. destruct F as [r [Hin Hf]].
      exists r. split; [exact Hin|apply Z.leb_gt, Hf].
Qed.

(* ================================================================== *)
(** * Insights on a frame *)

Lemma qz_neq_0 (d : Z) : d <> 0 -> qz d <> 0%Qc.
Proof.
  intros Hd H. apply Hd.
  assert (E : (inject_Z d == inject_Z 0)%Q).
  { rewrite <- (this_qz d), H. reflexivity. }
  unfold Qeq in E. simpl in E. lia.
Qed.

Lemma Qc_div_mul (x y : Qc) : y <> 0%Qc -> (x / y * y)%Qc = x.
Proof. intro H. field. exact H. Qed.


Lemma get_insights_zero_days to_datetime to_numeric expenses days df :
  to_frame to_datetime to_numeric expenses = Ok df ->
  dict_get days 30 = 0 ->
  get_insights to_datetime to_numeric (Some (mkInsightsBody (Some expenses) days))
  = Resp500 "Insights generation failed" "float division by zero".
Proof.
  intros Hdf Hd. unfold get_insights. cbn [ins_expenses ins_days].
  rewrite Hdf, bind_ok. unfold py_div. rewrite Hd. reflexivity.
Qed.

Lemma top_label_groupby (key : Expense -> string) (df : DataFrame) :
  df <> [] ->
  top_label (groupby_sum String.compare key df)
  = idxmax "" (groupby_sum String.compare key df).
Proof.
  intro H. unfold top_label.
  pose proof (groupby_not_nil String.compare key df H) as Hne.
  destruct (groupby_sum String.compare key df); [contradiction|reflexivity].
Qed.

Lemma sorted_keys_nodup {K} (cmp : K -> K -> comparison) (m : list (K * Qc)) :
  (forall a, cmp a a = Eq) ->
  StronglySorted (key_lt cmp) m -> NoDup (map fst m).
Proof.
  intro Hrefl. induction 1 as [|e rest Hs IH Hall]; simpl; constructor.
  - intro Hin. apply in_map_iff in Hin. destruct Hin as [e' [Heq Hin]].
    rewrite Forall_forall in Hall. apply Hall in Hin.
    unfold key_lt in Hin. rewrite Heq, Hrefl in Hin. discriminate.
  - exact IH.
Qed.

Lemma string_cmp_refl (a : string) : String.compare a a = Eq.
Proof. apply string_cmp_eq. reflexivity. Qed.

(** The answers of [get_insights], read backwards. *)
Lemma get_insights_answers to_datetime to_numeric data :
  (get_insights to_datetime to_numeric data = Resp400 "Missing expenses data"
   <-> data = None \/ exists body, data = Some body /\ ins_expenses body = None)
  /\ (forall error,
         get_insights to_datetime to_numeric data = Resp400 error ->
         error = "Missing expenses data")
  /\ (forall error msg,
         get_insights to_datetime to_numeric data = Resp500 error msg ->
         error = "Insights generation failed"
         /\ exists body expenses,
             data = Some body
             /\ ins_expenses body = Some expenses
             /\ (to_frame to_datetime to_numeric expenses = Raise msg
                 \/ (exists df,
                        to_frame to_datetime to_numeric expenses = Ok df
                        /\ dict_get (ins_days body) 30 = 0
                        /\ msg = "float division by zero")))
  /\ (forall i,
         get_insights to_datetime to_numeric data = Resp200 i ->
         exists body expenses df,
           data = Some body
           /\ ins_expenses body = Some expenses
           /\ to_frame to_datetime to_numeric expenses = Ok df
           /\ dict_get (ins_days body) 30 <> 0
           /\ i = insights_of (dict_get (ins_days body) 30) df).
Proof.
  unfold get_insights.
  destruct data as [body|].
  - destruct (ins_expenses body) as [expenses|] eqn:E.
    + destruct (to_frame to_datetime to_numeric expenses) as [df|msg] eqn:F.
      * rewrite bind_ok. unfold py_div.
        destruct (dict_get (ins_days body) 30 =? 0) eqn:D.
        -- rewrite bind_raise. apply Z.eqb_eq in D.
           split; [|split; [|split]].
           ++ split; [discriminate|].
              intros [H|[b [[= <-] H]]]; congruence.
           ++ discriminate.
           ++ intros error msg [= <- <-]. split; [reflexivity|].
              exists body, expenses.
              split; [reflexivity|]. split; [exact E|].
              right. exists df. split; [exact F|]. split; [exact D|reflexivity].
           ++ discriminate.
        -- rewrite bind_ok. apply Z.eqb_neq in D.
           split; [|split; [|split]].
           ++ split; [discriminate|].
              intros [H|[b [[= <-] H]]]; congruence.
           ++ discriminate.
           ++ discriminate.
           ++ intros i [= <-]. exists body, expenses, df.
              split; [reflexivity|]. split; [exact E|].
              split; [exact F|]. split; [exact D|reflexivity].
      * rewrite bind_raise.
        split; [|split; [|split]].
        -- split; [discriminate|].
           intros [H|[b [[= <-] H]]]; congruence.
        -- discriminate.
        -- intros error m [= <- <-]. split; [reflexivity|].
           exists body, expenses.
           split; [reflexivity|]. split; [exact E|]. left. exact F.
        -- discriminate.
    + split; [|split; [|split]].
      * split; [|reflexivity]. intros _. right. exists body. split; [reflexivity|exact E].
      * intros error [= <-]. reflexivity.
      * discriminate.
      * discriminate.
  - split; [|split; [|split]].
    + split; [|reflexivity]. intros _. left. reflexivity.
    + intros error [= <-]. reflexivity.
    + discriminate.
    + discriminate.
Qed.

(** The answers of [analyze_expenses], read backwards. *)
Lemma analyze_expenses_answers to_datetime to_numeric now data :
  (analyze_expenses to_datetime to_numeric now data
   = Resp400 "Missing expenses data"
   <-> data = None \/ exists body, data = Some body /\ body_expenses body = None)
  /\ (forall error,
         analyze_expenses to_datetime to_numeric now data = Resp400 error ->
         error = "Missing expenses data")
  /\ (forall error msg,
         analyze_expenses to_datetime to_numeric now data = Resp500 error msg ->
         error = "Analysis failed"
         /\ exists body expenses,
             data = Some body
             /\ body_expenses body = Some expenses
             /\ ExpenseAnalyzer.analyze_expenses to_datetime to_numeric now
                  expenses (dict_get (body_userId body) "unknown")
                  (dict_get (body_userName body) "User") = Raise msg)
  /\ (forall res,
         analyze_expenses to_datetime to_numeric now data = Resp200 res ->
         exists body expenses,
           data = Some body
           /\ body_expenses body = Some expenses
           /\ ExpenseAnalyzer.analyze_expenses to_datetime to_numeric now
                expenses (dict_get (body_userId body) "unknown")
                (dict_get (body_userName body) "User") = Ok res).
Proof.
  unfold analyze_expenses.
  destruct data as [body|].
  - destruct (body_expenses body) as [expenses|] eqn:E.
    + destruct (ExpenseAnalyzer.analyze_expenses to_datetime to_numeric now
                  expenses _ _) as [res|msg] eqn:R.
      * split; [|split; [|split]].
        -- split; [discriminate|].
           intros [H|[b [[= <-] H]]]; congruence.
        -- discriminate.
        -- discriminate.
        -- intros r [= <-]. exists body, expenses.
           split; [reflexivity|]. split; [exact E|exact R].
      * split; [|split; [|split]].
        -- split; [discriminate|].
           intros [H|[b [[= <-] H]]]; congruence.
        -- discriminate.
        -- intros error m [= <- <-]. split; [reflexivity|].
           exists body, expenses.
           split; [reflexivity|]. split; [exact E|exact R].
        -- discriminate.
    + split; [|split; [|split]].
      * split; [|reflexivity]. intros _. right. exists body. split; [reflexivity|exact E].
      * intros error [= <-]. reflexivity.
      * discriminate.
      * discriminate.
  - split; [|split; [|split]].
    + split; [|reflexivity]. intros _. left. reflexivity.
    + intros error [= <-]. reflexivity.
    + discriminate.
    + discriminate.
Qed.

(* ================================================================== *)
(** * Strings of the messages *)

Lemma string_length_app (s t : string) :
  String.length (s ++ t) = (String.length s + String.length t)%nat.
Proof.
  induction s as [|c s IH]; simpl; [reflexivity|]. rewrite IH. reflexivity.
Qed.

Lemma string_app_inv_tail (s1 s2 t : string) :
  (s1 ++ t = s2 ++ t)%string -> s1 = s2.
Proof.
  revert s2. induction s1 as [|c s1 IH]; intros [|c' s2] H; simpl in H.
  - reflexivity.
  - exfalso. apply (f_equal String.length) in H. simpl in H.
    rewrite string_length_app in H. lia.
  - exfalso. apply (f_equal String.length) in H. simpl in H.
    rewrite string_length_app in H. lia.
  - injection H as -> H. f_equal. apply IH, H.
Qed.

Lemma payment_method_tip_inj (m m' : string) :
  Rules.payment_method_tip m = Rules.payment_method_tip m' -> m = m'.
Proof.
  unfold Rules.payment_method_tip. intros [= H].
  eapply string_app_inv_tail, H.
Qed.

(* ================================================================== *)
(** * Sums over a split of the frame *)

Lemma series_sum_split (f : Expense -> bool) (df : DataFrame) :
  (series_sum (map amount (filter f df))
   + series_sum (map amount (filter (fun r => negb (f r)) df)))%Qc
  = series_sum (map amount df).
Proof.
  induction df as [|r df IH]; simpl.
  - rewrite series_sum_nil. qring.
  - destruct (f r); simpl; rewrite !series_sum_cons, <- IH; qring.
Qed.

Lemma positive_sum_not_nil (xs : list Qc) :
  (qz 0 < series_sum xs)%Qc -> xs <> [].
Proof.
  intros H ->. rewrite series_sum_nil in H. exact (Qlt_irrefl _ H).
Qed.

Lemma filter_not_nil {A} (f : A -> bool) (l : list A) :
  filter f l <> [] -> exists a, In a l /\ f a = true.
Proof.
  destruct (filter f l) as [|a rest] eqn:E; [contradiction|]. intros _.
  exists a. apply filter_In. rewrite E. left. reflexivity.
Qed.

Lemma generated_shape (now : Timestamp) (df : DataFrame) (total : Qc) :
  exists so_far,
    Rules.generated now df total = (so_far ++ Rules.rule_6 so_far)%list.
Proof. eexists. reflexivity. Qed.

Lemma firstn_keeps {A} (n : nat) (l1 l2 : list A) (x : A) :
  (List.length l1 < n)%nat -> In x (firstn n (l1 ++ x :: l2)).
Proof.
  intro H. rewrite firstn_app.
  apply in_or_app. right.
  destruct (n - List.length l1)%nat as [|k] eqn:E; [lia|].
  left. reflexivity.
Qed.

Lemma rule_1_length (total : Qc) : (List.length (Rules.rule_1 total) <= 1)%nat.
Proof.
  unfold Rules.rule_1.
  destruct (qz 10000 <? total)%Qc; [simpl; lia|].
  destruct (qz 5000 <? total)%Qc; simpl; lia.
Qed.

(* ================================================================== *)
(** * The patterns of a frame *)

Lemma detected_members (df : DataFrame) (p : string) :
  In p (Patterns.detected df) <->
  (p = "Higher spending on weekends" /\ Patterns.weekend_heavy df = true)
  \/ (p = "Frequent expenses in certain categories"
      /\ Patterns.frequent_category df = true)
  \/ (p = "Occasional large transactions"
      /\ Patterns.large_transaction df = true).
Proof.
  unfold Patterns.detected.
  destruct (Patterns.weekend_heavy df), (Patterns.frequent_category df),
    (Patterns.large_transaction df); simpl; intuition congruence.
Qed.

Lemma frequent_category_spec (df : DataFrame) :
  Patterns.frequent_category df = true <->
  exists label, (5 < occurrences (map category df) label)%nat.
Proof.
  unfold Patterns.frequent_category. rewrite existsb_exists. split.
  - intros [[k c] [Hin Hc]]. apply value_counts_in in Hin.
    destruct Hin as [_ ->]. exists k. apply Nat.ltb_lt, Hc.
  - intros [k Hk].
    exists (k, occurrences (map category df) k). split.
    + apply value_counts_in. split; [|reflexivity].
      apply occurrences_positive. lia.
    + apply Nat.ltb_lt, Hk.
Qed.

Lemma occurrences_perm (xs ys : list string) (k : string) :
  Permutation xs ys -> occurrences xs k = occurrences ys k.
Proof.
  intro H. unfold occurrences.
  apply (Permutation_count_occ string_dec xs ys). exact H.
Qed.

Lemma bool_eq_iff (a b : bool) : (a = true <-> b = true) -> a = b.
Proof. destruct a, b; intuition congruence. Qed.

(* ================================================================== *)
(** * The order of the records *)

Section Reordering.
Variables df df' : DataFrame.
Hypothesis reordered : Permutation df df'.

Lemma total_perm : series_sum (map amount df) = series_sum (map amount df').
Proof. apply series_sum_perm, Permutation_map, reordered. Qed.

Lemma filter_sum_perm (f : Expense -> bool) :
  series_sum (map amount (filter f df))
  = series_sum (map amount (filter f df')).
Proof. apply series_sum_perm, Permutation_map, filter_perm, reordered. Qed.

Lemma labels_perm (key : Expense -> string) :
  groupby_sum String.compare key df = groupby_sum String.compare key df'.
Proof.
  apply (groupby_perm _ string_cmp_eq string_cmp_antisym string_cmp_trans).
  exact reordered.
Qed.

Lemma daily_totals_perm :
  ExpenseAnalyzer.daily_totals df = ExpenseAnalyzer.daily_totals df'.
Proof.
  unfold ExpenseAnalyzer.daily_totals. f_equal.
  apply (groupby_perm _ z_cmp_eq z_cmp_antisym z_cmp_trans). exact reordered.
Qed.

Lemma score_perm (total : Qc) :
  ExpenseAnalyzer._calculate_efficiency_score df total
  = ExpenseAnalyzer._calculate_efficiency_score df' total.
Proof.
  unfold ExpenseAnalyzer._calculate_efficiency_score. cbv zeta.
  rewrite daily_totals_perm.
  rewrite (Permutation_length reordered).
  rewrite (Permutation_length
             (filter_perm (fun r => (amount r <? qz 100)%Qc) _ _ reordered)).
  reflexivity.
Qed.

Lemma detected_perm : Patterns.detected df = Patterns.detected df'.
Proof.
  unfold Patterns.detected.
  assert (W : Patterns.weekend_heavy df = Patterns.weekend_heavy df').
  { unfold Patterns.weekend_heavy. cbv zeta.
    rewrite !(filter_sum_perm _). reflexivity. }
  assert (F : Patterns.frequent_category df = Patterns.frequent_category df').
  { apply bool_eq_iff. rewrite !frequent_category_spec.
    split; intros [k Hk]; exists k.
    - rewrite <- (occurrences_perm _ _ k (Permutation_map category reordered)).
      exact Hk.
    - rewrite (occurrences_perm _ _ k (Permutation_map category reordered)).
      exact Hk. }
  assert (L : Patterns.large_transaction df = Patterns.large_transaction df').
  { unfold Patterns.large_transaction.
    rewrite (quantile_perm _ _ _ (Permutation_map amount reordered)).
    apply existsb_perm, reordered. }
  rewrite W, F, L. reflexivity.
Qed.

Lemma single_method_perm (m : string) :
  (df <> [] /\ forall r, In r df -> paymentMethod r = m) ->
  (df' <> [] /\ forall r, In r df' -> paymentMethod r = m).
Proof.
  intros [Hne Hall]. split.
  - intros E. rewrite E in reordered.
    apply Permutation_sym, Permutation_nil in reordered. contradiction.
  - intros r Hr. apply Hall. eapply Permutation_in; [|exact Hr].
    symmetry. exact reordered.
Qed.
End Reordering.

Lemma rule_4_spec (df : DataFrame) :
  (exists m, (df <> [] /\ forall r, In r df -> paymentMethod r = m)
             /\ Rules.rule_4 df = [Rules.payment_method_tip m])
  \/ ((forall m, ~ (df <> [] /\ forall r, In r df -> paymentMethod r = m))
      /\ Rules.rule_4 df = []).
Proof.
  assert (Single : forall m,
             (df <> [] /\ forall r, In r df -> paymentMethod r = m) ->
             value_counts (map paymentMethod df)
             = [(m, List.length (map paymentMethod df))]).
  { intros m [Hne Hall]. apply value_counts_single.
    split; [|split; [|reflexivity]].
    - destruct df; [contradiction|discriminate].
    - intros x Hx. apply in_map_iff in Hx. destruct Hx as [r [<- Hr]].
      apply Hall, Hr. }
  unfold Rules.rule_4.
  destruct (value_counts (map paymentMethod df)) as [|[m c] [|e l]] eqn:E.
  - right. split; [|reflexivity]. intros m H. apply Single in H. discriminate.
  - left. exists m. split; [|reflexivity].
    apply value_counts_single in E. destruct E as (Hne & Hall & _).
    split.
    + intros ->. apply Hne. reflexivity.
    + intros r Hr. apply Hall, in_map, Hr.
  - right. split; [|reflexivity]. intros m' H. apply Single in H. discriminate.
Qed.

Lemma rule_4_perm (df df' : DataFrame) :
  Permutation df df' -> Rules.rule_4 df = Rules.rule_4 df'.
Proof.
  intro H.
  destruct (rule_4_spec df) as [(m & Hm & ->)|(Hno & ->)];
    destruct (rule_4_spec df') as [(m' & Hm' & ->)|(Hno' & ->)].
  - apply (single_method_perm _ _ H) in Hm.
    destruct Hm as [Hne Hall]. destruct Hm' as [_ Hall'].
    destruct df' as [|r rest]; [contradiction|].
    rewrite <- (Hall r), <- (Hall' r) by (left; reflexivity). reflexivity.
  - exfalso. apply (Hno' m). apply (single_method_perm _ _ H), Hm.
  - exfalso. apply (Hno m'). apply (single_method_perm _ _ (Permutation_sym H)), Hm'.
  - reflexivity.
Qed.

Lemma rule_5_perm (now : Timestamp) (df df' : DataFrame) (total : Qc) :
  Permutation df df' -> Rules.rule_5 now df total = Rules.rule_5 now df' total.
Proof.
  intro H. unfold Rules.rule_5, Rules.recent. cbv zeta.
  rewrite (filter_sum_perm _ _ H).
  pose proof (filter_perm (fun r => now - timedelta_days 7 <=? date r) _ _ H)
    as Hf.
  destruct (filter _ df) as [|a l]; destruct (filter _ df') as [|a' l'].
  - reflexivity.
  - apply Permutation_nil in Hf. discriminate.
  - symmetry in Hf. apply Permutation_nil in Hf. discriminate.
  - reflexivity.
Qed.

Lemma generated_perm (now : Timestamp) (df df' : DataFrame) :
  Permutation df df' ->
  Rules.generated now df (series_sum (map amount df))
  = Rules.generated now df' (series_sum (map amount df')).
Proof.
  intro H. unfold Rules.generated. cbv zeta.
  rewrite <- (total_perm _ _ H).
  assert (R2 : Rules.rule_2 df (series_sum (map amount df))
               = Rules.rule_2 df' (series_sum (map amount df))).
  { unfold Rules.rule_2, Rules.category_percentages.
    rewrite (labels_perm _ _ H). reflexivity. }
  assert (R3 : Rules.rule_3 df = Rules.rule_3 df').
  { unfold Rules.rule_3, high_daily_variance. cbv zeta.
    rewrite (daily_totals_perm _ _ H). reflexivity. }
  rewrite R2, R3, (rule_4_perm _ _ H), (rule_5_perm now _ _ _ H).
  reflexivity.
Qed.

(** The result on a frame does not depend on the order of its rows. *)
Lemma frame_result_perm (now : Timestamp) (df df' : DataFrame) :
  Permutation df df' -> frame_result now df = frame_result now df'.
Proof.
  intro H. unfold frame_result. cbv zeta.
  rewrite !generate_suggestions_rules.
  rewrite (generated_perm now _ _ H).
  unfold ExpenseAnalyzer._detailed_analysis. cbv zeta.
  rewrite !identify_patterns_detected.
  rewrite (detected_perm _ _ H), (score_perm _ _ H).
  rewrite <- (total_perm _ _ H).
  rewrite <- !(labels_perm _ _ H).
  reflexivity.
Qed.

(* ================================================================== *)
(** * Amounts as real numbers *)

Lemma Q2R_qc_plus (x y : Qc) : Q2R (x + y)%Qc = (Q2R x + Q2R y)%R.
Proof.
  rewrite <- Q2R_plus. apply Qeq_eqR.
  change (this (x + y)%Qc) with (Qred (this x + this y)).
  apply Qred_correct.
Qed.

Lemma Q2R_qc_opp (x : Qc) : Q2R (- x)%Qc = (- Q2R x)%R.
Proof.
  rewrite <- Q2R_opp. apply Qeq_eqR.
  change (this (- x)%Qc) with (Qred (- this x)).
  apply Qred_correct.
Qed.

Lemma Q2R_qc_minus (x y : Qc) : Q2R (x - y)%Qc = (Q2R x - Q2R y)%R.
Proof. unfold Qcminus. rewrite Q2R_qc_plus, Q2R_qc_opp. lra. Qed.

Lemma Q2R_qc_inv (x : Qc) : x <> 0%Qc -> Q2R (/ x)%Qc = (/ Q2R x)%R.
Proof.
  intro H. rewrite <- Q2R_inv.
  - apply Qeq_eqR. change (this (/ x)%Qc) with (Qred (/ this x)).
    apply Qred_correct.
  - intro E. apply H. apply Qc_is_canon. exact E.
Qed.

Lemma Q2R_qz (z : Z) : Q2R (qz z) = IZR z.
Proof.
  rewrite (Qeq_eqR _ _ (this_qz z)). unfold Q2R. simpl. lra.
Qed.

Lemma Qceqb_eq (x y : Qc) : Qceqb x y = true <-> x = y.
Proof.
  unfold Qceqb. rewrite Qceq_alt.
  destruct (x ?= y)%Qc; split; congruence.
Qed.

(* ================================================================== *)
(** * The categories above 40% *)

(** A share of the total that tests above 40 is above four tenths of a
    positive total. *)
Lemma share_above_40 (v total : Qc) :
  (qz 0 <= v)%Qc -> (v <= total)%Qc ->
  fgtb (fmul (fdiv v total) (qz 100)) (qz 40) = true ->
  (0 < Q2R total)%R /\ (Q2R total * (4 / 10) < Q2R v)%R.
Proof.
  intros Hv Hle. apply Qcle_Rle in Hv, Hle. rewrite Q2R_qz in Hv.
  unfold fdiv. destruct (Qceqb total (qz 0)) eqn:E.
  - apply Qceqb_eq in E. subst total. rewrite Q2R_qz in Hle.
    assert (Hz : Q2R v = 0%R) by lra.
    destruct (qz 0 <? v)%Qc eqn:E1.
    { apply Qcltb_Rlt in E1. rewrite Q2R_qz in E1. lra. }
    destruct (v <? qz 0)%Qc eqn:E2.
    { apply Qcltb_Rlt in E2. rewrite Q2R_qz in E2. lra. }
    discriminate.
  - assert (Hne : total <> 0%Qc).
    { intro H. rewrite H in E. discriminate E. }
    simpl. intro H. apply Qcltb_Rlt in H.
    unfold Qcdiv in H.
    rewrite !Q2R_qc_mult, (Q2R_qc_inv _ Hne), !Q2R_qz in H.
    assert (Hpos : (0 < Q2R total)%R).
    { assert (Q2R total <> 0%R).
      { intro Hz. apply Hne. apply Qc_is_canon, eqR_Qeq.
        rewrite Hz. symmetry. apply RMicromega.Q2R_0. }
      lra. }
    split; [exact Hpos|].
    assert (Hinv : (/ Q2R total * Q2R total = 1)%R) by (field; lra).
    assert (Hi : (0 < / Q2R total)%R) by (apply Rinv_0_lt_compat, Hpos).
    nra.
Qed.

Lemma count_above_bound {K} (p : K * Qc -> bool) (c : R) (m : list (K * Qc)) :
  (0 <= c)%R ->
  (forall e, In e m -> (0 <= Q2R (snd e))%R) ->
  (forall e, In e m -> p e = true -> (c <= Q2R (snd e))%R) ->
  (INR (List.length (filter p m)) * c <= Q2R (sum_values m))%R.
Proof.
  intros Hc. unfold sum_values.
  induction m as [|e m IH]; intros Hpos Hp.
  - cbn [filter map List.length]. rewrite series_sum_nil, Q2R_qz.
    simpl INR. lra.
  - simpl map. rewrite series_sum_cons, Q2R_qc_plus.
    assert (IH' : (INR (List.length (filter p m)) * c
                   <= Q2R (series_sum (map snd m)))%R).
    { apply IH; intros; [apply Hpos|apply Hp]; simpl; auto. }
    pose proof (Hpos e (or_introl eq_refl)) as He.
    simpl filter. destruct (p e) eqn:E.
    + pose proof (Hp e (or_introl eq_refl) E) as Hce.
      cbn [List.length]. rewrite S_INR. lra.
    + lra.
Qed.

Lemma group_total_bounds {K} (cmp : K -> K -> comparison)
    (key : Expense -> K) (k : K) (df : DataFrame) :
  (forall r, In r df -> (qz 0 <= amount r)%Qc) ->
  (qz 0 <= group_total cmp key k df)%Qc
  /\ (group_total cmp key k df <= series_sum (map amount df))%Qc.
Proof.
  intro Hpos. unfold group_total.
  assert (Nonneg : forall f,
             (qz 0 <= series_sum (map amount (filter f df)))%Qc).
  { intro f. apply series_sum_nonneg, Forall_forall.
    intros x Hx. apply in_map_iff in Hx. destruct Hx as [r [<- Hr]].
    apply filter_In in Hr. apply Hpos, Hr. }
  split; [apply Nonneg|].
  rewrite <- (series_sum_split (fun r => keq cmp (key r) k) df).
  pose proof (Nonneg (fun r => negb (keq cmp (key r) k))) as H.
  apply Qcle_Rle. rewrite Q2R_qc_plus.
  apply Qcle_Rle in H. rewrite Q2R_qz in H. lra.
Qed.

Lemma filter_map_length {A B} (f : A -> B) (p : B -> bool) (l : list A) :
  List.length (filter p (map f l))
  = List.length (filter (fun a => p (f a)) l).
Proof.
  induction l as [|a l IH]; simpl; [reflexivity|].
  destruct (p (f a)); simpl; rewrite IH; reflexivity.
Qed.

Lemma rule_2_at_most_two (df : DataFrame) :
  (forall r, In r df -> (qz 0 <= amount r)%Qc) ->
  (List.length (Rules.rule_2 df (series_sum (map amount df))) <= 2)%nat.
Proof.
  intro Hpos. unfold Rules.rule_2, Rules.category_percentages.
  rewrite length_map, filter_map_length. cbn [snd].
  set (total := series_sum (map amount df)).
  set (cb := groupby_sum String.compare category df).
  set (p := fun e : string * Qc =>
              fgtb (fmul (fdiv (snd e) total) (qz 100)) (qz 40)).
  assert (Bounds : forall e, In e cb ->
             (qz 0 <= snd e)%Qc /\ (snd e <= total)%Qc).
  { intros [k v] Hin.
    apply (groupby_in _ string_cmp_eq string_cmp_antisym string_cmp_trans) in Hin.
    destruct Hin as [_ ->]. apply group_total_bounds, Hpos. }
  destruct (filter p cb) as [|e0 rest] eqn:E; [simpl; lia|].
  assert (Hin0 : In e0 (filter p cb)) by (rewrite E; left; reflexivity).
  apply filter_In in Hin0. destruct Hin0 as [Hin0 Hp0].
  destruct (Bounds e0 Hin0) as [B1 B2].
  destruct (share_above_40 _ _ B1 B2 Hp0) as [Htotal _].
  rewrite <- E.
  assert (H : (INR (List.length (filter p cb)) * (Q2R total * (4 / 10))
               <= Q2R (sum_values cb))%R).
  { apply count_above_bound.
    - lra.
    - intros e He. destruct (Bounds e He) as [B _].
      apply Qcle_Rle in B. rewrite Q2R_qz in B. exact B.
    - intros e He Hpe. destruct (Bounds e He) as [C1 C2].
      apply Rlt_le. apply (share_above_40 _ _ C1 C2 Hpe). }
  unfold cb in H at 2. rewrite sum_values_groupby in H. fold total in H.
  destruct (le_lt_dec (List.length (filter p cb)) 2) as [Hle|Hgt];
    [exact Hle|].
  exfalso. apply le_INR in Hgt. simpl INR in Hgt. nra.
Qed.

(* ================================================================== *)
(** * How many amounts are above the 90th percentile *)

Lemma sorted_firstn_bound (s : list Qc) (k : nat) (d : Qc) :
  StronglySorted Qcle s -> (k < List.length s)%nat ->
  forall x, In x (firstn (S k) s) -> (x <= nth k s d)%Qc.
Proof.
  intro Hs. revert k.
  induction Hs as [|a s Hs IH Hall]; intros k Hk x Hx; [simpl in Hk; lia|].
  destruct k as [|k].
  - simpl in Hx. destruct Hx as [<-|[]]. apply Qcle_refl.
  - simpl in Hk. change (firstn (S (S k)) (a :: s)) with (a :: firstn (S k) s) in Hx.
    cbn [nth]. destruct Hx as [<-|Hx].
    + rewrite Forall_forall in Hall. apply Hall, nth_In. lia.
    + apply IH; [lia|exact Hx].
Qed.

Lemma sorted_nth_le (s : list Qc) (i j : nat) (d : Qc) :
  StronglySorted Qcle s -> (i <= j)%nat -> (j < List.length s)%nat ->
  (nth i s d <= nth j s d)%Qc.
Proof.
  intros Hs Hij Hj. apply (sorted_firstn_bound s j d Hs Hj).
  replace (nth i s d) with (nth i (firstn (S j) s) d).
  - apply nth_In. rewrite length_firstn. lia.
  - rewrite nth_firstn.
    destruct (i <? S j)%nat eqn:E; [reflexivity|].
    apply Nat.ltb_ge in E. lia.
Qed.

Lemma filter_none {A} (f : A -> bool) (l : list A) :
  (forall a, In a l -> f a = false) -> filter f l = [].
Proof.
  induction l as [|a l IH]; intro H; simpl; [reflexivity|].
  rewrite (H a) by (left; reflexivity).
  apply IH. intros; apply H; right; assumption.
Qed.

Lemma filter_length_le {A} (f : A -> bool) (l : list A) :
  (List.length (filter f l) <= List.length l)%nat.
Proof.
  induction l as [|a l IH]; simpl; [lia|].
  destruct (f a); simpl; lia.
Qed.

Lemma rank_of_position (n : nat) :
  Qfloor (this (qz (Z.of_nat n - 1) * Q2Qc 0.9)%Qc)
  = (Z.of_nat n - 1) * 9 / 10.
Proof.
  set (m := Z.of_nat n - 1).
  assert (E : (this (qz m * Q2Qc 0.9)%Qc == inject_Z m * 0.9)%Q).
  { change (this (qz m * Q2Qc 0.9)%Qc)
      with (Qred (this (qz m) * Qred 0.9)).
    rewrite Qred_correct, this_qz, Qred_correct. reflexivity. }
  rewrite (Qfloor_comp _ _ E). reflexivity.
Qed.

(** The quantile is not below the value at its lower rank. *)
Lemma quantile_above_lower_rank (xs : list Qc) :
  xs <> [] ->
  (nth (Z.to_nat ((Z.of_nat (List.length xs) - 1) * 9 / 10))
       (sort_values xs) (qz 0)
   <= quantile (Q2Qc 0.9) xs)%Qc.
Proof.
  intro Hne. unfold quantile. cbv zeta.
  assert (Hn : (0 < List.length xs)%nat)
    by (destruct xs; [contradiction|simpl; lia]).
  pose proof (quantile_rank_bounds _ Hn) as [Hlo Hhi].
  pose proof (Qfloor_le (this (qz (Z.of_nat (List.length xs) - 1) * Q2Qc 0.9)%Qc))
    as Hfl.
  rewrite (rank_of_position (List.length xs)) in *.
  set (pos := (qz (Z.of_nat (List.length xs) - 1) * Q2Qc 0.9)%Qc) in *.
  set (lo := (Z.of_nat (List.length xs) - 1) * 9 / 10) in *.
  set (s := sort_values xs).
  assert (Hlen : List.length s = List.length xs)
    by (apply Permutation_length, sort_values_perm).
  assert (Hab : (nth (Z.to_nat lo) s (qz 0)
                 <= nth (Nat.min (Z.to_nat lo + 1) (List.length xs - 1)) s (qz 0))%Qc).
  { apply sorted_nth_le; [apply sort_values_sorted|lia|lia]. }
  assert (Hg : (qz lo <= pos)%Qc).
  { unfold Qcle. rewrite this_qz. exact Hfl. }
  apply Qcle_Rle in Hab, Hg. apply Qcle_Rle.
  rewrite Q2R_qc_plus, Q2R_qc_mult, !Q2R_qc_minus.
  nra.
Qed.

Lemma large_count_bound (xs : list Qc) :
  xs <> [] ->
  (10 * List.length (filter (fun x => (quantile (Q2Qc 0.9) xs <? x)%Qc) xs)
   <= List.length xs + 8)%nat.
Proof.
  intro Hne.
  assert (Hn : (0 < List.length xs)%nat)
    by (destruct xs; [contradiction|simpl; lia]).
  pose proof (quantile_above_lower_rank xs Hne) as Hq.
  pose proof (quantile_rank_bounds _ Hn) as [Hlo Hhi].
  rewrite (rank_of_position (List.length xs)) in *.
  set (lo := (Z.of_nat (List.length xs) - 1) * 9 / 10) in *.
  set (q := quantile (Q2Qc 0.9) xs) in *.
  set (s := sort_values xs) in *.
  assert (Hlen : List.length s = List.length xs)
    by (apply Permutation_length, sort_values_perm).
  assert (Hcount : List.length (filter (fun x => (q <? x)%Qc) xs)
                   = List.length (filter (fun x => (q <? x)%Qc) s)).
  { apply Permutation_length, filter_perm, Permutation_sym, sort_values_perm. }
  rewrite Hcount.
  rewrite <- (firstn_skipn (S (Z.to_nat lo)) s) at 1.
  rewrite filter_app, length_app.
  rewrite (filter_none _ (firstn (S (Z.to_nat lo)) s)).
  - pose proof (filter_length_le (fun x => (q <? x)%Qc)
                  (skipn (S (Z.to_nat lo)) s)) as Hle.
    rewrite length_skipn, Hlen in Hle.
    change (List.length (@nil Qc)) with 0%nat.
    assert (Hdiv : 10 * lo <= (Z.of_nat (List.length xs) - 1) * 9 < 10 * lo + 10).
    { unfold lo. clear.
      generalize ((Z.of_nat (List.length xs) - 1) * 9). intro a.
      pose proof (Z.mod_pos_bound a 10 ltac:(lia)).
      pose proof (Z.div_mod a 10 ltac:(lia)).
      lia. }
    lia.
  - intros x Hx. apply Qcltb_ge.
    eapply Qcle_trans; [|exact Hq].
    apply (sorted_firstn_bound s (Z.to_nat lo) (qz 0));
      [apply sort_values_sorted|lia|exact Hx].
Qed.

(* ================================================================== *)
(** * Integer columns *)

Lemma wrap_small (z : Z) : - 2 ^ 63 <= z < 2 ^ 63 -> Int64.wrap z = z.
Proof.
  intro H. unfold Int64.wrap. rewrite Z.mod_small by lia. lia.
Qed.

Lemma abs_sum_cons (x : Z) (xs : list Z) :
  abs_sum (x :: xs) = Z.abs x + abs_sum xs.
Proof. reflexivity. Qed.

Lemma zsum_cons (x : Z) (xs : list Z) : zsum (x :: xs) = x + zsum xs.
Proof. reflexivity. Qed.

Lemma abs_sum_nonneg (xs : list Z) : 0 <= abs_sum xs.
Proof.
  induction xs as [|x xs IH]; simpl; lia.
Qed.

Lemma zsum_abs (xs : list Z) : Z.abs (zsum xs) <= abs_sum xs.
Proof.
  induction xs as [|x xs IH]; simpl; lia.
Qed.

Lemma abs_sum_perm (xs ys : list Z) :
  Permutation xs ys -> abs_sum xs = abs_sum ys.
Proof.
  induction 1; simpl; lia.
Qed.


Lemma int_sum_acc (xs : list Z) (acc : Z) :
  Z.abs acc + abs_sum xs < 2 ^ 63 ->
  fold_left Int64.add xs acc = acc + zsum xs.
Proof.
  revert acc. induction xs as [|x xs IH]; intros acc H; [simpl; lia|].
  rewrite abs_sum_cons in H. rewrite zsum_cons. cbn [fold_left].
  pose proof (abs_sum_nonneg xs).
  unfold Int64.add. rewrite wrap_small by lia.
  rewrite IH by lia. lia.
Qed.

Lemma int_sum_exact (xs : list Z) :
  abs_sum xs < 2 ^ 63 -> Int64.series_sum xs = zsum xs.
Proof.
  intro H. unfold Int64.series_sum. rewrite int_sum_acc; simpl; lia.
Qed.

Lemma to_float_exact (z : Z) : Z.abs z < 2 ^ 53 -> Int64.to_float z = z.
Proof.
  intro H. unfold Int64.to_float. cbv zeta.
  assert (L : Z.log2 (Z.abs z) - 52 <= 0).
  { destruct (Z.eq_dec (Z.abs z) 0) as [E|E].
    - rewrite E. simpl. lia.
    - assert (Hp : 0 < Z.abs z) by lia.
      apply (Z.log2_lt_pow2 _ 53 Hp) in H. lia. }
  apply Z.leb_le in L. rewrite L. reflexivity.
Qed.

Lemma qz_add (a b : Z) : qz (a + b) = (qz a + qz b)%Qc.
Proof.
  apply Qc_is_canon. unfold Qcplus, Q2Qc, this.
  rewrite !Qred_correct. unfold qz, Q2Qc, this. rewrite !Qred_correct.
  rewrite inject_Z_plus. reflexivity.
Qed.

Lemma qz_inj (a b : Z) : qz a = qz b -> a = b.
Proof.
  intro H. apply inject_Z_injective.
  rewrite <- !this_qz. rewrite H. reflexivity.
Qed.

Lemma series_sum_qz (zs : list Z) : series_sum (map qz zs) = qz (zsum zs).
Proof.
  induction zs as [|z zs IH]; simpl; [reflexivity|].
  rewrite series_sum_cons, IH, qz_add. reflexivity.
Qed.

Lemma map_qz_inj (xs ys : list Z) : map qz xs = map qz ys -> xs = ys.
Proof.
  revert ys. induction xs as [|x xs IH]; intros [|y ys] H;
    try discriminate H; [reflexivity|].
  pose proof (f_equal (hd (qz 0)) H) as Hx.
  pose proof (f_equal (@tl Qc) H) as Hxs. simpl in Hx, Hxs.
  f_equal; [apply qz_inj, Hx|apply IH, Hxs].
Qed.




(** Below 2^63 no group total wraps: the int64 aggregation is the exact
    one. *)
Lemma add_group_as_amounts (k : string) (v : Z) (acc : list (string * Z)) :
  abs_sum (map snd acc) + Z.abs v < 2 ^ 63 ->
  add_group String.compare k (qz v) (as_amounts acc)
  = as_amounts (Int64.add_group k v acc)
  /\ abs_sum (map snd (Int64.add_group k v acc))
     <= abs_sum (map snd acc) + Z.abs v.
Proof.
  induction acc as [|[k' s] rest IH]; intro H.
  - simpl. split; [reflexivity|lia].
  - cbn [map snd] in H. rewrite abs_sum_cons in H.
    pose proof (abs_sum_nonneg (map snd rest)).
    cbn [as_amounts map fst snd add_group Int64.add_group].
    destruct (String.compare k k').
    + unfold Int64.add. rewrite wrap_small by lia.
      cbn [map fst snd]. rewrite !abs_sum_cons, qz_add.
      split; [reflexivity|lia].
    + cbn [map fst snd]. rewrite !abs_sum_cons. split; [reflexivity|lia].
    + destruct IH as [E B]; [lia|].
      cbn [map fst snd]. rewrite !abs_sum_cons.
      fold (as_amounts rest). rewrite E.
      split; [reflexivity|lia].
Qed.

Lemma groupby_acc (key : Expense -> string) (df : DataFrame) (zs : list Z)
    (acc : list (string * Z)) :
  map amount df = map qz zs ->
  abs_sum (map snd acc) + abs_sum zs < 2 ^ 63 ->
  fold_left (fun a r => add_group String.compare (key r) (amount r) a) df
    (as_amounts acc)
  = as_amounts
      (fold_left (fun a r => Int64.add_group (fst r) (snd r) a)
         (combine (map key df) zs) acc).
Proof.
  revert zs acc. induction df as [|r df IH]; intros [|z zs] acc Hm Hb;
    try discriminate Hm; [reflexivity|].
  pose proof (f_equal (hd (qz 0)) Hm) as Hr.
  apply (f_equal (@tl Qc)) in Hm. cbn [map hd tl] in Hr, Hm.
  cbn [map combine fold_left fst snd]. rewrite Hr.
  rewrite abs_sum_cons in Hb. pose proof (abs_sum_nonneg zs).
  destruct (add_group_as_amounts (key r) z acc) as [E B]; [lia|].
  rewrite E. apply IH; [exact Hm|lia].
Qed.

Lemma groupby_as_amounts (key : Expense -> string) (df : DataFrame) (zs : list Z) :
  map amount df = map qz zs ->
  abs_sum zs < 2 ^ 63 ->
  groupby_sum String.compare key df
  = as_amounts (Int64.groupby_sum (combine (map key df) zs)).
Proof.
  intros Hm Hb. unfold groupby_sum, Int64.groupby_sum.
  apply (groupby_acc key df zs []); [exact Hm|simpl; lia].
Qed.


Lemma perm_amounts (df df' : DataFrame) (zs : list Z) :
  map amount df = map qz zs ->
  Permutation df df' ->
  exists zs', map amount df' = map qz zs' /\ Permutation zs zs'.
Proof.
  intros Hm Hp.
  apply (Permutation_map amount) in Hp. rewrite Hm in Hp.
  apply Permutation_sym, Permutation_map_inv in Hp.
  destruct Hp as (zs' & E & P). exists zs'. split; [exact E|exact P].
Qed.

Lemma qz_le_inv (a b : Z) : (qz a <= qz b)%Qc -> a <= b.
Proof.
  unfold Qcle. rewrite !this_qz. rewrite <- Zle_Qle. trivial.
Qed.

Lemma qz_lt_inv (a b : Z) : (qz a < qz b)%Qc -> a < b.
Proof.
  unfold Qclt. rewrite !this_qz. rewrite <- Zlt_Qlt. trivial.
Qed.

Lemma nonneg_column (df : DataFrame) (zs : list Z) :
  map amount df = map qz zs ->
  (forall r, In r df -> (qz 0 <= amount r)%Qc) ->
  abs_sum zs = zsum zs.
Proof.
  revert zs. induction df as [|r df IH]; intros [|z zs] Hm Hpos;
    try discriminate Hm; [reflexivity|].
  pose proof (f_equal (hd (qz 0)) Hm) as Hr.
  apply (f_equal (@tl Qc)) in Hm. cbn [map hd tl] in Hr, Hm.
  rewrite abs_sum_cons, zsum_cons.
  rewrite (IH zs Hm) by (intros x Hx; apply Hpos; right; exact Hx).
  assert (0 <= z).
  { apply qz_le_inv. rewrite <- Hr. apply Hpos. left. reflexivity. }
  lia.
Qed.

(** A column of integers that are not negative and whose total is below
    2^63 adds up in int64 without wrapping around: the total and the
    group totals of the frame are the int64 ones. *)
Lemma nonneg_column_int64 (key : Expense -> string) (df : DataFrame) (zs : list Z) :
  (forall r, In r df -> (qz 0 <= amount r)%Qc) ->
  (series_sum (map amount df) < qz (2 ^ 63))%Qc ->
  map amount df = map qz zs ->
  series_sum (map amount df) = qz (Int64.series_sum zs)
  /\ groupby_sum String.compare key df
     = as_amounts (Int64.groupby_sum (combine (map key df) zs)).
Proof.
  intros Hpos Hlt Hm.
  assert (Hb : abs_sum zs < 2 ^ 63).
  { rewrite (nonneg_column df zs Hm Hpos).
    apply qz_lt_inv. rewrite <- series_sum_qz, <- Hm. exact Hlt. }
  split.
  - rewrite int_sum_exact by exact Hb. rewrite Hm. apply series_sum_qz.
  - apply groupby_as_amounts; assumption.
Qed.

(* ================================================================== *)
(** * The empty batch *)

(** C4. On an empty sequence of records [analyze_expenses] returns one
    suggestion, of type [info] and priority [low], and an analysis whose
    [totalSpending] and [averageDailySpending] are 0, whose [topCategory]
    is ['None'], with the fixed encouragement message; the result has no
    breakdown, score or pattern field, and the two column parsers are not
    consulted (the result is the same for every pair of them). *)
Theorem empty_batch_info_only :
  forall to_datetime to_numeric now user_id user_name,
    ExpenseAnalyzer.analyze_expenses to_datetime to_numeric now [] user_id user_name
    = Ok empty_batch_result
    /\ map type (suggestions empty_batch_result) = [info]
    /\ map priority (suggestions empty_batch_result) = [low]
    /\ totalSpending (analysis empty_batch_result) = qz 0
    /\ averageDailySpending (analysis empty_batch_result) = qz 0
    /\ topCategory (analysis empty_batch_result) = "None"
    /\ analysis_message (analysis empty_batch_result)
       = "Start tracking your expenses to get personalized insights!"
    /\ categoryBreakdown (analysis empty_batch_result) = None
    /\ paymentMethodBreakdown (analysis empty_batch_result) = None
    /\ efficiencyScore (analysis empty_batch_result) = None
    /\ patterns (analysis empty_batch_result) = None.
Proof.
  intros. repeat split.
Qed.

(* ================================================================== *)
(** * The user's identity *)

(** C9. [user_id] and [user_name] have no influence on the result of
    [analyze_expenses], and two requests to [/analyze] that differ only
    in [userId] and [userName] get the same response. *)
Theorem user_identity_noninterference :
  forall to_datetime to_numeric now expenses,
    (forall id1 name1 id2 name2,
        ExpenseAnalyzer.analyze_expenses to_datetime to_numeric now expenses id1 name1
        = ExpenseAnalyzer.analyze_expenses to_datetime to_numeric now expenses id2 name2)
    /\ (forall id1 name1 id2 name2,
           analyze_expenses to_datetime to_numeric now
             (Some (mkAnalyzeBody (Some expenses) id1 name1))
           = analyze_expenses to_datetime to_numeric now
               (Some (mkAnalyzeBody (Some expenses) id2 name2))).
Proof.
  intros. split; intros.
  - destruct expenses; reflexivity.
  - unfold analyze_expenses. cbn [body_expenses body_userId body_userName].
    destruct expenses; reflexivity.
Qed.

(* ================================================================== *)
(** * Parse failures *)

(** C7. On a batch that is not empty, when the conversion of the [date]
    column raises, or the dates convert and the conversion of the
    [amount] column raises, the analyzer raises that failure, and the
    route answers 500 with the error ['Analysis failed'] and the message
    of the failure: no suggestion and no analysis field is returned. *)
Theorem parse_failure_aborts_request :
  forall to_datetime to_numeric now body expenses msg,
    body_expenses body = Some expenses ->
    expenses <> [] ->
    (to_datetime (map raw_date expenses) = Raise msg
     \/ exists ts,
         to_datetime (map raw_date expenses) = Ok ts
         /\ List.length ts = List.length expenses
         /\ to_numeric (map raw_amount expenses) = Raise msg) ->
    (forall user_id user_name,
        ExpenseAnalyzer.analyze_expenses to_datetime to_numeric now expenses
          user_id user_name = Raise msg)
    /\ analyze_expenses to_datetime to_numeric now (Some body)
       = Resp500 "Analysis failed" msg.
Proof.
  intros td tn now body expenses msg Hb Hne Hfail.
  assert (Hf : to_frame td tn expenses = Raise msg).
  { destruct Hfail as [Hd|[ts [Hd [Hlen Ha]]]].
    - apply to_frame_dates_raise; assumption.
    - eapply to_frame_amounts_raise; eassumption. }
  assert (Ha : forall u n,
             ExpenseAnalyzer.analyze_expenses td tn now expenses u n = Raise msg).
  { intros u n. apply analyze_raise; assumption. }
  split; [exact Ha|].
  unfold analyze_expenses. rewrite Hb, Ha. reflexivity.
Qed.

Lemma parse_failure_aborts_request_witness :
  (forall user_id user_name,
      ExpenseAnalyzer.analyze_expenses Sample.to_datetime Sample.to_numeric
        (Sample.at_midnight 2024 3 12) Examples.bad_amount user_id user_name
      = Raise (Sample.amount_error 1 "a lot"))
  /\ analyze_expenses Sample.to_datetime Sample.to_numeric
       (Sample.at_midnight 2024 3 12)
       (Some (mkAnalyzeBody (Some Examples.bad_amount) None None))
     = Resp500 "Analysis failed" (Sample.amount_error 1 "a lot").
Proof.
  apply (parse_failure_aborts_request Sample.to_datetime Sample.to_numeric
           (Sample.at_midnight 2024 3 12)
           (mkAnalyzeBody (Some Examples.bad_amount) None None)
           Examples.bad_amount).
  - reflexivity.
  - discriminate.
  - right. eexists. repeat split; reflexivity.
Defined.

Example bad_date_response :
  analyze_expenses Sample.to_datetime Sample.to_numeric
    (Sample.at_midnight 2024 3 12)
    (Some (mkAnalyzeBody (Some Examples.bad_date) None None))
  = Resp500 "Analysis failed"
      "Unknown datetime string format, unable to parse: yesterday, at position 1".
Proof. reflexivity. Qed.

(* ================================================================== *)
(** * Insights *)

Lemma top_label_empty : top_label [] = "None".
Proof. reflexivity. Qed.

(** C8, at the empty expenses list.  [get_insights] does not reach its
    ['None'] defaults there: the frame of an empty list has no column, the
    lookup of [date] raises [KeyError], and the route answers 500. *)
Theorem insights_empty_list_fails :
  forall to_datetime to_numeric days,
    get_insights to_datetime to_numeric
      (Some (mkInsightsBody (Some []) days))
    = Resp500 "Insights generation failed" "'date'".
Proof.
  intros. reflexivity.
Qed.

(* ================================================================== *)
(** * The efficiency score *)

Lemma efficiency_score_adjusted (df : DataFrame) (total : Qc) :
  ExpenseAnalyzer._calculate_efficiency_score df total
  = Z.max 0 (Z.min 100 (adjusted_score df)).
Proof.
  unfold ExpenseAnalyzer._calculate_efficiency_score, adjusted_score.
  unfold high_daily_variance, low_daily_variance, small_transaction_share.
  cbv zeta.
  destruct (_ && std_gt _ _); destruct (_ <? _)%Qc;
    destruct (_ && std_lt _ _); reflexivity.
Qed.

(** C2, as the code has it.  On a batch that is not empty and converts,
    the analysis has an [efficiencyScore], an integer of [0,100], equal
    to [max(0, min(100, s))] for [s] = 100, -20 on high daily variance,
    -15 when more than 30% of the records are under 100, +10 on low
    daily variance. *)
Theorem efficiency_score_clamped :
  forall to_datetime to_numeric now expenses user_id user_name df,
    expenses <> [] ->
    to_frame to_datetime to_numeric expenses = Ok df ->
    exists res score,
      ExpenseAnalyzer.analyze_expenses to_datetime to_numeric now expenses
        user_id user_name = Ok res
      /\ efficiencyScore (analysis res) = Some score
      /\ 0 <= score <= 100
      /\ score = Z.max 0 (Z.min 100 (adjusted_score df)).
Proof.
  intros td tn now expenses u n df Hne Hdf.
  exists (frame_result now df), (Z.max 0 (Z.min 100 (adjusted_score df))).
  split; [apply analyze_ok; assumption|].
  split; [|split; [lia|reflexivity]].
  cbn. f_equal. apply efficiency_score_adjusted.
Qed.

Lemma efficiency_score_clamped_witness :
  exists res score,
    ExpenseAnalyzer.analyze_expenses Sample.to_datetime Sample.to_numeric
      (Sample.at_midnight 2024 3 12) Examples.single_record "unknown" "User"
    = Ok res
    /\ efficiencyScore (analysis res) = Some score
    /\ 0 <= score <= 100
    /\ score = Z.max 0 (Z.min 100
                 (adjusted_score
                    [mkExpense (Sample.at_midnight 2024 3 12) (qz 50) "Misc" "Card"])).
Proof.
  apply (efficiency_score_clamped Sample.to_datetime Sample.to_numeric).
  - discriminate.
  - reflexivity.
Defined.

(** C2 as stated fails on the empty batch: its analysis has no
    [efficiencyScore]. *)
Lemma empty_batch_has_no_score :
  exists res,
    ExpenseAnalyzer.analyze_expenses Sample.to_datetime Sample.to_numeric
      (Sample.at_midnight 2024 3 12) [] "unknown" "User" = Ok res
    /\ efficiencyScore (analysis res) = None.
Proof.
  eexists. split; reflexivity.
Qed.

Example single_record_score :
  adjusted_score [mkExpense (Sample.at_midnight 2024 3 12) (qz 50) "Misc" "Card"]
  = 85.
Proof. reflexivity. Qed.

(* ================================================================== *)
(** * The clock *)




(* ================================================================== *)
(** * The breakdowns *)

Lemma breakdown_in (key : Expense -> string) (df : DataFrame) (l : string) (v : Qc) :
  In (l, v) (groupby_sum String.compare key df) <->
  In l (map key df)
  /\ v = series_sum (map amount (filter (fun r => String.eqb (key r) l) df)).
Proof.
  rewrite (groupby_in _ string_cmp_eq string_cmp_antisym string_cmp_trans).
  unfold group_total.
  rewrite (filter_ext (fun r => keq String.compare (key r) l)
                      (fun r => String.eqb (key r) l))
    by (intro; apply keq_string).
  reflexivity.
Qed.


Lemma int_total_spec (zs : list Z) :
  abs_sum zs < 2 ^ 53 ->
  Int64.to_float (Int64.series_sum zs) = zsum zs.
Proof.
  intro Hb. pose proof (zsum_abs zs).
  rewrite int_sum_exact by lia. apply to_float_exact. lia.
Qed.




Example integer_breakdown :
  Int64.groupby_sum (combine ["Food"; "Rent"; "Food"] [120; 80; 45])
  = [("Food", 165); ("Rent", 80)]
  /\ Int64.to_float (Int64.series_sum [120; 80; 45]) = 245.
Proof. vm_compute. split; reflexivity. Qed.

(** [float] of an int above 2^53 rounds to the nearest binary64, ties to
    even. *)
Example to_float_rounds :
  Int64.to_float (2 ^ 53 + 1) = 2 ^ 53
  /\ Int64.to_float (2 ^ 53 + 3) = 2 ^ 53 + 4
  /\ Int64.to_float (- (2 ^ 62 + 1)) = - 2 ^ 62
  /\ Int64.to_float (2 ^ 53 - 1) = 2 ^ 53 - 1.
Proof. vm_compute. repeat split. Qed.

Example two_categories_breakdown :
  option_map (map (fun e => (fst e, format_f true 2 (snd e))))
    (categoryBreakdown
       (analysis
          (frame_result (Sample.at_midnight 2024 3 12)
             [ mkExpense (Sample.at_midnight 2024 3 10) (qz 120) "Food" "Cash";
               mkExpense (Sample.at_midnight 2024 3 11) (qz 80) "Rent" "Card";
               mkExpense (Sample.at_midnight 2024 3 11) (Q2Qc 45.5) "Food" "Card" ])))
  = Some [("Food", "165.50"); ("Rent", "80.00")].
Proof. reflexivity. Qed.

(* ================================================================== *)
(** * Large transactions *)

Lemma equal_amounts_patterns (df : DataFrame) (c : Qc) :
  (forall r, In r df -> amount r = c) ->
  ~ In "Occasional large transactions" (ExpenseAnalyzer._identify_patterns df).
Proof.
  intro H. unfold ExpenseAnalyzer._identify_patterns. cbv zeta.
  destruct (0 <? List.length df)%nat eqn:Hlen.
  - apply Nat.ltb_lt in Hlen.
    rewrite (map_amount_repeat df c H), (quantile_repeat c _ Hlen).
    rewrite (no_amount_above df c H).
    destruct (_ && _)%bool; destruct (_ && _)%bool; simpl;
      intuition discriminate.
  - destruct (_ && _)%bool; destruct (_ && _)%bool; simpl;
      intuition discriminate.
Qed.

(** C10.  On a batch that is not empty and converts, when all amounts
    are equal (so on every batch of one record) the 90th percentile of
    the amounts is the common amount, no amount is strictly above it,
    and ['Occasional large transactions'] is not among the patterns. *)
Theorem equal_amounts_no_large_transactions :
  forall to_datetime to_numeric now expenses user_id user_name df c,
    expenses <> [] ->
    to_frame to_datetime to_numeric expenses = Ok df ->
    (forall r, In r df -> amount r = c) ->
    quantile (Q2Qc 0.9) (map amount df) = c
    /\ filter (fun r => (quantile (Q2Qc 0.9) (map amount df) <? amount r)%Qc) df = []
    /\ exists res ps,
        ExpenseAnalyzer.analyze_expenses to_datetime to_numeric now expenses
          user_id user_name = Ok res
        /\ patterns (analysis res) = Some ps
        /\ ~ In "Occasional large transactions" ps.
Proof.
  intros td tn now expenses u n df c Hne Hdf Hc.
  assert (Hlen : (0 < List.length df)%nat).
  { rewrite (to_frame_length _ _ _ _ Hdf).
    destruct expenses; [contradiction|simpl; lia]. }
  assert (Hq : quantile (Q2Qc 0.9) (map amount df) = c).
  { rewrite (map_amount_repeat df c Hc). apply quantile_repeat, Hlen. }
  split; [exact Hq|].
  split; [rewrite Hq; apply no_amount_above, Hc|].
  exists (frame_result now df), (ExpenseAnalyzer._identify_patterns df).
  split; [apply analyze_ok; assumption|].
  split; [reflexivity|].
  eapply equal_amounts_patterns, Hc.
Qed.

Lemma equal_amounts_no_large_transactions_witness :
  quantile (Q2Qc 0.9)
    (map amount [mkExpense (Sample.at_midnight 2024 3 12) (qz 50) "Misc" "Card"])
  = qz 50
  /\ filter (fun r =>
               (quantile (Q2Qc 0.9)
                  (map amount
                     [mkExpense (Sample.at_midnight 2024 3 12) (qz 50) "Misc" "Card"])
                <? amount r)%Qc)
       [mkExpense (Sample.at_midnight 2024 3 12) (qz 50) "Misc" "Card"] = []
  /\ exists res ps,
      ExpenseAnalyzer.analyze_expenses Sample.to_datetime Sample.to_numeric
        (Sample.at_midnight 2024 3 12) Examples.single_record "unknown" "User"
      = Ok res
      /\ patterns (analysis res) = Some ps
      /\ ~ In "Occasional large transactions" ps.
Proof.
  apply (equal_amounts_no_large_transactions
           Sample.to_datetime Sample.to_numeric).
  - discriminate.
  - reflexivity.
  - intros r [<-|[]]. reflexivity.
Defined.

(* ================================================================== *)
(** * Order and number of the suggestions and patterns *)

(** C5.  On a batch that is not empty and converts to the frame [df],
    the suggestions are the first 5 of what rules 1 to 6 generate, in
    rule order (nothing is sorted by priority), so at most 5; and the
    patterns are those of the three conditions that hold, in the order
    weekend spending, frequent categories, large transactions, so at
    most 3. *)
Theorem suggestions_and_patterns_in_rule_order :
  forall to_datetime to_numeric now expenses user_id user_name df,
    expenses <> [] ->
    to_frame to_datetime to_numeric expenses = Ok df ->
    exists res,
      ExpenseAnalyzer.analyze_expenses to_datetime to_numeric now expenses
        user_id user_name = Ok res
      /\ suggestions res
         = firstn 5 (Rules.generated now df (series_sum (map amount df)))
      /\ (List.length (suggestions res) <= 5)%nat
      /\ patterns (analysis res) = Some (Patterns.detected df)
      /\ (List.length (Patterns.detected df) <= 3)%nat.
Proof.
  intros td tn now expenses u n df Hne Hdf.
  exists (frame_result now df).
  split; [apply analyze_ok; assumption|].
  assert (Hs : suggestions (frame_result now df)
               = firstn 5 (Rules.generated now df (series_sum (map amount df)))).
  { apply generate_suggestions_rules. }
  split; [exact Hs|].
  split; [rewrite Hs; apply firstn_le_length|].
  split; [|apply detected_length].
  cbn. f_equal. apply identify_patterns_detected.
Qed.

Lemma suggestions_and_patterns_in_rule_order_witness :
  exists res,
    ExpenseAnalyzer.analyze_expenses Sample.to_datetime Sample.to_numeric
      (Sample.at_midnight 2024 3 12) Examples.three_days "unknown" "User"
    = Ok res
    /\ map priority (suggestions res) = [high; medium; low; low; medium]
    /\ (List.length (suggestions res) <= 5)%nat.
Proof.
  destruct (suggestions_and_patterns_in_rule_order
              Sample.to_datetime Sample.to_numeric
              (Sample.at_midnight 2024 3 12) Examples.three_days
              "unknown" "User"
              [ mkExpense (Sample.at_midnight 2024 3 10) (qz 12000) "Food" "Cash";
                mkExpense (Sample.at_midnight 2024 3 1) (qz 100) "Food" "Cash";
                mkExpense (Sample.at_midnight 2024 2 25) (qz 50) "Food" "Cash" ])
    as (res & Hres & Hs & Hlen & _).
  - discriminate.
  - reflexivity.
  - exists res. split; [exact Hres|]. split; [|exact Hlen].
    rewrite Hs. vm_compute. reflexivity.
Defined.

(* ================================================================== *)
(** * The scenario of three records *)

Section Scenario.
Variables t1 t2 t3 : Timestamp.

Lemma scenario_one_day :
  dt_date t1 = dt_date t2 -> dt_date t2 = dt_date t3 ->
  Rules.rule_3 (scenario_frame t1 t2 t3) = [].
Proof.
  intros H12 H23.
  unfold Rules.rule_3, high_daily_variance, ExpenseAnalyzer.daily_totals.
  unfold groupby_sum, scenario_frame. cbv zeta.
  cbn [fold_left date amount].
  rewrite <- H23, <- H12.
  cbn [add_group]. rewrite Z.compare_refl.
  cbn [add_group]. rewrite Z.compare_refl.
  reflexivity.
Qed.

Lemma scenario_all_recent now :
  now - timedelta_days 7 <= t1 ->
  now - timedelta_days 7 <= t2 ->
  now - timedelta_days 7 <= t3 ->
  Rules.rule_5 now (scenario_frame t1 t2 t3) (series_sum (map amount (scenario_frame t1 t2 t3))) = [].
Proof.
  intros H1 H2 H3.
  unfold Rules.rule_5, Rules.recent, scenario_frame. cbv zeta.
  cbn [filter date].
  rewrite (proj2 (Z.leb_le _ _) H1), (proj2 (Z.leb_le _ _) H2),
    (proj2 (Z.leb_le _ _) H3).
  vm_compute. reflexivity.
Qed.

Lemma scenario_none_recent now :
  t1 < now - timedelta_days 7 ->
  t2 < now - timedelta_days 7 ->
  t3 < now - timedelta_days 7 ->
  Rules.rule_5 now (scenario_frame t1 t2 t3) (series_sum (map amount (scenario_frame t1 t2 t3))) = [].
Proof.
  intros H1 H2 H3.
  unfold Rules.rule_5, Rules.recent, scenario_frame. cbv zeta.
  cbn [filter date].
  rewrite (proj2 (Z.leb_gt _ _) H1), (proj2 (Z.leb_gt _ _) H2),
    (proj2 (Z.leb_gt _ _) H3).
  reflexivity.
Qed.
End Scenario.

(** C6, as the code has it.  For three records of amounts 12000, 100 and
    50, all in category [Food], all paid by [Cash], dated within the
    last 30 days, all on one calendar day, and either all or none of them
    in the last 7 days, the suggestions are exactly three, in this
    order: the high-spending warning (12,150.00), the category advice
    for Food at 100.0%, and the single-payment-method tip naming Cash;
    there is no fallback tip. *)
Theorem scenario_same_day_three_suggestions :
  forall to_datetime to_numeric now d1 d2 d3 a1 a2 a3 t1 t2 t3 user_id user_name,
    to_datetime [d1; d2; d3] = Ok [t1; t2; t3] ->
    to_numeric [a1; a2; a3] = Ok [qz 12000; qz 100; qz 50] ->
    Forall (fun t => now - timedelta_days 30 <= t <= now) [t1; t2; t3] ->
    dt_date t1 = dt_date t2 ->
    dt_date t2 = dt_date t3 ->
    (now - timedelta_days 7 <= t1
     /\ now - timedelta_days 7 <= t2
     /\ now - timedelta_days 7 <= t3)
    \/ (t1 < now - timedelta_days 7
        /\ t2 < now - timedelta_days 7
        /\ t3 < now - timedelta_days 7) ->
    exists res,
      ExpenseAnalyzer.analyze_expenses to_datetime to_numeric now
        [ mkRawExpense d1 a1 "Food" "Cash";
          mkRawExpense d2 a2 "Food" "Cash";
          mkRawExpense d3 a3 "Food" "Cash" ] user_id user_name = Ok res
      /\ suggestions res
         = [ {| type := warning;
                message := "Your total spending of ₹12,150.00 in the last 30 days is quite high. Consider reviewing your expenses and identifying areas to cut back.";
                priority := high |};
             {| type := advice;
                message := "Food accounts for 100.0% of your spending. Consider setting a specific budget for this category.";
                priority := medium |};
             {| type := tip;
                message := "You only use Cash for payments. Consider diversifying your payment methods for better tracking.";
                priority := low |} ].
Proof.
  intros td tn now d1 d2 d3 a1 a2 a3 t1 t2 t3 u n Hd Ha _ H12 H23 Hwin.
  exists (frame_result now (scenario_frame t1 t2 t3)).
  split.
  - apply analyze_ok; [discriminate|].
    unfold to_frame, getitem, setitem. cbv beta iota.
    cbn [map raw_date raw_amount]. rewrite bind_ok, Hd, bind_ok.
    cbn [List.length Nat.eqb combine]. rewrite !bind_ok, Ha, bind_ok.
    reflexivity.
  - change (suggestions (frame_result now (scenario_frame t1 t2 t3)))
      with (ExpenseAnalyzer._generate_suggestions now (scenario_frame t1 t2 t3)
              (series_sum (map amount (scenario_frame t1 t2 t3)))
              (series_sum (map amount (scenario_frame t1 t2 t3)) / qz 30)%Qc
              (idxmax "" (groupby_sum String.compare category
                                      (scenario_frame t1 t2 t3)))).
    rewrite generate_suggestions_rules.
    unfold Rules.generated. cbv zeta.
    rewrite (scenario_one_day t1 t2 t3 H12 H23).
    assert (H5 : Rules.rule_5 now (scenario_frame t1 t2 t3)
                   (series_sum (map amount (scenario_frame t1 t2 t3))) = []).
    { destruct Hwin as [(H1 & H2 & H3)|(H1 & H2 & H3)].
      - apply scenario_all_recent; assumption.
      - apply scenario_none_recent; assumption. }
    rewrite H5.
    vm_compute. reflexivity.
Qed.

Lemma scenario_same_day_three_suggestions_witness :
  exists res,
    ExpenseAnalyzer.analyze_expenses Sample.to_datetime Sample.to_numeric
      (Sample.at_midnight 2024 3 12) Examples.one_day "unknown" "User" = Ok res
    /\ suggestions res
       = [ {| type := warning;
              message := "Your total spending of ₹12,150.00 in the last 30 days is quite high. Consider reviewing your expenses and identifying areas to cut back.";
              priority := high |};
           {| type := advice;
              message := "Food accounts for 100.0% of your spending. Consider setting a specific budget for this category.";
              priority := medium |};
           {| type := tip;
              message := "You only use Cash for payments. Consider diversifying your payment methods for better tracking.";
              priority := low |} ].
Proof.
  apply (scenario_same_day_three_suggestions
           Sample.to_datetime Sample.to_numeric (Sample.at_midnight 2024 3 12)
           "2024-03-10" "2024-03-10" "2024-03-10"
           (AmtNum (qz 12000)) (AmtNum (qz 100)) (AmtNum (qz 50))
           (Sample.at_midnight 2024 3 10) (Sample.at_midnight 2024 3 10)
           (Sample.at_midnight 2024 3 10)).
  - reflexivity.
  - reflexivity.
  - repeat constructor; vm_compute; discriminate.
  - reflexivity.
  - reflexivity.
  - left. repeat split; vm_compute; discriminate.
Defined.

(** C6 as stated fails: with the three records on three days of the last
    30 (2024-03-10, 2024-03-01 and 2024-02-25, analyzed on 2024-03-12)
    there are five suggestions, the daily-variance tip and the trend
    warning among them. *)
Lemma scenario_three_days_five_suggestions :
  suggestion_types
    (ExpenseAnalyzer.analyze_expenses Sample.to_datetime Sample.to_numeric
       (Sample.at_midnight 2024 3 12) Examples.three_days "unknown" "User")
  = [warning; advice; tip; tip; warning].
Proof. vm_compute. reflexivity. Qed.

(* ================================================================== *)
(** * Further properties of the service *)

(** X1.  The result of [convert_numpy_types] is free of numpy values
    exactly when its argument holds no numpy scalar other than integers
    and floats ([np.bool_], [np.str_], ...) and no tuple with a numpy
    value in it: numpy integers, floats and numeric arrays are converted
    at every depth of dicts and lists, while the other numpy scalars and
    the tuples are returned as they are. *)
Theorem convert_numpy_types_removes_numpy :
  forall v, native (convert_numpy_types v) = convertible v.
Proof.
  exact convert_native.
Qed.

Example numpy_body_converted :
  native (convert_numpy_types MoreExamples.numpy_body) = true.
Proof. reflexivity. Qed.

Example numpy_bool_kept :
  convert_numpy_types (PyDict [("flag", NpBool true); ("count", NpInteger 2)])
  = PyDict [("flag", NpBool true); ("count", PyInt 2)].
Proof. reflexivity. Qed.

Example numpy_in_tuple_kept :
  convert_numpy_types
    (PyList [PyTuple [NpInteger 2]; NpStr "Food";
             NpGeneric "numpy.datetime64('2024-03-10')"])
  = PyList [PyTuple [NpInteger 2]; NpStr "Food";
            NpGeneric "numpy.datetime64('2024-03-10')"].
Proof. reflexivity. Qed.

(** X2.  [convert_numpy_types] returns a value that holds no numpy
    scalar or array unchanged. *)
Theorem convert_numpy_types_keeps_native :
  forall v, native v = true -> convert_numpy_types v = v.
Proof.
  exact convert_native_id.
Qed.

Lemma convert_numpy_types_keeps_native_witness :
  convert_numpy_types MoreExamples.native_body = MoreExamples.native_body.
Proof.
  apply convert_numpy_types_keeps_native. reflexivity.
Defined.

(** X3.  [convert_numpy_types] keeps the shape of its argument: the same
    dict keys in the same order and the same list lengths, at every
    depth; an array becomes nested lists of its own shape. *)
Theorem convert_numpy_types_keeps_shape :
  forall v, shape (convert_numpy_types v) = shape v.
Proof.
  exact convert_shape.
Qed.

(** X4.  [POST /analyze], for a request whose JSON body is [null] or an
    object.  It answers 400 exactly when [request.get_json()] returns
    [null] or an object without the [expenses] key, whatever the clock
    and the parsers; its only 400 error is ['Missing expenses data'];
    every 500 answer has the error ['Analysis failed'], and its message
    is that of an exception of [request.get_json()] or of the analyzer
    on the expenses and the user of the body; a 200 answer is the result
    of the analyzer on them. *)
Theorem analyze_route_errors :
  forall to_datetime to_numeric now get_json,
    (analyze_expenses_request to_datetime to_numeric now get_json
     = Resp400 "Missing expenses data"
     <-> get_json = Ok None
         \/ exists body, get_json = Ok (Some body) /\ body_expenses body = None)
    /\ (forall error,
           analyze_expenses_request to_datetime to_numeric now get_json
           = Resp400 error ->
           error = "Missing expenses data")
    /\ (forall error msg,
           analyze_expenses_request to_datetime to_numeric now get_json
           = Resp500 error msg ->
           error = "Analysis failed"
           /\ (get_json = Raise msg
               \/ exists body expenses,
                   get_json = Ok (Some body)
                   /\ body_expenses body = Some expenses
                   /\ ExpenseAnalyzer.analyze_expenses to_datetime to_numeric now
                        expenses (dict_get (body_userId body) "unknown")
                        (dict_get (body_userName body) "User") = Raise msg))
    /\ (forall msg,
           analyze_expenses_request to_datetime to_numeric now (Raise msg)
           = Resp500 "Analysis failed" msg)
    /\ (forall res,
           analyze_expenses_request to_datetime to_numeric now get_json
           = Resp200 res ->
           exists body expenses,
             get_json = Ok (Some body)
             /\ body_expenses body = Some expenses
             /\ ExpenseAnalyzer.analyze_expenses to_datetime to_numeric now
                  expenses (dict_get (body_userId body) "unknown")
                  (dict_get (body_userName body) "User") = Ok res).
Proof.
  intros td tn now get_json. unfold analyze_expenses_request.
  destruct get_json as [data|m].
  - destruct (analyze_expenses_answers td tn now data) as (H400 & Herr & H500 & H200).
    split; [|split; [|split; [|split]]].
    + rewrite H400. split.
      * intros [->|(body & -> & Hb)]; [left; reflexivity|].
        right. exists body. split; [reflexivity|exact Hb].
      * intros [[= ->]|(body & [= ->] & Hb)]; [left; reflexivity|].
        right. exists body. split; [reflexivity|exact Hb].
    + exact Herr.
    + intros error msg H. destruct (H500 error msg H) as (He & body & expenses & -> & Hb & Hr).
      split; [exact He|]. right. exists body, expenses.
      split; [reflexivity|]. split; [exact Hb|exact Hr].
    + reflexivity.
    + intros res H. destruct (H200 res H) as (body & expenses & -> & Hb & Hr).
      exists body, expenses. split; [reflexivity|]. split; [exact Hb|exact Hr].
  - split; [|split; [|split; [|split]]].
    + split; [discriminate|].
      intros [H|(body & H & _)]; discriminate H.
    + discriminate.
    + intros error msg [= <- <-]. split; [reflexivity|]. left. reflexivity.
    + reflexivity.
    + discriminate.
Qed.

Example analyze_without_json_body :
  analyze_expenses_request Sample.to_datetime Sample.to_numeric
    (Sample.at_midnight 2024 3 12)
    (Raise "415 Unsupported Media Type: Did not attempt to load JSON data because the request Content-Type was not 'application/json'.")
  = Resp500 "Analysis failed"
      "415 Unsupported Media Type: Did not attempt to load JSON data because the request Content-Type was not 'application/json'.".
Proof. reflexivity. Qed.

(** X5.  When the frame of a batch is built, it has one row per record,
    in the order of the batch; its [date] and [amount] columns are what
    [to_datetime] and [to_numeric] returned for the columns of the
    batch, and its [category] and [paymentMethod] columns are those of
    the batch. *)
Theorem frame_columns_are_converted_columns :
  forall to_datetime to_numeric expenses df,
    to_frame to_datetime to_numeric expenses = Ok df ->
    List.length df = List.length expenses
    /\ to_datetime (map raw_date expenses) = Ok (map date df)
    /\ to_numeric (map raw_amount expenses) = Ok (map amount df)
    /\ map category df = map raw_category expenses
    /\ map paymentMethod df = map raw_paymentMethod expenses.
Proof.
  intros td tn expenses df H.
  split; [eapply to_frame_length, H|eapply to_frame_columns, H].
Qed.

Lemma frame_columns_are_converted_columns_witness :
  List.length MoreExamples.two_categories_frame
  = List.length Examples.two_categories
  /\ Sample.to_datetime (map raw_date Examples.two_categories)
     = Ok (map date MoreExamples.two_categories_frame)
  /\ Sample.to_numeric (map raw_amount Examples.two_categories)
     = Ok (map amount MoreExamples.two_categories_frame)
  /\ map category MoreExamples.two_categories_frame
     = map raw_category Examples.two_categories
  /\ map paymentMethod MoreExamples.two_categories_frame
     = map raw_paymentMethod Examples.two_categories.
Proof.
  apply (frame_columns_are_converted_columns Sample.to_datetime Sample.to_numeric).
  reflexivity.
Defined.




(** X7.  [POST /insights] with [days] equal to 0 on a batch whose frame
    is built answers 500 ['Insights generation failed'] with the message
    of the division error: the average is computed before anything is
    returned. *)
Theorem insights_zero_days_fails :
  forall to_datetime to_numeric expenses df,
    to_frame to_datetime to_numeric expenses = Ok df ->
    get_insights to_datetime to_numeric
      (Some (mkInsightsBody (Some expenses) (Some 0)))
    = Resp500 "Insights generation failed" "float division by zero".
Proof.
  intros td tn expenses df Hdf.
  eapply get_insights_zero_days; [exact Hdf|reflexivity].
Qed.

Lemma insights_zero_days_fails_witness :
  get_insights Sample.to_datetime Sample.to_numeric
    (Some (mkInsightsBody (Some Examples.two_categories) (Some 0)))
  = Resp500 "Insights generation failed" "float division by zero".
Proof.
  apply (insights_zero_days_fails Sample.to_datetime Sample.to_numeric
           Examples.two_categories MoreExamples.two_categories_frame).
  reflexivity.
Defined.

(** X8.  When the analyzer returns a result for a batch and
    [/insights] answers 200 for the same batch, the two agree: same
    total, same category and payment-method breakdowns, same top
    category, for every number of days; and the same daily average when
    the days are 30 or absent. *)
Theorem insights_agree_with_analysis :
  forall to_datetime to_numeric now expenses user_id user_name days res i,
    ExpenseAnalyzer.analyze_expenses to_datetime to_numeric now expenses
      user_id user_name = Ok res ->
    get_insights to_datetime to_numeric
      (Some (mkInsightsBody (Some expenses) days)) = Resp200 i ->
    ins_totalSpending i = totalSpending (analysis res)
    /\ Some (ins_categoryBreakdown i) = categoryBreakdown (analysis res)
    /\ Some (ins_paymentMethodBreakdown i) = paymentMethodBreakdown (analysis res)
    /\ ins_topCategory i = topCategory (analysis res)
    /\ (dict_get days 30 = 30 ->
        ins_averageDailySpending i = averageDailySpending (analysis res)).
Proof.
  intros td tn now expenses u n days res i Hres Hi.
  destruct (get_insights_answers td tn
              (Some (mkInsightsBody (Some expenses) days))) as (_ & _ & _ & H200).
  destruct (H200 i Hi) as (body & es & df & Hb & He & Hdf & Hd & ->).
  injection Hb as <-. cbn [ins_expenses ins_days] in He, Hd |- *.
  injection He as <-.
  pose proof (to_frame_not_nil _ _ _ _ Hdf) as Hne.
  rewrite (analyze_ok td tn now expenses u n df) in Hres;
    [|intros ->; discriminate Hdf|exact Hdf].
  injection Hres as <-.
  repeat split.
  - apply (top_label_groupby category df Hne).
  - intros ->. reflexivity.
Qed.

Lemma insights_agree_with_analysis_witness :
  ins_totalSpending (insights_of 30 MoreExamples.two_categories_frame)
  = totalSpending
      (analysis (frame_result (Sample.at_midnight 2024 3 12)
                   MoreExamples.two_categories_frame))
  /\ ins_topCategory (insights_of 30 MoreExamples.two_categories_frame)
     = topCategory
         (analysis (frame_result (Sample.at_midnight 2024 3 12)
                      MoreExamples.two_categories_frame))
  /\ ins_averageDailySpending (insights_of 30 MoreExamples.two_categories_frame)
     = averageDailySpending
         (analysis (frame_result (Sample.at_midnight 2024 3 12)
                      MoreExamples.two_categories_frame)).
Proof.
  destruct (insights_agree_with_analysis Sample.to_datetime Sample.to_numeric
              (Sample.at_midnight 2024 3 12) Examples.two_categories
              "unknown" "User" None
              (frame_result (Sample.at_midnight 2024 3 12)
                 MoreExamples.two_categories_frame)
              (insights_of 30 MoreExamples.two_categories_frame))
    as (Ht & _ & _ & Htop & Havg).
  - reflexivity.
  - reflexivity.
  - split; [exact Ht|]. split; [exact Htop|]. apply Havg. reflexivity.
Defined.

(** X9.  On a batch whose frame is built, [topCategory] is a key of
    [categoryBreakdown]; no category has a larger total than it; and
    among the categories that reach its total [topCategory] is the first
    in the order of the labels (not in the order of the records). *)
Theorem top_category_is_first_maximum :
  forall to_datetime to_numeric now expenses user_id user_name df,
    to_frame to_datetime to_numeric expenses = Ok df ->
    exists res cb top_total,
      ExpenseAnalyzer.analyze_expenses to_datetime to_numeric now expenses
        user_id user_name = Ok res
      /\ categoryBreakdown (analysis res) = Some cb
      /\ In (topCategory (analysis res), top_total) cb
      /\ (forall label v, In (label, v) cb -> (v <= top_total)%Qc)
      /\ (forall label,
             In (label, top_total) cb ->
             String.compare (topCategory (analysis res)) label <> Gt).
Proof.
  intros td tn now expenses u n df Hdf.
  pose proof (to_frame_not_nil _ _ _ _ Hdf) as Hne.
  exists (frame_result now df), (groupby_sum String.compare category df),
         (series_max (groupby_sum String.compare category df)).
  split.
  { apply analyze_ok; [|exact Hdf]. intros ->. discriminate Hdf. }
  split; [reflexivity|].
  cbn [frame_result analysis ExpenseAnalyzer._detailed_analysis topCategory].
  split; [apply idxmax_max_in, groupby_not_nil, Hne|].
  split.
  - intros label v Hin. apply (series_max_upper _ (label, v)), Hin.
  - intros label Hin.
    apply (idxmax_least_key String.compare "" _ label string_cmp_refl);
      [|exact Hin].
    apply (groupby_sorted _ string_cmp_antisym string_cmp_trans).
Qed.

Lemma top_category_is_first_maximum_witness :
  exists res cb top_total,
    ExpenseAnalyzer.analyze_expenses Sample.to_datetime Sample.to_numeric
      (Sample.at_midnight 2024 3 12) Examples.two_categories "unknown" "User"
    = Ok res
    /\ categoryBreakdown (analysis res) = Some cb
    /\ In (topCategory (analysis res), top_total) cb.
Proof.
  destruct (top_category_is_first_maximum Sample.to_datetime Sample.to_numeric
              (Sample.at_midnight 2024 3 12) Examples.two_categories
              "unknown" "User" MoreExamples.two_categories_frame)
    as (res & cb & amt & Hres & Hcb & Hin & _).
  - reflexivity.
  - exists res, cb, amt. repeat split; assumption.
Defined.

(** X10.  On a batch whose frame is built, the keys of each breakdown
    are in strictly increasing order of the labels: every label of the
    batch has one entry, and none has two. *)
Theorem breakdown_keys_increasing :
  forall to_datetime to_numeric now expenses user_id user_name df,
    to_frame to_datetime to_numeric expenses = Ok df ->
    exists res cb pb,
      ExpenseAnalyzer.analyze_expenses to_datetime to_numeric now expenses
        user_id user_name = Ok res
      /\ categoryBreakdown (analysis res) = Some cb
      /\ paymentMethodBreakdown (analysis res) = Some pb
      /\ StronglySorted (key_lt String.compare) cb
      /\ StronglySorted (key_lt String.compare) pb
      /\ NoDup (map fst cb)
      /\ NoDup (map fst pb)
      /\ (forall label, In label (map fst cb) <-> In label (map category df))
      /\ (forall label, In label (map fst pb) <-> In label (map paymentMethod df)).
Proof.
  intros td tn now expenses u n df Hdf.
  exists (frame_result now df), (groupby_sum String.compare category df),
         (groupby_sum String.compare paymentMethod df).
  assert (S : forall key, StronglySorted (key_lt String.compare)
                            (groupby_sum String.compare key df))
    by (intro; apply (groupby_sorted _ string_cmp_antisym string_cmp_trans)).
  assert (Keys : forall key label,
             In label (map fst (groupby_sum String.compare key df))
             <-> In label (map key df)).
  { intros key label. split.
    - intro H. apply in_map_iff in H. destruct H as [[k v] [<- Hin]].
      apply breakdown_in in Hin. apply Hin.
    - intro H.
      apply (in_map fst _ (label, series_sum
               (map amount (filter (fun r => String.eqb (key r) label) df)))).
      apply breakdown_in. split; [exact H|reflexivity]. }
  split.
  { apply analyze_ok; [|exact Hdf]. intros ->. discriminate Hdf. }
  repeat split; try apply S; try apply Keys;
    apply (sorted_keys_nodup String.compare _ string_cmp_refl), S.
Qed.

Lemma breakdown_keys_increasing_witness :
  exists res cb,
    ExpenseAnalyzer.analyze_expenses Sample.to_datetime Sample.to_numeric
      (Sample.at_midnight 2024 3 12) Examples.two_categories "unknown" "User"
    = Ok res
    /\ categoryBreakdown (analysis res) = Some cb
    /\ map fst cb = ["Food"; "Rent"].
Proof.
  destruct (breakdown_keys_increasing Sample.to_datetime Sample.to_numeric
              (Sample.at_midnight 2024 3 12) Examples.two_categories
              "unknown" "User" MoreExamples.two_categories_frame)
    as (res & cb & pb & Hres & Hcb & _).
  - reflexivity.
  - exists res, cb. split; [exact Hres|]. split; [exact Hcb|].
    rewrite (analyze_ok Sample.to_datetime Sample.to_numeric _ _ _ _
               MoreExamples.two_categories_frame) in Hres;
      [|discriminate|reflexivity].
    injection Hres as <-. injection Hcb as <-. reflexivity.
Defined.

(** X11.  [_calculate_efficiency_score] returns 100, 95, 85, 80 or 65:
    the deduction for a high daily variance and the bonus for a low one
    never apply together, so the score is never below 65, and the clamp
    only meets the bonus on an undiminished 100. *)
Theorem efficiency_score_values :
  forall df total,
    let score := ExpenseAnalyzer._calculate_efficiency_score df total in
    score = 100 \/ score = 95 \/ score = 85 \/ score = 80 \/ score = 65.
Proof.
  intros df total. cbv zeta. rewrite efficiency_score_adjusted.
  apply adjusted_score_values.
Qed.

(** X12.  When all records of a frame fall on one calendar day there is
    one daily total: no variance adjustment applies, the score is 100 or
    85, and the daily-variance tip is not generated. *)
Theorem one_day_score :
  forall df total day,
    (forall r, In r df -> dt_date (date r) = day) ->
    (ExpenseAnalyzer._calculate_efficiency_score df total = 100
     \/ ExpenseAnalyzer._calculate_efficiency_score df total = 85)
    /\ Rules.rule_3 df = [].
Proof.
  intros df total day H.
  pose proof (one_day_one_total df day H) as Hlen.
  assert (E : (1 <? List.length (ExpenseAnalyzer.daily_totals df))%nat = false)
    by (apply Nat.ltb_ge; exact Hlen).
  rewrite efficiency_score_adjusted.
  unfold adjusted_score, Rules.rule_3, high_daily_variance, low_daily_variance.
  cbv zeta. rewrite E. cbn [andb].
  split; [|reflexivity].
  destruct (small_transaction_share df); cbv; auto.
Qed.

Lemma one_day_score_witness :
  (ExpenseAnalyzer._calculate_efficiency_score
     (scenario_frame (Sample.at_midnight 2024 3 10) (Sample.at_midnight 2024 3 10)
        (Sample.at_midnight 2024 3 10)) (qz 12150) = 100
   \/ ExpenseAnalyzer._calculate_efficiency_score
        (scenario_frame (Sample.at_midnight 2024 3 10)
           (Sample.at_midnight 2024 3 10) (Sample.at_midnight 2024 3 10))
        (qz 12150) = 85)
  /\ Rules.rule_3
       (scenario_frame (Sample.at_midnight 2024 3 10) (Sample.at_midnight 2024 3 10)
          (Sample.at_midnight 2024 3 10)) = [].
Proof.
  apply (one_day_score _ _ (dt_date (Sample.at_midnight 2024 3 10))).
  intros r [<-|[<-|[<-|[]]]]; reflexivity.
Defined.

(** X13.  [_generate_suggestions] never returns an empty list; a list of
    fewer than 3 suggestions ends with the general tracking tip; and the
    general tip only appears in lists of at most 3. *)
Theorem suggestions_never_empty :
  forall now df total average top,
    let ss := ExpenseAnalyzer._generate_suggestions now df total average top in
    ss <> []
    /\ ((List.length ss < 3)%nat -> last ss Rules.general_tip = Rules.general_tip)
    /\ (In Rules.general_tip ss -> (List.length ss <= 3)%nat).
Proof.
  intros now df total average top. cbv zeta.
  rewrite generate_suggestions_rules.
  split; [|split].
  - destruct (generated_shape now df total) as [g ->]. unfold Rules.rule_6.
    destruct (List.length g <? 3)%nat eqn:E.
    + destruct g as [|a g]; simpl; discriminate.
    + apply Nat.ltb_ge in E. rewrite app_nil_r.
      destruct g as [|a g]; [simpl in E; lia|]. simpl. discriminate.
  - rewrite length_firstn.
    destruct (generated_shape now df total) as [g ->]. unfold Rules.rule_6.
    intro Hlen.
    destruct (List.length g <? 3)%nat eqn:E.
    + apply Nat.ltb_lt in E.
      rewrite firstn_all2 by (rewrite length_app; simpl; lia).
      apply last_last.
    + apply Nat.ltb_ge in E. rewrite app_nil_r in Hlen. lia.
  - intro Hin. apply firstn_incl in Hin.
    rewrite length_firstn.
    apply generated_members in Hin.
    destruct Hin as [H|[H|[H|[H|[H|[_ H]]]]]].
    + apply rule_1_members in H. destruct H as [[H _]|[H _]]; discriminate H.
    + apply rule_2_members in H. destruct H as (l & p & H). discriminate H.
    + apply rule_3_members in H. discriminate H.
    + apply rule_4_members in H. destruct H as (m & c & H & _). discriminate H.
    + apply rule_5_members in H. destruct H as (c & [H|H]); discriminate H.
    + lia.
Qed.

(** X14.  A suggestion of [_generate_suggestions] has priority [high]
    only when the total is above 10000, and it is then the high-spending
    warning; above 10000 that warning is the first suggestion. *)
Theorem high_priority_above_threshold :
  forall now df total average top,
    let ss := ExpenseAnalyzer._generate_suggestions now df total average top in
    (forall s, In s ss -> priority s = high ->
               (qz 10000 < total)%Qc /\ s = Rules.high_spending_warning total)
    /\ ((qz 10000 < total)%Qc ->
        hd_error ss = Some (Rules.high_spending_warning total)).
Proof.
  intros now df total average top. cbv zeta.
  rewrite generate_suggestions_rules. split.
  - intros s Hin Hp. apply firstn_incl, generated_members in Hin.
    destruct Hin as [H|[H|[H|[H|[H|[H _]]]]]].
    + apply rule_1_members in H. destruct H as [[-> H]|[-> _]]; [auto|].
      discriminate Hp.
    + apply rule_2_members in H. destruct H as (l & p & ->). discriminate Hp.
    + apply rule_3_members in H. subst s. discriminate Hp.
    + apply rule_4_members in H. destruct H as (m & c & -> & _). discriminate Hp.
    + apply rule_5_members in H. destruct H as (c & [->| ->]); discriminate Hp.
    + subst s. discriminate Hp.
  - intro H. apply Qcltb_lt in H.
    unfold Rules.generated, Rules.rule_1. cbv zeta. rewrite H. reflexivity.
Qed.

(** X15.  The suggestions of the analysis hold a trend suggestion (the
    [positive] one, or the [warning] of priority [medium]) only when
    the frame has a record in the last 7 days and a record older than
    that: with all records on one side of the window the rule is
    silent. *)
Theorem trend_needs_recent_and_older :
  forall now df s,
    In s (suggestions (frame_result now df)) ->
    type s = positive \/ (type s = warning /\ priority s = medium) ->
    (exists r, In r df /\ now - timedelta_days 7 <= date r)
    /\ (exists r, In r df /\ date r < now - timedelta_days 7).
Proof.
  intros now df s Hin Ht.
  apply rule_5_needs_both.
  cbn [frame_result suggestions] in Hin.
  rewrite generate_suggestions_rules in Hin.
  apply firstn_incl, generated_members in Hin.
  destruct Hin as [H|[H|[H|[H|[H|[H _]]]]]].
  - exfalso. apply rule_1_members in H.
    destruct H as [[-> _]|[-> _]]; destruct Ht as [Ht|[Ht Hp]]; discriminate.
  - exfalso. apply rule_2_members in H. destruct H as (l & p & ->).
    destruct Ht as [Ht|[Ht Hp]]; discriminate.
  - exfalso. apply rule_3_members in H. subst s.
    destruct Ht as [Ht|[Ht Hp]]; discriminate.
  - exfalso. apply rule_4_members in H. destruct H as (m & c & -> & _).
    destruct Ht as [Ht|[Ht Hp]]; discriminate.
  - intro E. rewrite E in H. contradiction.
  - exfalso. subst s. destruct Ht as [Ht|[Ht Hp]]; discriminate.
Qed.

Lemma trend_needs_recent_and_older_witness :
  (exists r, In r MoreExamples.three_days_frame
             /\ Sample.at_midnight 2024 3 12 - timedelta_days 7 <= date r)
  /\ (exists r, In r MoreExamples.three_days_frame
                /\ date r < Sample.at_midnight 2024 3 12 - timedelta_days 7).
Proof.
  apply (trend_needs_recent_and_older (Sample.at_midnight 2024 3 12)
           MoreExamples.three_days_frame
           {| type := warning;
              message := "Your spending increased by 7900.0% this week compared to the previous week.";
              priority := medium |}).
  - vm_compute. do 4 right. left. reflexivity.
  - right. split; reflexivity.
Defined.

(** X16.  The single-payment-method tip naming [m] is among the
    suggestions only when the frame is not empty and every record was
    paid by [m]; and in that case rule 4 generates it. *)
Theorem payment_tip_single_method :
  forall now df total average top m,
    (In (Rules.payment_method_tip m)
        (ExpenseAnalyzer._generate_suggestions now df total average top) ->
     df <> [] /\ forall r, In r df -> paymentMethod r = m)
    /\ (df <> [] -> (forall r, In r df -> paymentMethod r = m) ->
        In (Rules.payment_method_tip m) (Rules.generated now df total)).
Proof.
  intros now df total average top m. split.
  - rewrite generate_suggestions_rules. intro Hin.
    apply firstn_incl, generated_members in Hin.
    destruct Hin as [H|[H|[H|[H|[H|[H _]]]]]].
    + apply rule_1_members in H. destruct H as [[H _]|[H _]]; discriminate H.
    + apply rule_2_members in H. destruct H as (l & p & H). discriminate H.
    + apply rule_3_members in H. discriminate H.
    + apply rule_4_members in H. destruct H as (m' & c & Hm & Hv).
      apply payment_method_tip_inj in Hm. subst m'.
      apply value_counts_single in Hv. destruct Hv as (Hne & Hall & _).
      split.
      * intros ->. apply Hne. reflexivity.
      * intros r Hr. apply Hall, in_map, Hr.
    + apply rule_5_members in H. destruct H as (c & [H|H]); discriminate H.
    + discriminate H.
  - intros Hne Hall.
    assert (Hv : value_counts (map paymentMethod df)
                 = [(m, List.length (map paymentMethod df))]).
    { apply value_counts_single. split; [|split; [|reflexivity]].
      - destruct df; [contradiction|discriminate].
      - intros x Hx. apply in_map_iff in Hx. destruct Hx as [r [<- Hr]].
        apply Hall, Hr. }
    unfold Rules.generated. cbv zeta.
    apply in_or_app. left.
    apply in_or_app. right. apply in_or_app. right. apply in_or_app. right.
    apply in_or_app. left.
    unfold Rules.rule_4. rewrite Hv. left. reflexivity.
Qed.

(** X17.  [_identify_patterns] reports ['Frequent expenses in certain
    categories'] exactly when some category has more than 5 records. *)
Theorem frequent_pattern_iff :
  forall df,
    In "Frequent expenses in certain categories"
       (ExpenseAnalyzer._identify_patterns df)
    <-> exists label, (5 < occurrences (map category df) label)%nat.
Proof.
  intro df. rewrite identify_patterns_detected, detected_members.
  rewrite <- frequent_category_spec. split.
  - intros [[H _]|[[_ H]|[H _]]]; [discriminate H|exact H|discriminate H].
  - intro H. right. left. split; [reflexivity|exact H].
Qed.

(** X18.  ['Higher spending on weekends'] is reported only when the
    frame has a record on a Saturday or Sunday and a record on another
    day: the weekday total must be positive and the weekend total above
    one and a half times it, and the total of no records is 0. *)
Theorem weekend_pattern_needs_both :
  forall df,
    In "Higher spending on weekends" (ExpenseAnalyzer._identify_patterns df) ->
    (exists r, In r df /\ 5 <= dt_weekday (date r) <= 6)
    /\ (exists r, In r df /\ 0 <= dt_weekday (date r) < 5).
Proof.
  intro df.
  rewrite identify_patterns_detected, detected_members.
  intros [[_ H]|[[H _]|[H _]]]; [|discriminate H|discriminate H].
  unfold Patterns.weekend_heavy in H. cbv zeta in H.
  apply andb_true_iff in H. destruct H as [Hday Hend].
  apply Qcltb_lt in Hday. apply Qcltb_lt in Hend.
  assert (Hend' : (qz 0 < series_sum
             (map amount
                (filter (fun r => (5 <=? dt_weekday (date r))%Z) df)))%Qc).
  { eapply Qcle_lt_trans; [|exact Hend].
    rewrite qz_0 in *. replace 0%Qc with (0 * Q2Qc 1.5)%Qc by ring.
    apply Qcmult_le_compat_r; [apply Qclt_le_weak, Hday|discriminate]. }
  assert (Range : forall t, 0 <= dt_weekday t <= 6).
  { intro t. unfold dt_weekday.
    pose proof (Z.mod_pos_bound (dt_date t + 3) 7). lia. }
  assert (Rows : forall l : DataFrame, map amount l <> [] -> l <> [])
    by (intros l Hl ->; apply Hl; reflexivity).
  split.
  + apply positive_sum_not_nil, Rows, filter_not_nil in Hend'.
    destruct Hend' as [r [Hin Hf]].
    exists r. split; [exact Hin|]. apply Z.leb_le in Hf.
    specialize (Range (date r)). lia.
  + apply positive_sum_not_nil, Rows, filter_not_nil in Hday.
    destruct Hday as [r [Hin Hf]].
    exists r. split; [exact Hin|]. apply Z.ltb_lt in Hf.
    specialize (Range (date r)). lia.
Qed.

Lemma weekend_pattern_needs_both_witness :
  (exists r, In r MoreExamples2.weekend_frame /\ 5 <= dt_weekday (date r) <= 6)
  /\ (exists r, In r MoreExamples2.weekend_frame /\ 0 <= dt_weekday (date r) < 5).
Proof.
  apply weekend_pattern_needs_both.
  vm_compute. left. reflexivity.
Defined.

(** X19.  For batches of integer amounts whose absolute values sum to
    less than 2^53 (every sum of the source is then exact, in int64 and
    in binary64, in whatever order it is taken), the result of the
    analysis does not depend on the order of the records: two batches
    whose frames are permutations of each other get the same suggestions
    in the same order and the same analysis; a tie between categories is
    decided by the order of the labels, not by the order of the input.
    The amounts of the second batch are those of the first in another
    order, and its total is the same [float] of the same int64 sum. *)
Theorem analysis_ignores_record_order :
  forall to_datetime to_numeric now expenses expenses' user_id user_name df df' zs,
    to_frame to_datetime to_numeric expenses = Ok df ->
    to_frame to_datetime to_numeric expenses' = Ok df' ->
    map amount df = map qz zs ->
    abs_sum zs < 2 ^ 53 ->
    Permutation df df' ->
    ExpenseAnalyzer.analyze_expenses to_datetime to_numeric now expenses
      user_id user_name
    = ExpenseAnalyzer.analyze_expenses to_datetime to_numeric now expenses'
        user_id user_name
    /\ exists zs',
        map amount df' = map qz zs'
        /\ Permutation zs zs'
        /\ abs_sum zs' < 2 ^ 53
        /\ series_sum (map amount df)
           = qz (Int64.to_float (Int64.series_sum zs))
        /\ series_sum (map amount df')
           = qz (Int64.to_float (Int64.series_sum zs')).
Proof.
  intros td tn now es es' u n df df' zs Hdf Hdf' Hm Hb Hp.
  split.
  - rewrite (analyze_ok td tn now es u n df);
      [|intros ->; discriminate Hdf|exact Hdf].
    rewrite (analyze_ok td tn now es' u n df');
      [|intros ->; discriminate Hdf'|exact Hdf'].
    f_equal. apply frame_result_perm, Hp.
  - destruct (perm_amounts df df' zs Hm Hp) as (zs' & Hm' & Pz).
    assert (Hb' : abs_sum zs' < 2 ^ 53)
      by (rewrite <- (abs_sum_perm zs zs' Pz); exact Hb).
    exists zs'. split; [exact Hm'|]. split; [exact Pz|]. split; [exact Hb'|].
    split.
    + rewrite (int_total_spec zs Hb), Hm. apply series_sum_qz.
    + rewrite (int_total_spec zs' Hb'), Hm'. apply series_sum_qz.
Qed.

Lemma analysis_ignores_record_order_witness :
  ExpenseAnalyzer.analyze_expenses Sample.to_datetime Sample.to_numeric
    (Sample.at_midnight 2024 3 12) IntExamples.two_categories "unknown" "User"
  = ExpenseAnalyzer.analyze_expenses Sample.to_datetime Sample.to_numeric
      (Sample.at_midnight 2024 3 12) IntExamples.two_categories_reordered
      "unknown" "User".
Proof.
  apply (analysis_ignores_record_order Sample.to_datetime Sample.to_numeric _ _ _ _ _
           IntExamples.two_categories_frame
           IntExamples.two_categories_reordered_frame [120; 80; 45]).
  - reflexivity.
  - reflexivity.
  - reflexivity.
  - vm_compute. reflexivity.
  - unfold IntExamples.two_categories_frame,
      IntExamples.two_categories_reordered_frame.
    eapply perm_trans; [|apply perm_swap].
    apply perm_skip, perm_swap.
Defined.

Example frequent_frame_pattern :
  ExpenseAnalyzer._identify_patterns MoreExamples2.frequent_frame
  = ["Frequent expenses in certain categories"; "Occasional large transactions"].
Proof. reflexivity. Qed.

Example weekend_frame_pattern :
  ExpenseAnalyzer._identify_patterns MoreExamples2.weekend_frame
  = ["Higher spending on weekends"; "Occasional large transactions"].
Proof. reflexivity. Qed.

(** X20.  When no amount is negative and the total is below 2^63, at
    most two categories are above 40% of the total, so the category rule
    appends at most two suggestions (it can append two: the rule is not
    limited to one).  On a column of integers the total and the category
    totals of the rule are then the int64 sums of the source: nothing
    wraps around. *)
Theorem category_advice_at_most_two :
  forall df,
    (forall r, In r df -> (qz 0 <= amount r)%Qc) ->
    (series_sum (map amount df) < qz (2 ^ 63))%Qc ->
    (List.length (Rules.rule_2 df (series_sum (map amount df))) <= 2)%nat
    /\ (forall zs,
           map amount df = map qz zs ->
           series_sum (map amount df) = qz (Int64.series_sum zs)
           /\ groupby_sum String.compare category df
              = as_amounts (Int64.groupby_sum (combine (map category df) zs))).
Proof.
  intros df Hpos Hlt. split.
  - apply rule_2_at_most_two, Hpos.
  - intros zs Hm. apply nonneg_column_int64; assumption.
Qed.

Lemma category_advice_at_most_two_witness :
  (List.length
     (Rules.rule_2 MoreExamples3.two_shares_frame
        (series_sum (map amount MoreExamples3.two_shares_frame))) <= 2)%nat.
Proof.
  apply category_advice_at_most_two.
  - intros r [<-|[<-|[<-|[]]]]; vm_compute; discriminate.
  - vm_compute. reflexivity.
Defined.

Example two_categories_advised :
  map message
    (Rules.rule_2 MoreExamples3.two_shares_frame
       (series_sum (map amount MoreExamples3.two_shares_frame)))
  = [ "Food accounts for 45.0% of your spending. Consider setting a specific budget for this category.";
      "Rent accounts for 45.0% of your spending. Consider setting a specific budget for this category." ].
Proof. reflexivity. Qed.

Example refund_three_categories_advised :
  List.length
    (Rules.rule_2 MoreExamples3.refund_frame
       (series_sum (map amount MoreExamples3.refund_frame)))
  = 3%nat.
Proof. reflexivity. Qed.

(** X21.  In a frame of [n] records, the records whose amount is above
    the 90th percentile (the large transactions of [_identify_patterns])
    are at most a tenth of [n - 1], rounded up: ten times their number
    is at most [n + 8]. *)
Theorem large_transactions_at_most_a_tenth :
  forall df,
    df <> [] ->
    (10 * List.length
            (filter (fun r => (quantile (Q2Qc 0.9) (map amount df) <? amount r)%Qc)
                    df)
     <= List.length df + 8)%nat.
Proof.
  intros df Hne.
  rewrite <- (length_map amount df).
  rewrite <- (filter_map_length amount
                (fun x => (quantile (Q2Qc 0.9) (map amount df) <? x)%Qc) df).
  apply large_count_bound.
  destruct df; [contradiction|discriminate].
Qed.

Lemma large_transactions_at_most_a_tenth_witness :
  (10 * List.length
          (filter (fun r =>
                     (quantile (Q2Qc 0.9)
                        (map amount MoreExamples2.frequent_frame) <? amount r)%Qc)
                  MoreExamples2.frequent_frame)
   <= List.length MoreExamples2.frequent_frame + 8)%nat.
Proof.
  apply large_transactions_at_most_a_tenth. discriminate.
Defined.


(** X23.  Every suggestion of [_generate_suggestions] is a [warning] of
    priority [high] or [medium], an [advice] of priority [medium], a
    [tip] of priority [low] or a [positive] of priority [low]; the
    [info] type is only that of the empty batch. *)
Theorem suggestion_types_and_priorities :
  forall now df total average top s,
    In s (ExpenseAnalyzer._generate_suggestions now df total average top) ->
    (type s = warning /\ priority s = high)
    \/ (type s = warning /\ priority s = medium)
    \/ (type s = advice /\ priority s = medium)
    \/ (type s = tip /\ priority s = low)
    \/ (type s = positive /\ priority s = low).
Proof.
  intros now df total average top s Hin.
  rewrite generate_suggestions_rules in Hin.
  apply firstn_incl, generated_members in Hin.
  destruct Hin as [H|[H|[H|[H|[H|[H _]]]]]].
  - apply rule_1_members in H. destruct H as [[-> _]|[-> _]]; simpl; auto 6.
  - apply rule_2_members in H. destruct H as (l & p & ->). simpl. auto 6.
  - apply rule_3_members in H. subst s. simpl. auto 6.
  - apply rule_4_members in H. destruct H as (m & c & -> & _). simpl. auto 6.
  - apply rule_5_members in H. destruct H as (c & [->| ->]); simpl; auto 6.
  - subst s. simpl. auto 6.
Qed.

Lemma suggestion_types_and_priorities_witness :
  (type Rules.daily_variance_tip = warning /\ priority Rules.daily_variance_tip = high)
  \/ (type Rules.daily_variance_tip = warning
      /\ priority Rules.daily_variance_tip = medium)
  \/ (type Rules.daily_variance_tip = advice
      /\ priority Rules.daily_variance_tip = medium)
  \/ (type Rules.daily_variance_tip = tip /\ priority Rules.daily_variance_tip = low)
  \/ (type Rules.daily_variance_tip = positive
      /\ priority Rules.daily_variance_tip = low).
Proof.
  apply (suggestion_types_and_priorities (Sample.at_midnight 2024 3 12)
           MoreExamples.three_days_frame (qz 12150) (qz 405) "Food").
  vm_compute. do 2 right. left. reflexivity.
Defined.

(** X24.  The suggestions and the score see the same statistic: when no
    amount is negative and the total is below 2^63, the daily-variance
    tip is among the suggestions of the analysis exactly when the
    efficiency score is 80 or 65, that is, when the 20 points for a high
    daily variance were deducted.  On a column of integers the total and
    the category totals are then the int64 sums of the source: nothing
    wraps around. *)
Theorem variance_tip_matches_score :
  forall now df,
    (forall r, In r df -> (qz 0 <= amount r)%Qc) ->
    (series_sum (map amount df) < qz (2 ^ 63))%Qc ->
    (In Rules.daily_variance_tip (suggestions (frame_result now df))
     <-> efficiencyScore (analysis (frame_result now df)) = Some 80
         \/ efficiencyScore (analysis (frame_result now df)) = Some 65)
    /\ (forall zs,
           map amount df = map qz zs ->
           series_sum (map amount df) = qz (Int64.series_sum zs)
           /\ groupby_sum String.compare category df
              = as_amounts (Int64.groupby_sum (combine (map category df) zs))).
Proof.
  intros now df Hpos Hlt.
  split; [|intros zs Hm; apply nonneg_column_int64; assumption].
  cbn [frame_result suggestions analysis ExpenseAnalyzer._detailed_analysis
       efficiencyScore].
  rewrite generate_suggestions_rules, efficiency_score_adjusted.
  pose proof (high_low_exclusive df) as Hx.
  assert (Score : high_daily_variance df = true
                  <-> (Z.max 0 (Z.min 100 (adjusted_score df)) = 80
                       \/ Z.max 0 (Z.min 100 (adjusted_score df)) = 65)).
  { unfold adjusted_score.
    destruct (high_daily_variance df), (low_daily_variance df),
      (small_transaction_share df); try discriminate Hx; cbv;
      intuition discriminate. }
  split.
  - intro Hin.
    assert (Hh : high_daily_variance df = true).
    { apply firstn_incl, generated_members in Hin.
      destruct Hin as [H|[H|[H|[H|[H|[H _]]]]]].
      - apply rule_1_members in H. destruct H as [[H _]|[H _]]; discriminate H.
      - apply rule_2_members in H. destruct H as (l & p & H). discriminate H.
      - unfold Rules.rule_3 in H.
        destruct (high_daily_variance df); [reflexivity|contradiction].
      - apply rule_4_members in H. destruct H as (m & c & H & _). discriminate H.
      - apply rule_5_members in H. destruct H as (c & [H|H]); discriminate H.
      - discriminate H. }
    apply Score in Hh. destruct Hh as [-> | ->]; auto.
  - intro H.
    assert (Hh : high_daily_variance df = true).
    { apply Score. destruct H as [[= ->]|[= ->]]; auto. }
    unfold Rules.generated. cbv zeta.
    unfold Rules.rule_3 at 1. rewrite Hh.
    rewrite <- !app_assoc. rewrite app_assoc. cbn [app].
    apply firstn_keeps. rewrite length_app.
    pose proof (rule_1_length (series_sum (map amount df))).
    pose proof (rule_2_at_most_two df Hpos). lia.
Qed.

Lemma variance_tip_matches_score_witness :
  In Rules.daily_variance_tip
     (suggestions (frame_result (Sample.at_midnight 2024 3 12)
                     MoreExamples.three_days_frame))
  <-> efficiencyScore
        (analysis (frame_result (Sample.at_midnight 2024 3 12)
                     MoreExamples.three_days_frame)) = Some 80
      \/ efficiencyScore
           (analysis (frame_result (Sample.at_midnight 2024 3 12)
                        MoreExamples.three_days_frame)) = Some 65.
Proof.
  apply (variance_tip_matches_score (Sample.at_midnight 2024 3 12)
           MoreExamples.three_days_frame).
  - intros r [<-|[<-|[<-|[]]]]; vm_compute; discriminate.
  - vm_compute. reflexivity.
Defined.

(* ================================================================== *)
(** * Runs of the model *)

Example format_thousands : format_f true 2 (qz 12150) = "12,150.00".
Proof. reflexivity. Qed.

Example format_millions : format_f true 2 (Q2Qc 1234567.891) = "1,234,567.89".
Proof. reflexivity. Qed.

Example format_small : format_f true 2 (qz 999) = "999.00".
Proof. reflexivity. Qed.

Example format_negative : format_f false 1 (Q2Qc (-99.17)) = "-99.2".
Proof. reflexivity. Qed.

Example format_rounds_up : format_f false 1 (Q2Qc 7899.96) = "7900.0".
Proof. reflexivity. Qed.

Example weekday_of_sunday : dt_weekday (Sample.at_midnight 2024 3 10) = 6.
Proof. reflexivity. Qed.

Example weekday_of_epoch : dt_weekday (Sample.at_midnight 1970 1 1) = 3.
Proof. reflexivity. Qed.

Example quantile_of_scenario :
  format_f true 2 (quantile (Q2Qc 0.9) [qz 12000; qz 100; qz 50]) = "9,620.00".
Proof. reflexivity. Qed.

(** The single-record scenario of the specification. *)
Example single_record_analysis :
  let a := analysis (frame_result (Sample.at_midnight 2024 3 12)
             [mkExpense (Sample.at_midnight 2024 3 12) (qz 50) "Misc" "Card"]) in
  topCategory a = "Misc"
  /\ option_map (format_f true 2) (topCategoryAmount a) = Some "50.00"
  /\ efficiencyScore a = Some 85
  /\ patterns a = Some [].
Proof. repeat split. Qed.

(** Insights over 10 days on a total of 500. *)
Example insights_ten_days :
  match get_insights Sample.to_datetime Sample.to_numeric
          (Some (mkInsightsBody
                   (Some [ mkRawExpense "2024-03-10" (AmtNum (qz 200)) "Food" "Cash";
                           mkRawExpense "2024-03-11" (AmtStr "300") "Rent" "Card" ])
                   (Some 10))) with
  | Resp200 i =>
      format_f true 2 (ins_averageDailySpending i) = "50.00"
      /\ ins_topCategory i = "Rent"
      /\ ins_topPaymentMethod i = "Card"
      /\ ins_transactionCount i = 2
      /\ ins_daysAnalyzed i = 10
  | _ => False
  end.
Proof. vm_compute. repeat split. Qed.

Example insights_zero_days :
  get_insights Sample.to_datetime Sample.to_numeric
    (Some (mkInsightsBody
             (Some [ mkRawExpense "2024-03-10" (AmtNum (qz 200)) "Food" "Cash" ])
             (Some 0)))
  = Resp500 "Insights generation failed" "float division by zero".
Proof. reflexivity. Qed.

Example analyze_without_expenses :
  analyze_expenses Sample.to_datetime Sample.to_numeric 0
    (Some (mkAnalyzeBody None (Some "u1") None))
  = Resp400 "Missing expenses data".
Proof. reflexivity. Qed.

(** A total of zero with a positive category: the percentage is [inf]. *)
Example zero_total_percentage :
  map message
    (Rules.rule_2 [ mkExpense 0 (qz 5) "Food" "Cash";
                    mkExpense 0 (qz (-5)) "Refund" "Cash" ] (qz 0))
  = ["Food accounts for inf% of your spending. Consider setting a specific budget for this category."].
Proof. reflexivity. Qed.
